(** * useBackendVoiceAssistant: a shallow embedding of the voice-assistant hook

    The development follows [react app/src/hooks/useBackendVoiceAssistant.js].

    - [JS]       : the JavaScript values the hook handles (decoded JSON,
                   falsy tests, property reads, template strings).
    - [Meter]    : the body of [detectVoiceActivity], the voice activity
                   meter.
    - [Hook]     : the React state of the hook, its refs, the platform
                   objects they point to, and every handler and public
                   operation as a computation in a state-and-exception
                   monad; the events that drive the hook, and runs.
    - [Protocol] : the cases of the [switch] on the message type as a
                   tagged union, and the observations the theorems speak of.
    - the lemmas and theorems come last, by topic.

    Modelling conventions.
    - A [setX] call of React writes the field [X] of the hook state.  A value
      a closure captured at render time ([sessionData] in
      [connectToVoiceService], [isConnected] in [startListening],
      [isListening] in [toggleListening]) is an explicit argument [snap]; a
      call made from the latest render passes the current hook state.
    - An [await] on the environment (the session request, the microphone
      prompt, the room connection) is resolved in place by an outcome given
      as an argument; events that would interleave with the wait are not
      modelled, except for the one-second wait of [startListening], whose
      end is an event of its own.
    - Calls into the platform are recorded, in order, in a call log, and the
      state of the platform objects the refs point to is kept next to them.
      Console output and DOM updates are left out.
    - Time is a clock in milliseconds; a [setTimeout] callback is a pending
      due time, and it runs when the clock reaches that time. *)

From Stdlib Require Import List ZArith NArith QArith Qminmax String Bool Lia Ascii DecimalString.
From Stdlib Require Import RelationClasses.
From Stdlib.Strings Require Import Byte.
Import ListNotations.

Set Implicit Arguments.
Set Warnings "-register-all".

(* ===================================================================== *)
(** ** JavaScript values *)
(* ===================================================================== *)

Module JS.

Open Scope string_scope.

(** A decoded JSON value, plus [undefined].  Numbers matter to the hook
    only through their truthiness and their decimal rendering, so integers
    stand for them. *)
Inductive jsval : Type :=
| JUndefined
| JNull
| JBool (b : bool)
| JNum (n : Z)
| JStr (s : string)
| JArr (items : list jsval)
| JObj (fields : list (string * jsval)).

(** ToBoolean: what [!x] and [x || y] test. *)
Definition truthy (v : jsval) : bool :=
  match v with
  | JUndefined | JNull => false
  | JBool b => b
  | JNum n => negb (n =? 0)%Z
  | JStr s => negb (s =? "")
  | JArr _ | JObj _ => true
  end.

(** [a || b] *)
Definition js_or (a b : jsval) : jsval := if truthy a then a else b.

(** The own properties of an object, one entry for each key; a key that is
    not there reads as [undefined]. *)
Fixpoint assoc (k : string) (fields : list (string * jsval)) : jsval :=
  match fields with
  | [] => JUndefined
  | (k', v) :: rest => if k' =? k then v else assoc k rest
  end.

(** [v.k] for the property names the hook reads ([type], [transcript],
    [text], [message], [session_id], [livekit_room],
    [livekit_user_token]): [None] is the TypeError that reading a property
    of [null] or [undefined] throws; no primitive and no array has a
    property of one of these names. *)
Definition get_prop (v : jsval) (k : string) : option jsval :=
  match v with
  | JUndefined | JNull => None
  | JObj fields => Some (assoc k fields)
  | _ => Some JUndefined
  end.

(** [v.type === lit] for a string literal [lit]. *)
Definition is_str (v : jsval) (lit : string) : bool :=
  match v with
  | JStr s => s =? lit
  | _ => false
  end.

(** The decimal rendering of a non-negative integer in a template string. *)
Definition decimal (n : N) : string := NilZero.string_of_uint (N.to_uint n).

(** [s || lit] on strings. *)
Definition str_or (s lit : string) : string := if s =? "" then lit else s.

(** A thrown value: the [name] and [message] of an Error. *)
Record Exn : Type := { name : string; message : string }.

Definition TypeError (m : string) : Exn := {| name := "TypeError"; message := m |}.
Definition InvalidStateError (m : string) : Exn :=
  {| name := "InvalidStateError"; message := m |}.

End JS.

(* ===================================================================== *)
(** ** The voice activity meter *)
(* ===================================================================== *)

Module Meter.

(** The numbers [detectVoiceActivity] computes are quotients of sums of
    bytes.  The sums are small integers; the quotients are taken here as
    exact rationals, with the two special results a division by zero has
    in JavaScript. *)
Inductive jsnum : Type :=
| NaN
| PosInf
| Fin (q : Q).

(** [a / b] for two non-negative integers. *)
Definition div_int (a b : N) : jsnum :=
  if (b =? 0)%N then (if (a =? 0)%N then NaN else PosInf)
  else Fin (inject_Z (Z.of_N a) / inject_Z (Z.of_N b)).

(** [x / k] for a positive integer constant [k]. *)
Definition div_const (x : jsnum) (k : N) : jsnum :=
  match x with
  | NaN => NaN
  | PosInf => PosInf
  | Fin q => Fin (q / inject_Z (Z.of_N k))
  end.

(** [Math.min(1, x)] *)
Definition min1 (x : jsnum) : jsnum :=
  match x with
  | NaN => NaN
  | PosInf => Fin 1
  | Fin q => Fin (Qmin 1 q)
  end.

Definition maxHistoryLength : nat := 50.
Definition sensitivity : N := 30.

(** [for (i = 0; i < bufferLength; i++) sum += dataArray[i]] *)
Fixpoint sum_loop (dataArray : list byte) (sum : N) : N :=
  match dataArray with
  | [] => sum
  | x :: rest => sum_loop rest (sum + Byte.to_N x)
  end.

(** The second loop, from index [i] on, with the three running sums. *)
Fixpoint band_loop (midFreq highFreq i : N) (dataArray : list byte)
    (lowSum midSum highSum : N) : N * N * N :=
  match dataArray with
  | [] => (lowSum, midSum, highSum)
  | x :: rest =>
      if (i <? midFreq)%N then
        band_loop midFreq highFreq (i + 1) rest (lowSum + Byte.to_N x) midSum highSum
      else if (i <? highFreq)%N then
        band_loop midFreq highFreq (i + 1) rest lowSum (midSum + Byte.to_N x) highSum
      else
        band_loop midFreq highFreq (i + 1) rest lowSum midSum (highSum + Byte.to_N x)
  end.

Record Sample : Type :=
  { timestamp : N; overall : jsnum; low : jsnum; mid : jsnum; high : jsnum }.

(** The [detail] of the dispatched [voiceActivity] event. *)
Record Detail : Type :=
  { current : jsnum;
    frequencies : jsnum * jsnum * jsnum;
    history : list Sample }.

Definition midFreq_of (bufferLength : N) : N := (bufferLength / 3)%N.
Definition highFreq_of (bufferLength : N) : N := (2 * bufferLength / 3)%N.

(** One pass of [detectVoiceActivity] over the analyser's bins: the sample
    pushed to the history. *)
Definition sample_of (now : N) (dataArray : list byte) : Sample :=
  let bufferLength := N.of_nat (List.length dataArray) in
  let sum := sum_loop dataArray 0%N in
  let average := div_int sum bufferLength in
  let normalizedVolume := min1 (div_const average sensitivity) in
  let midFreq := midFreq_of bufferLength in
  let highFreq := highFreq_of bufferLength in
  let '(lowSum, midSum, highSum) := band_loop midFreq highFreq 0%N dataArray 0%N 0%N 0%N in
  let lowAvg := div_int lowSum midFreq in
  let midAvg := div_int midSum (highFreq - midFreq) in
  let highAvg := div_int highSum (bufferLength - highFreq) in
  {| timestamp := now;
     overall := normalizedVolume;
     low := min1 (div_const lowAvg sensitivity);
     mid := min1 (div_const midAvg sensitivity);
     high := min1 (div_const highAvg sensitivity) |}.

(** [activityHistory.push(s); if (length > maxHistoryLength) shift()] *)
Definition push_history (s : Sample) (activityHistory : list Sample) : list Sample :=
  let pushed := activityHistory ++ [s] in
  if Nat.ltb maxHistoryLength (List.length pushed) then tl pushed else pushed.

(** One animation frame: the new history and the event detail. *)
Definition detectVoiceActivity (now : N) (dataArray : list byte)
    (activityHistory : list Sample) : list Sample * Detail :=
  let s := sample_of now dataArray in
  let h := push_history s activityHistory in
  (h, {| current := overall s;
         frequencies := (low s, mid s, high s);
         history := h |}).

(** What the claim about the meter speaks of: the average magnitude of a
    range of bins, over the rationals. *)
Definition total (bins : list byte) : N :=
  fold_right (fun x acc => (Byte.to_N x + acc)%N) 0%N bins.

Definition average (bins : list byte) : Q :=
  inject_Z (Z.of_N (total bins)) / inject_Z (Z.of_nat (List.length bins)).

Definition normalized (bins : list byte) : Q :=
  Qmin 1 (average bins / inject_Z (Z.of_N sensitivity)).

(** The three contiguous ranges, split at floor(n/3) and floor(2n/3). *)
Definition low_band (bins : list byte) : list byte :=
  firstn (List.length bins / 3) bins.
Definition mid_band (bins : list byte) : list byte :=
  firstn (2 * List.length bins / 3 - List.length bins / 3) (skipn (List.length bins / 3) bins).
Definition high_band (bins : list byte) : list byte :=
  skipn (2 * List.length bins / 3) bins.

Definition in_unit (x : jsnum) : Prop :=
  match x with
  | Fin q => 0 <= q /\ q <= 1
  | _ => False
  end.

End Meter.

(* ===================================================================== *)
(** ** The hook: state, refs, platform objects, the monad *)
(* ===================================================================== *)

Module Hook.

Import JS.
Open Scope string_scope.

(** *** React state *)

Inductive Role : Type := user | assistant.

(** A transcript entry, [{ type, content }]. *)
Record Turn : Type := { type : Role; content : jsval }.

(** The eight [useState] cells.  [connectionStatus] holds one of the
    literals 'disconnected', 'connecting', 'connected', 'error'. *)
Record HookState : Type :=
  { isConnected : bool;
    isListening : bool;
    isSpeaking : bool;
    messages : list Turn;
    connectionStatus : string;
    error : jsval;
    sessionId : jsval;
    sessionData : jsval }.

(** *** Platform objects *)

Inductive ReadyState : Type := CONNECTING | OPEN | CLOSING | CLOSED.
Inductive RecorderState : Type := inactive | recording | paused.
Inductive TrackState : Type := live | ended.
Inductive ContextState : Type := running | closed.
Inductive RoomState : Type := room_disconnected | room_connected.

(** A WebSocket made by [connectToVoiceService]: its [readyState] and the
    [sessionDataToUse] its [onopen] closure captured. *)
Record Socket : Type := { readyState : ReadyState; session : jsval }.

Record Analyser : Type := { fftSize : N }.

(** The seven [useRef] cells.  [wsRef] holds a handle into the list of
    sockets of the world, since a second connect replaces the reference
    while the first socket lives on; the other refs hold the state of the
    object they point to. *)
Record Refs : Type :=
  { wsRef : option nat;
    mediaRecorderRef : option RecorderState;
    audioContextRef : option ContextState;
    audioStreamRef : option (list TrackState);
    roomRef : option RoomState;
    analyserRef : option Analyser;
    animationFrameRef : option N }.

Inductive Action : Type := start | stop.

(** What the hook sends on the socket: [{ type: 'control', action }] as
    JSON text, or a chunk of recorded audio as binary. *)
Inductive Payload : Type :=
| control (action : Action)
| audio_chunk (size : N).

(** Calls into the platform, as the log records them. *)
Inductive Call : Type :=
| fetch_sessions
| new_WebSocket (session_id : jsval)
| ws_send (h : nat) (payload : Payload)
| ws_close_call (h : nat)
| getUserMedia
| recorder_start
| recorder_stop
| track_stop (i : nat)
| context_close
| room_connect (token : jsval)
| publishTrack
| room_disconnect
| requestAnimationFrame (id : N)
| cancelAnimationFrame (id : N)
| dispatch_microphoneError (detail : string)
| dispatch_voiceActivity (detail : option Meter.Detail).

Record World : Type :=
  { hook : HookState;
    refs : Refs;
    sockets : list Socket;
    activityHistory : list Meter.Sample;
    timers : list N;
    now : N;
    log : list Call }.

(** *** Field updates *)

Definition with_hook (f : HookState -> HookState) (w : World) : World :=
  {| hook := f (hook w); refs := refs w; sockets := sockets w;
     activityHistory := activityHistory w;
     timers := timers w; now := now w; log := log w |}.

Definition with_refs (f : Refs -> Refs) (w : World) : World :=
  {| hook := hook w; refs := f (refs w); sockets := sockets w;
     activityHistory := activityHistory w;
     timers := timers w; now := now w; log := log w |}.

Definition with_sockets (f : list Socket -> list Socket) (w : World) : World :=
  {| hook := hook w; refs := refs w; sockets := f (sockets w);
     activityHistory := activityHistory w;
     timers := timers w; now := now w; log := log w |}.

Definition with_history (f : list Meter.Sample -> list Meter.Sample) (w : World) : World :=
  {| hook := hook w; refs := refs w; sockets := sockets w;
     activityHistory := f (activityHistory w);
     timers := timers w; now := now w; log := log w |}.

Definition with_timers (f : list N -> list N) (w : World) : World :=
  {| hook := hook w; refs := refs w; sockets := sockets w;
     activityHistory := activityHistory w;
     timers := f (timers w); now := now w; log := log w |}.

Definition with_call (c : Call) (w : World) : World :=
  {| hook := hook w; refs := refs w; sockets := sockets w;
     activityHistory := activityHistory w;
     timers := timers w; now := now w; log := log w ++ [c] |}.

(** *** The monad: state that survives a throw *)

Inductive Outcome (A : Type) : Type :=
| Ret (a : A)
| Throw (e : Exn).
Arguments Throw {A} e.

Definition M (A : Type) : Type := World -> Outcome A * World.

Definition ret {A} (a : A) : M A := fun w => (Ret a, w).
Definition throw {A} (e : Exn) : M A := fun w => (Throw e, w).

Definition bind {A B} (m : M A) (k : A -> M B) : M B :=
  fun w =>
    match m w with
    | (Ret a, w') => k a w'
    | (Throw e, w') => (Throw e, w')
    end.

(** [try { m } catch (err) { handler err }] *)
Definition try_catch {A} (m : M A) (handler : Exn -> M A) : M A :=
  fun w =>
    match m w with
    | (Ret a, w') => (Ret a, w')
    | (Throw e, w') => handler e w'
    end.

Definition modify (f : World -> World) : M unit := fun w => (Ret tt, f w).
Definition gets {A} (f : World -> A) : M A := fun w => (Ret (f w), w).

Declare Scope hook_scope.
Delimit Scope hook_scope with hook.
Notation "x <- m ;; k" := (bind m (fun x => k))
  (at level 61, m at next level, right associativity) : hook_scope.
Notation "m ;; k" := (bind m (fun _ => k))
  (at level 61, right associativity) : hook_scope.
Open Scope hook_scope.

Definition when (b : bool) (m : M unit) : M unit := if b then m else ret tt.

(** The world a computation leaves, whether it returned or threw. *)
Definition exec {A} (m : M A) (w : World) : World := snd (m w).

(** Whether a computation returned. *)
Definition returns {A} (m : M A) (w : World) : bool :=
  match fst (m w) with
  | Ret _ => true
  | Throw _ => false
  end.

(** [m] keeps [R]: the world it leaves, by return or by throw, is related
    to the one it started in. *)
Definition keeps (R : World -> World -> Prop) {A} (m : M A) : Prop :=
  forall w, R w (snd (m w)).

(** *** The setters of React *)

Definition setIsConnected (b : bool) : M unit :=
  modify (with_hook (fun s =>
    {| isConnected := b; isListening := isListening s; isSpeaking := isSpeaking s;
       messages := messages s; connectionStatus := connectionStatus s;
       error := error s; sessionId := sessionId s; sessionData := sessionData s |})).

Definition setIsListening (b : bool) : M unit :=
  modify (with_hook (fun s =>
    {| isConnected := isConnected s; isListening := b; isSpeaking := isSpeaking s;
       messages := messages s; connectionStatus := connectionStatus s;
       error := error s; sessionId := sessionId s; sessionData := sessionData s |})).

Definition set_speaking (b : bool) (s : HookState) : HookState :=
  {| isConnected := isConnected s; isListening := isListening s; isSpeaking := b;
     messages := messages s; connectionStatus := connectionStatus s;
     error := error s; sessionId := sessionId s; sessionData := sessionData s |}.

Definition setIsSpeaking (b : bool) : M unit := modify (with_hook (set_speaking b)).

(** [setMessages(prev => [...prev, t])] *)
Definition appendMessage (t : Turn) : M unit :=
  modify (with_hook (fun s =>
    {| isConnected := isConnected s; isListening := isListening s; isSpeaking := isSpeaking s;
       messages := messages s ++ [t]; connectionStatus := connectionStatus s;
       error := error s; sessionId := sessionId s; sessionData := sessionData s |})).

Definition setConnectionStatus (c : string) : M unit :=
  modify (with_hook (fun s =>
    {| isConnected := isConnected s; isListening := isListening s; isSpeaking := isSpeaking s;
       messages := messages s; connectionStatus := c;
       error := error s; sessionId := sessionId s; sessionData := sessionData s |})).

Definition set_error (e : jsval) (s : HookState) : HookState :=
  {| isConnected := isConnected s; isListening := isListening s; isSpeaking := isSpeaking s;
     messages := messages s; connectionStatus := connectionStatus s;
     error := e; sessionId := sessionId s; sessionData := sessionData s |}.

Definition setError (e : jsval) : M unit := modify (with_hook (set_error e)).

Definition setSessionId (v : jsval) : M unit :=
  modify (with_hook (fun s =>
    {| isConnected := isConnected s; isListening := isListening s; isSpeaking := isSpeaking s;
       messages := messages s; connectionStatus := connectionStatus s;
       error := error s; sessionId := v; sessionData := sessionData s |})).

Definition setSessionData (v : jsval) : M unit :=
  modify (with_hook (fun s =>
    {| isConnected := isConnected s; isListening := isListening s; isSpeaking := isSpeaking s;
       messages := messages s; connectionStatus := connectionStatus s;
       error := error s; sessionId := sessionId s; sessionData := v |})).

(** *** Writing the refs *)

Definition set_wsRef (v : option nat) (r : Refs) : Refs :=
  {| wsRef := v; mediaRecorderRef := mediaRecorderRef r;
     audioContextRef := audioContextRef r; audioStreamRef := audioStreamRef r;
     roomRef := roomRef r; analyserRef := analyserRef r;
     animationFrameRef := animationFrameRef r |}.

Definition set_mediaRecorderRef (v : option RecorderState) (r : Refs) : Refs :=
  {| wsRef := wsRef r; mediaRecorderRef := v;
     audioContextRef := audioContextRef r; audioStreamRef := audioStreamRef r;
     roomRef := roomRef r; analyserRef := analyserRef r;
     animationFrameRef := animationFrameRef r |}.

Definition set_audioContextRef (v : option ContextState) (r : Refs) : Refs :=
  {| wsRef := wsRef r; mediaRecorderRef := mediaRecorderRef r;
     audioContextRef := v; audioStreamRef := audioStreamRef r;
     roomRef := roomRef r; analyserRef := analyserRef r;
     animationFrameRef := animationFrameRef r |}.

Definition set_audioStreamRef (v : option (list TrackState)) (r : Refs) : Refs :=
  {| wsRef := wsRef r; mediaRecorderRef := mediaRecorderRef r;
     audioContextRef := audioContextRef r; audioStreamRef := v;
     roomRef := roomRef r; analyserRef := analyserRef r;
     animationFrameRef := animationFrameRef r |}.

Definition set_roomRef (v : option RoomState) (r : Refs) : Refs :=
  {| wsRef := wsRef r; mediaRecorderRef := mediaRecorderRef r;
     audioContextRef := audioContextRef r; audioStreamRef := audioStreamRef r;
     roomRef := v; analyserRef := analyserRef r;
     animationFrameRef := animationFrameRef r |}.

Definition set_analyserRef (v : option Analyser) (r : Refs) : Refs :=
  {| wsRef := wsRef r; mediaRecorderRef := mediaRecorderRef r;
     audioContextRef := audioContextRef r; audioStreamRef := audioStreamRef r;
     roomRef := roomRef r; analyserRef := v;
     animationFrameRef := animationFrameRef r |}.

Definition set_animationFrameRef (v : option N) (r : Refs) : Refs :=
  {| wsRef := wsRef r; mediaRecorderRef := mediaRecorderRef r;
     audioContextRef := audioContextRef r; audioStreamRef := audioStreamRef r;
     roomRef := roomRef r; analyserRef := analyserRef r;
     animationFrameRef := v |}.

Definition call (c : Call) : M unit := modify (with_call c).

(** [v.k], throwing the TypeError of a read on [null] or [undefined]. *)
Definition prop (v : jsval) (k : string) : M jsval :=
  match get_prop v k with
  | Some x => ret x
  | None => throw (TypeError ("Cannot read properties of null (reading '" ++ k ++ "')"))
  end.

(** *** Methods of the platform objects

    Each records its call.  A method throws where the platform's
    interface says so: [send] on a socket still connecting, [start] on a
    recorder that is not inactive, [stop] on one that is.  [start] may
    also fail for a reason of the platform's own (the stream cannot be
    recorded): the argument [fault] is that failure, if any.  [stop] on an
    ended track and [close] on a closed socket do nothing; [close] on a
    closed audio context rejects the promise it returns, which throws
    nothing in the caller. *)

Definition closed_socket : Socket := {| readyState := CLOSED; session := JNull |}.

Definition socket (h : nat) (w : World) : Socket := nth h (sockets w) closed_socket.

Fixpoint set_nth {A} (i : nat) (x : A) (l : list A) : list A :=
  match l, i with
  | [], _ => []
  | _ :: rest, O => x :: rest
  | y :: rest, S j => y :: set_nth j x rest
  end.

Definition set_readyState (h : nat) (r : ReadyState) : M unit :=
  modify (fun w =>
    with_sockets (set_nth h {| readyState := r; session := session (socket h w) |}) w).

(** [new WebSocket(wsUrl)]: the URL is fixed by the session id. *)
Definition WebSocket_new (session_id : jsval) (sessionDataToUse : jsval) : M nat :=
  h <- gets (fun w => List.length (sockets w)) ;;
  call (new_WebSocket session_id) ;;
  modify (with_sockets (fun l =>
    (l ++ [{| readyState := CONNECTING; session := sessionDataToUse |}])%list)) ;;
  ret h.

Definition is_open (r : ReadyState) : bool :=
  match r with OPEN => true | _ => false end.

Definition WebSocket_send (h : nat) (payload : Payload) : M unit :=
  call (ws_send h payload) ;;
  r <- gets (fun w => readyState (socket h w)) ;;
  match r with
  | CONNECTING => throw (InvalidStateError "Still in CONNECTING state.")
  | _ => ret tt
  end.

Definition WebSocket_close (h : nat) : M unit :=
  call (ws_close_call h) ;;
  r <- gets (fun w => readyState (socket h w)) ;;
  match r with
  | CONNECTING | OPEN => set_readyState h CLOSING
  | CLOSING | CLOSED => ret tt
  end.

Definition MediaRecorder_start (st : RecorderState) (fault : option Exn) : M unit :=
  call recorder_start ;;
  match st, fault with
  | inactive, None => modify (with_refs (set_mediaRecorderRef (Some recording)))
  | inactive, Some e => throw e
  | _, _ => throw (InvalidStateError "The MediaRecorder's state is not inactive.")
  end.

Definition MediaRecorder_stop (st : RecorderState) : M unit :=
  call recorder_stop ;;
  match st with
  | inactive => throw (InvalidStateError "The MediaRecorder's state is inactive.")
  | _ => modify (with_refs (set_mediaRecorderRef (Some inactive)))
  end.

(** [stream.getTracks().forEach(track => track.stop())], from track [i] on. *)
Fixpoint stop_calls (i : nat) (tracks : list TrackState) : list Call :=
  match tracks with
  | [] => []
  | _ :: rest => track_stop i :: stop_calls (S i) rest
  end.

Definition stop_tracks (tracks : list TrackState) : M unit :=
  modify (fun w =>
    {| hook := hook w;
       refs := set_audioStreamRef (Some (map (fun _ => ended) tracks)) (refs w);
       sockets := sockets w; activityHistory := activityHistory w;
       timers := timers w; now := now w;
       log := log w ++ stop_calls 0 tracks |}).

Definition AudioContext_close : M unit :=
  call context_close ;;
  modify (with_refs (set_audioContextRef (Some closed))).

Definition Room_disconnect : M unit :=
  call room_disconnect ;;
  modify (with_refs (set_roomRef (Some room_disconnected))).

(** *** The environment's answers to an [await] *)

(** [fetch(`${API_URL}/sessions`, ...)] and the reading of its body. *)
Inductive FetchOutcome : Type :=
| fetch_rejects (e : Exn)
| fetch_not_ok (status : N) (statusText errorText : string)
| fetch_bad_json (e : Exn)
| fetch_json (v : jsval).

(** The audio objects [initializeAudio] builds once it has the stream, in
    the order it builds them: each constructor can throw. *)
Inductive AudioStage : Type :=
| at_AudioContext
| at_MediaRecorder
| at_createAnalyser
| at_createMediaStreamSource.

Definition stage_eqb (a b : AudioStage) : bool :=
  match a, b with
  | at_AudioContext, at_AudioContext
  | at_MediaRecorder, at_MediaRecorder
  | at_createAnalyser, at_createAnalyser
  | at_createMediaStreamSource, at_createMediaStreamSource => true
  | _, _ => false
  end.

(** [getUserMedia({ audio: true })] and the constructors that follow it: a
    stream of so many live tracks and every audio object built; a
    rejection of the request; or a stream, and a constructor that throws
    ([new AudioContext()], [new MediaRecorder(stream, { mimeType })] when
    the type is not supported, [createAnalyser()], or
    [createMediaStreamSource(stream)] and its [connect]). *)
Inductive MicOutcome : Type :=
| mic_granted (tracks : nat)
| mic_denied (e : Exn)
| mic_granted_audio_fails (tracks : nat) (stage : AudioStage) (e : Exn).

(** [room.connect(url, token)] and the publishing that follows it when
    there is a stream: all of it succeeds; the connect is rejected; the
    room connects and [new LocalAudioTrack(...)] throws; or the room
    connects and [publishTrack] is rejected. *)
Inductive RoomOutcome : Type :=
| room_connects
| room_fails (e : Exn)
| room_track_fails (e : Exn)
| room_publish_fails (e : Exn).

(** *** createSession *)

Definition createSession (resp : FetchOutcome) : M jsval :=
  call fetch_sessions ;;
  match resp with
  | fetch_rejects e => throw e
  | fetch_not_ok status statusText errorText =>
      throw {| name := "Error";
               message := "Failed to create session: " ++ decimal status ++ " "
                          ++ statusText ++ " - " ++ errorText |}
  | fetch_bad_json e => throw e
  | fetch_json sessionData =>
      session_id <- prop sessionData "session_id" ;;
      setSessionId session_id ;;
      setSessionData sessionData ;;
      ret sessionData
  end.

(** *** requestMicrophoneAccess, initializeAudio *)

Definition microphone_message (e : Exn) : string :=
  if name e =? "NotAllowedError" then
    "Microphone access was denied. Please click the microphone button again and allow access when prompted."
  else if name e =? "NotFoundError" then
    "No microphone found. Please connect a microphone and try again."
  else if name e =? "NotReadableError" then
    "Microphone is being used by another application. Please close other applications and try again."
  else
    "Microphone access denied. Please allow microphone access in your browser settings.".

Definition requestMicrophoneAccess (mic : MicOutcome) : M (list TrackState) :=
  call getUserMedia ;;
  match mic with
  | mic_granted n | mic_granted_audio_fails n _ _ =>
      let stream := repeat live n in
      modify (with_refs (set_audioStreamRef (Some stream))) ;;
      setError JNull ;;
      ret stream
  | mic_denied err =>
      let errorMessage := microphone_message err in
      setError (JStr errorMessage) ;;
      call (dispatch_microphoneError errorMessage) ;;
      throw err
  end.

(** The constructor of the stage [stage]: it throws when the environment
    says so. *)
Definition construct (stage : AudioStage) (mic : MicOutcome) : M unit :=
  match mic with
  | mic_granted_audio_fails _ s e => if stage_eqb s stage then throw e else ret tt
  | _ => ret tt
  end.

Definition initializeAudio (mic : MicOutcome) : M bool :=
  try_catch
    (stream <- requestMicrophoneAccess mic ;;
     construct at_AudioContext mic ;;
     modify (with_refs (set_audioContextRef (Some running))) ;;
     construct at_MediaRecorder mic ;;
     modify (with_refs (set_mediaRecorderRef (Some inactive))) ;;
     construct at_createAnalyser mic ;;
     modify (with_refs (set_analyserRef (Some {| fftSize := 256 |}))) ;;
     construct at_createMediaStreamSource mic ;;
     ret true)
    (fun err =>
       setError (JStr ("Failed to initialize audio: " ++ message err)) ;;
       ret false).

(** [mediaRecorderRef.current.ondataavailable], with the load of the
    FileReader it starts: a chunk that is not empty is sent on the open
    socket while the room is connected, and dropped otherwise. *)
Definition ondataavailable (size : N) : M unit :=
  room <- gets (fun w => roomRef (refs w)) ;;
  match room with
  | Some room_connected =>
      if (0 <? size)%N then
        ws <- gets (fun w => wsRef (refs w)) ;;
        match ws with
        | Some h =>
            r <- gets (fun w => readyState (socket h w)) ;;
            when (is_open r) (WebSocket_send h (audio_chunk size))
        | None => ret tt
        end
      else ret tt
  | _ => ret tt
  end.

(** *** The voice activity loop *)

(** [getByteFrequencyData] into a fresh [Uint8Array(bufferLength)]: the
    first [bufferLength] bins of the spectrum, zero where it has none. *)
Definition getByteFrequencyData (bufferLength : nat) (spectrum : list byte) : list byte :=
  firstn bufferLength (spectrum ++ repeat x00 bufferLength).

Definition frequencyBinCount (a : Analyser) : nat := N.to_nat (fftSize a / 2).

(** The id [requestAnimationFrame] hands out: one more than the last. *)
Definition next_frame_id (w : World) : N :=
  match animationFrameRef (refs w) with
  | Some id => (id + 1)%N
  | None => 1%N
  end.

Definition detectVoiceActivity (spectrum : list byte) : M unit :=
  a <- gets (fun w => analyserRef (refs w)) ;;
  match a with
  | None => ret tt
  | Some analyser =>
      let dataArray := getByteFrequencyData (frequencyBinCount analyser) spectrum in
      t <- gets now ;;
      h <- gets activityHistory ;;
      let '(h', detail) := Meter.detectVoiceActivity t dataArray h in
      modify (with_history (fun _ => h')) ;;
      call (dispatch_voiceActivity (Some detail)) ;;
      id <- gets next_frame_id ;;
      call (requestAnimationFrame id) ;;
      modify (with_refs (set_animationFrameRef (Some id)))
  end.

(** A start makes a new, empty history array and a new loop, and runs the
    first frame of it at once.  [activityHistory] is from then on the
    array of this loop.  A loop that an earlier start left pending is not
    touched: its frames are the events [earlier_frame] below. *)
Definition startVoiceActivityDetection (spectrum : list byte) : M unit :=
  a <- gets (fun w => analyserRef (refs w)) ;;
  match a with
  | None => ret tt
  | Some _ =>
      modify (with_history (fun _ => [])) ;;
      detectVoiceActivity spectrum
  end.

(** One frame of a loop of an earlier start, whose own history array holds
    [history]: it reads the analyser and the clock as they are now, pushes
    onto its own array, dispatches, requests its next frame and leaves
    the id of that frame in [animationFrameRef]. *)
Definition detectVoiceActivity_of (history : list Meter.Sample) (spectrum : list byte)
    : M unit :=
  a <- gets (fun w => analyserRef (refs w)) ;;
  match a with
  | None => ret tt
  | Some analyser =>
      let dataArray := getByteFrequencyData (frequencyBinCount analyser) spectrum in
      t <- gets now ;;
      let '(_, detail) := Meter.detectVoiceActivity t dataArray history in
      call (dispatch_voiceActivity (Some detail)) ;;
      id <- gets next_frame_id ;;
      call (requestAnimationFrame id) ;;
      modify (with_refs (set_animationFrameRef (Some id)))
  end.

Definition stopVoiceActivityDetection : M unit :=
  f <- gets (fun w => animationFrameRef (refs w)) ;;
  match f with
  | Some id =>
      call (cancelAnimationFrame id) ;;
      modify (with_refs (set_animationFrameRef None))
  | None => ret tt
  end ;;
  call (dispatch_voiceActivity None).

(** *** The LiveKit room *)

Definition connectToLiveKitRoom (roomName token : jsval) (lk : RoomOutcome) : M unit :=
  try_catch
    (modify (with_refs (set_roomRef (Some room_disconnected))) ;;
     call (room_connect token) ;;
     match lk with
     | room_fails e => throw e
     | _ => modify (with_refs (set_roomRef (Some room_connected)))
     end ;;
     stream <- gets (fun w => audioStreamRef (refs w)) ;;
     match stream with
     | Some _ =>
         match lk with
         | room_track_fails e => throw e
         | room_publish_fails e => call publishTrack ;; throw e
         | _ => call publishTrack
         end
     | None => ret tt
     end)
    (fun err =>
       setError (JStr ("Failed to connect to voice service: " ++ message err)) ;;
       throw err).

(** [track.kind === Track.Kind.Audio] is the argument [audio]. *)
Definition handleTrackSubscribed (audio : bool) : M unit :=
  when audio (setIsSpeaking true).

Definition handleTrackUnsubscribed (audio : bool) : M unit :=
  when audio (setIsSpeaking false).

(** What [JSON.parse] makes of an inbound frame. *)
Inductive Frame : Type :=
| malformed (e : Exn)
| parsed (data : jsval).

Definition JSON_parse (f : Frame) : M jsval :=
  match f with
  | malformed e => throw e
  | parsed data => ret data
  end.

Definition handleDataReceived (payload : Frame) : M unit :=
  try_catch
    (data <- JSON_parse payload ;;
     ty <- prop data "type" ;;
     if is_str ty "user_transcript" then
       transcript <- prop data "transcript" ;;
       appendMessage {| type := user; content := transcript |}
     else if is_str ty "ai_response" then
       text <- prop data "text" ;;
       appendMessage {| type := assistant; content := text |}
     else if is_str ty "listening_started" then
       setIsListening true ;; setIsSpeaking false
     else if is_str ty "listening_stopped" then
       setIsListening false
     else if is_str ty "processing_started" then
       setIsListening false ;; setIsSpeaking true
     else if is_str ty "processing_stopped" then
       setIsSpeaking false
     else ret tt)
    (fun _ => ret tt).

Definition release_audio : M unit :=
  stream <- gets (fun w => audioStreamRef (refs w)) ;;
  match stream with
  | Some tracks => stop_tracks tracks
  | None => ret tt
  end ;;
  ctx <- gets (fun w => audioContextRef (refs w)) ;;
  match ctx with
  | Some _ => AudioContext_close
  | None => ret tt
  end.

Definition handleRoomDisconnected : M unit :=
  setIsConnected false ;;
  setConnectionStatus "disconnected" ;;
  release_audio.

(** *** connectToVoiceService and the handlers it installs *)

Definition connectToVoiceService (snap : HookState) (resp : FetchOutcome) : M unit :=
  try_catch
    (setConnectionStatus "connecting" ;;
     setError JNull ;;
     sessionDataToUse <-
       (if negb (truthy (sessionData snap)) then createSession resp
        else ret (sessionData snap)) ;;
     session_id <- prop sessionDataToUse "session_id" ;;
     h <- WebSocket_new session_id sessionDataToUse ;;
     modify (with_refs (set_wsRef (Some h))))
    (fun err =>
       setError (JStr (str_or (message err) "Failed to connect to voice service")) ;;
       setConnectionStatus "error").

Definition welcome : Turn :=
  {| type := assistant;
     content := JStr "Hello! I'm your Enterprise Travel Assistant. How can I help you plan your next trip?" |}.

(** [onopen] of the socket [h].  [go_on] is [false] when the handler
    leaves at the [return] of its catch block. *)
Definition onopen (h : nat) (mic : MicOutcome) (lk : RoomOutcome) : M unit :=
  sessionDataToUse <- gets (fun w => session (socket h w)) ;;
  initializeAudio mic ;;
  token <- prop sessionDataToUse "livekit_user_token" ;;
  room <- (if truthy token then prop sessionDataToUse "livekit_room" else ret token) ;;
  go_on <-
    (if truthy room then
       try_catch
         (connectToLiveKitRoom room token lk ;;
          setIsConnected true ;;
          setConnectionStatus "connected" ;;
          setError JNull ;;
          ret true)
         (fun err =>
            setError (JStr ("Failed to connect to voice service: " ++ message err)) ;;
            setConnectionStatus "error" ;;
            ret false)
     else
       setIsConnected true ;;
       setConnectionStatus "connected" ;;
       setError JNull ;;
       ret true) ;;
  when go_on (appendMessage welcome).

(** [setTimeout(() => setIsSpeaking(false), 2000)]: the id it returns is
    dropped, so nothing can clear the timer. *)
Definition setTimeout_clear_speaking (delay : N) : M unit :=
  modify (fun w => with_timers (fun l => (l ++ [(now w + delay)%N])%list) w).

Definition handleMessageFromBackend (data : jsval) : M unit :=
  ty <- prop data "type" ;;
  if is_str ty "user_transcript" then
    transcript <- prop data "transcript" ;;
    appendMessage {| type := user; content := transcript |}
  else if is_str ty "ai_response" then
    text <- prop data "text" ;;
    appendMessage {| type := assistant; content := text |} ;;
    setIsSpeaking true ;;
    setTimeout_clear_speaking 2000
  else if is_str ty "listening_started" then
    setIsListening true ;; setIsSpeaking false
  else if is_str ty "listening_stopped" then
    setIsListening false
  else if is_str ty "processing_started" then
    setIsListening false ;; setIsSpeaking true
  else if is_str ty "processing_stopped" then
    setIsSpeaking false
  else if is_str ty "session_ready" then ret tt
  else if is_str ty "session_stopped" then ret tt
  else if is_str ty "connection_established" then ret tt
  else if is_str ty "error" then
    m <- prop data "message" ;;
    setError (js_or m (JStr "Unknown error from backend"))
  else ret tt.

Definition onmessage (event_data : Frame) : M unit :=
  try_catch
    (data <- JSON_parse event_data ;;
     handleMessageFromBackend data)
    (fun _ => setError (JStr "Error processing response from voice service")).

(** [onerror]: the event's [message], if it has one, and its [toString()]. *)
Definition onerror (error_message : option string) (error_toString : string) : M unit :=
  let errorMessage :=
    match error_message with
    | Some m => str_or m error_toString
    | None => error_toString
    end in
  setError (JStr ("Connection error: " ++ errorMessage)) ;;
  setConnectionStatus "error".

Definition stop_recorder_unless_inactive : M unit :=
  rec <- gets (fun w => mediaRecorderRef (refs w)) ;;
  match rec with
  | Some inactive | None => ret tt
  | Some st => MediaRecorder_stop st
  end.

Definition disconnect_room : M unit :=
  room <- gets (fun w => roomRef (refs w)) ;;
  match room with
  | Some _ => Room_disconnect
  | None => ret tt
  end.

Definition close_message (code : N) (reason : string) : string :=
  "Connection closed: " ++ str_or reason "Unknown reason"
    ++ " (Code: " ++ decimal code ++ ")".

Definition onclose (code : N) (reason : string) : M unit :=
  setIsConnected false ;;
  stop_recorder_unless_inactive ;;
  release_audio ;;
  disconnect_room ;;
  if negb (code =? 1000)%N then
    setError (JStr (close_message code reason)) ;;
    setConnectionStatus "error"
  else
    setConnectionStatus "disconnected".

(** *** The public operations *)

(** The [try] block of [startListening], run after the optional connect
    and its one-second wait. *)
Definition startListening_body (fault : option Exn) : M unit :=
  try_catch
    (ws <- gets (fun w => wsRef (refs w)) ;;
     match ws with
     | Some h =>
         r <- gets (fun w => readyState (socket h w)) ;;
         when (is_open r) (WebSocket_send h (control start))
     | None => ret tt
     end ;;
     rec <- gets (fun w => mediaRecorderRef (refs w)) ;;
     match rec with
     | Some inactive => MediaRecorder_start inactive fault
     | _ => ret tt
     end)
    (fun err => setError (JStr ("Failed to start listening: " ++ message err))).

(** [startListening] with nothing interleaved in its wait. *)
Definition startListening (snap : HookState) (resp : FetchOutcome)
    (fault : option Exn) : M unit :=
  when (negb (isConnected snap)) (connectToVoiceService snap resp) ;;
  startListening_body fault.

Definition stopListening : M unit :=
  try_catch
    (ws <- gets (fun w => wsRef (refs w)) ;;
     match ws with
     | Some h =>
         r <- gets (fun w => readyState (socket h w)) ;;
         when (is_open r) (WebSocket_send h (control stop))
     | None => ret tt
     end ;;
     rec <- gets (fun w => mediaRecorderRef (refs w)) ;;
     match rec with
     | Some recording => MediaRecorder_stop recording
     | _ => ret tt
     end)
    (fun err => setError (JStr ("Failed to stop listening: " ++ message err))).

Definition toggleListening (snap : HookState) (resp : FetchOutcome)
    (fault : option Exn) : M unit :=
  if isListening snap then stopListening else startListening snap resp fault.

(** The cleanup of the effect, run on unmount. *)
Definition cleanup : M unit :=
  stop_recorder_unless_inactive ;;
  release_audio ;;
  ws <- gets (fun w => wsRef (refs w)) ;;
  match ws with
  | Some h => WebSocket_close h
  | None => ret tt
  end ;;
  disconnect_room ;;
  f <- gets (fun w => animationFrameRef (refs w)) ;;
  match f with
  | Some id => call (cancelAnimationFrame id)
  | None => ret tt
  end.

(** *** Timers and the clock *)

(** The callbacks due at time [t] run, in the order they were set; the
    others stay pending. *)
Fixpoint fire_due (t : N) (pending : list N) (s : HookState) : list N * HookState :=
  match pending with
  | [] => ([], s)
  | due :: rest =>
      if (due <=? t)%N then fire_due t rest (set_speaking false s)
      else let (p, s') := fire_due t rest s in (due :: p, s')
  end.

(** [dt] milliseconds pass. *)
Definition elapse_by (dt : N) (w : World) : World :=
  let t := (now w + dt)%N in
  let (p, s) := fire_due t (timers w) (hook w) in
  {| hook := s; refs := refs w; sockets := sockets w;
     activityHistory := activityHistory w;
     timers := p; now := t; log := log w |}.

(** The room marks itself disconnected before it tells its listeners. *)
Definition room_state_disconnected : M unit :=
  room <- gets (fun w => roomRef (refs w)) ;;
  match room with
  | Some _ => modify (with_refs (set_roomRef (Some room_disconnected)))
  | None => ret tt
  end.

(** *** Events and runs *)

(** Everything that can happen to a mounted hook: what the socket and the
    room deliver, what the recorder and the animation clock fire, what the
    presentation layer calls (from its latest render), and time passing.
    [startListening_resumes] is the end of the one-second wait of a
    [startListening] that had to connect first.

    [animation_frame] is the frame whose id [animationFrameRef] holds: it
    belongs to the loop that [activityHistory] is the array of, and does
    not run once a stop has cleared the ref.  [earlier_frame] is a frame
    of any other loop that is still pending (a start does not cancel the
    loop of an earlier start, and a stop cancels only the id the ref
    holds); the array of that loop is known to its closure only, so the
    event carries it.  The unmount cleanup cancels the frame without
    clearing the ref; [animation_frame] is still let through after it, so
    the runs of these events include every run of the hook. *)
Inductive Event : Type :=
| ws_open (h : nat) (mic : MicOutcome) (lk : RoomOutcome)
| ws_message (f : Frame)
| ws_error (error_message : option string) (error_toString : string)
| ws_close (h : nat) (code : N) (reason : string)
| room_data (f : Frame)
| room_track_subscribed (audio : bool)
| room_track_unsubscribed (audio : bool)
| room_closed
| recorder_ondataavailable (size : N)
| recorder_onstart (spectrum : list byte)
| animation_frame (spectrum : list byte)
| earlier_frame (history : list Meter.Sample) (spectrum : list byte)
| recorder_onstop
| call_connectToVoiceService (resp : FetchOutcome)
| call_startListening (resp : FetchOutcome) (fault : option Exn)
| startListening_resumes (fault : option Exn)
| call_stopListening
| call_toggleListening (resp : FetchOutcome) (fault : option Exn)
| unmount
| elapse (dt : N).

(** [startListening] up to the wait that follows a connect. *)
Definition startListening_until_wait (snap : HookState) (resp : FetchOutcome)
    (fault : option Exn) : M unit :=
  if isConnected snap then startListening_body fault
  else connectToVoiceService snap resp.

Definition step (ev : Event) (w : World) : World :=
  match ev with
  | ws_open h mic lk => exec (set_readyState h OPEN ;; onopen h mic lk) w
  | ws_message f => exec (onmessage f) w
  | ws_error m s => exec (onerror m s) w
  | ws_close h code reason => exec (set_readyState h CLOSED ;; onclose code reason) w
  | room_data f => exec (handleDataReceived f) w
  | room_track_subscribed audio => exec (handleTrackSubscribed audio) w
  | room_track_unsubscribed audio => exec (handleTrackUnsubscribed audio) w
  | room_closed => exec (room_state_disconnected ;; handleRoomDisconnected) w
  | recorder_ondataavailable size => exec (ondataavailable size) w
  | recorder_onstart spectrum => exec (startVoiceActivityDetection spectrum) w
  | animation_frame spectrum =>
      match animationFrameRef (refs w) with
      | Some _ => exec (detectVoiceActivity spectrum) w
      | None => w
      end
  | earlier_frame history spectrum => exec (detectVoiceActivity_of history spectrum) w
  | recorder_onstop => exec stopVoiceActivityDetection w
  | call_connectToVoiceService resp => exec (connectToVoiceService (hook w) resp) w
  | call_startListening resp fault =>
      exec (startListening_until_wait (hook w) resp fault) w
  | startListening_resumes fault => exec (startListening_body fault) w
  | call_stopListening => exec stopListening w
  | call_toggleListening resp fault =>
      if isListening (hook w) then exec stopListening w
      else exec (startListening_until_wait (hook w) resp fault) w
  | unmount => exec cleanup w
  | elapse dt => elapse_by dt w
  end.

Definition run (evs : list Event) (w : World) : World := fold_left (fun w ev => step ev w) evs w.

(** The hook as [useState] and [useRef] initialise it. *)
Definition initial : World :=
  {| hook := {| isConnected := false; isListening := false; isSpeaking := false;
                messages := []; connectionStatus := "disconnected";
                error := JNull; sessionId := JNull; sessionData := JNull |};
     refs := {| wsRef := None; mediaRecorderRef := None; audioContextRef := None;
                audioStreamRef := None; roomRef := None; analyserRef := None;
                animationFrameRef := None |};
     sockets := []; activityHistory := []; timers := []; now := 0%N; log := [] |}.

(** A control message of a given type, as the backend sends it. *)
Definition msg (ty : string) (fields : list (string * jsval)) : Frame :=
  parsed (JObj (("type", JStr ty) :: fields)).

End Hook.

(* ===================================================================== *)
(** ** Inbound control messages as a tagged union *)
(* ===================================================================== *)

Module Protocol.

Import JS Hook.
Open Scope string_scope.

(** The cases of the two [switch (data.type)] statements, with the fields
    each case reads.  [unknown_type] is the [default] case; [undecodable]
    is a frame whose handling leaves the [try] block by a throw
    ([JSON.parse] fails, or the decoded value is [null]). *)
Inductive Msg : Type :=
| user_transcript (transcript : jsval)
| ai_response (text : jsval)
| listening_started
| listening_stopped
| processing_started
| processing_stopped
| session_ready
| session_stopped
| connection_established
| error_msg (message : jsval)
| unknown_type
| undecodable.

(** [data.k] of a value known not to be [null]. *)
Definition field (data : jsval) (k : string) : jsval :=
  match get_prop data k with
  | Some v => v
  | None => JUndefined
  end.

(** The case [handleMessageFromBackend] takes. *)
Definition decode (f : Frame) : Msg :=
  match f with
  | malformed _ => undecodable
  | parsed data =>
      match get_prop data "type" with
      | None => undecodable
      | Some ty =>
          if is_str ty "user_transcript" then user_transcript (field data "transcript")
          else if is_str ty "ai_response" then ai_response (field data "text")
          else if is_str ty "listening_started" then listening_started
          else if is_str ty "listening_stopped" then listening_stopped
          else if is_str ty "processing_started" then processing_started
          else if is_str ty "processing_stopped" then processing_stopped
          else if is_str ty "session_ready" then session_ready
          else if is_str ty "session_stopped" then session_stopped
          else if is_str ty "connection_established" then connection_established
          else if is_str ty "error" then error_msg (field data "message")
          else unknown_type
      end
  end.

(** What [onmessage] does in each case. *)
Definition on_socket (m : Msg) : M unit :=
  match m with
  | user_transcript transcript =>
      appendMessage {| type := user; content := transcript |}
  | ai_response text =>
      appendMessage {| type := assistant; content := text |} ;;
      setIsSpeaking true ;;
      setTimeout_clear_speaking 2000
  | listening_started => setIsListening true ;; setIsSpeaking false
  | listening_stopped => setIsListening false
  | processing_started => setIsListening false ;; setIsSpeaking true
  | processing_stopped => setIsSpeaking false
  | session_ready | session_stopped | connection_established | unknown_type => ret tt
  | error_msg message => setError (js_or message (JStr "Unknown error from backend"))
  | undecodable => setError (JStr "Error processing response from voice service")
  end.

(** What [handleDataReceived] does in each case: its [switch] has six
    cases, and its [catch] only logs. *)
Definition on_room (m : Msg) : M unit :=
  match m with
  | user_transcript transcript =>
      appendMessage {| type := user; content := transcript |}
  | ai_response text =>
      appendMessage {| type := assistant; content := text |}
  | listening_started => setIsListening true ;; setIsSpeaking false
  | listening_stopped => setIsListening false
  | processing_started => setIsListening false ;; setIsSpeaking true
  | processing_stopped => setIsSpeaking false
  | _ => ret tt
  end.

(** The Turn a message appends, if it is one of the two that append. *)
Definition turn_of (m : Msg) : option Turn :=
  match m with
  | user_transcript transcript => Some {| type := user; content := transcript |}
  | ai_response text => Some {| type := assistant; content := text |}
  | _ => None
  end.

(** A trace of inbound control messages, on either path, with the time
    that passes between them. *)
Inductive Inbound : Type :=
| via_socket (f : Frame)
| via_room (f : Frame)
| wait (dt : N).

Definition inbound_event (i : Inbound) : Event :=
  match i with
  | via_socket f => ws_message f
  | via_room f => room_data f
  | wait dt => elapse dt
  end.

Definition receive (tr : list Inbound) (w : World) : World :=
  run (map inbound_event tr) w.

(** An [ai_response] handled by [onmessage]: the one message that sets a
    timer. *)
Definition sets_timer (i : Inbound) : bool :=
  match i with
  | via_socket f =>
      match decode f with
      | ai_response _ => true
      | _ => false
      end
  | _ => false
  end.

(** The due time [due] belongs to a timer that an [ai_response] of the
    trace [tr], handled by [onmessage] from the initial state, set 2000 ms
    before. *)
Definition set_by (tr : list Inbound) (due : N) : Prop :=
  exists pre i post,
    tr = (pre ++ i :: post)%list /\ sets_timer i = true /\
    due = (now (receive pre initial) + 2000)%N.

(** Both flags at once. *)
Definition both_flags (w : World) : bool :=
  isListening (hook w) && isSpeaking (hook w).

(** What holds after every trace of inbound messages: each pending timer
    lies ahead and was set by an [ai_response] of the trace, and both flags
    are up only while a timer is pending. *)
Definition window_invariant (tr : list Inbound) (w : World) : Prop :=
  (forall due, In due (timers w) -> (now w < due)%N /\ set_by tr due) /\
  (both_flags w = true -> timers w <> []).

(** The transcript of [w'] is that of [w] with Turns added at its end. *)
Definition extends (w w' : World) : Prop :=
  exists suffix, messages (hook w') = (messages (hook w) ++ suffix)%list.

(** The Turn an event appends when it is a [user_transcript] or an
    [ai_response] arriving on either path. *)
Definition appends (ev : Event) : option Turn :=
  match ev with
  | ws_message f | room_data f => turn_of (decode f)
  | _ => None
  end.

(** From [w] to [w'] the clock stood still and every pending timer stayed
    pending (new ones may have been set). *)
Definition pending_kept (w w' : World) : Prop :=
  now w' = now w /\ exists extra, timers w' = (timers w ++ extra)%list.

(** *** Teardown, as an effect on the refs and on the log *)

(** The refs after the teardown steps that [onclose] and the unmount
    cleanup share: the recorder inactive, every track ended, the audio
    context closed, the room disconnected.  No ref is reset to [null]. *)
Definition tear (r : Refs) : Refs :=
  {| wsRef := wsRef r;
     mediaRecorderRef :=
       match mediaRecorderRef r with Some _ => Some inactive | None => None end;
     audioContextRef :=
       match audioContextRef r with Some _ => Some closed | None => None end;
     audioStreamRef :=
       match audioStreamRef r with
       | Some tracks => Some (map (fun _ => ended) tracks)
       | None => None
       end;
     roomRef :=
       match roomRef r with Some _ => Some room_disconnected | None => None end;
     analyserRef := analyserRef r;
     animationFrameRef := animationFrameRef r |}.

Definition recorder_calls (r : Refs) : list Call :=
  match mediaRecorderRef r with
  | Some inactive | None => []
  | Some _ => [recorder_stop]
  end.

Definition audio_calls (r : Refs) : list Call :=
  (match audioStreamRef r with
   | Some tracks => stop_calls 0 tracks
   | None => []
   end
   ++ match audioContextRef r with
      | Some _ => [context_close]
      | None => []
      end)%list.

Definition room_calls (r : Refs) : list Call :=
  match roomRef r with Some _ => [room_disconnect] | None => [] end.




(** The hook state [onclose] leaves. *)
Definition closed_hook (code : N) (reason : string) (s : HookState) : HookState :=
  {| isConnected := false;
     isListening := isListening s;
     isSpeaking := isSpeaking s;
     messages := messages s;
     connectionStatus := if (code =? 1000)%N then "disconnected" else "error";
     error := if (code =? 1000)%N then error s else JStr (close_message code reason);
     sessionId := sessionId s;
     sessionData := sessionData s |}.

(** *** A session and a connected hook, for examples *)

Definition session_abc123 : jsval :=
  JObj [("session_id", JStr "abc123"); ("livekit_room", JStr "r1");
        ("livekit_user_token", JStr "t1")].

(** The hook after a connect whose session request succeeded, whose socket
    opened, whose microphone gave one track and whose room connected. *)
Definition connected_world : World :=
  run [call_connectToVoiceService (fetch_json session_abc123);
       ws_open 0 (mic_granted 1) room_connects] initial.

(** What an event does to isListening, if anything: only three inbound
    message types touch the flag. *)
Definition sets_listening (ev : Event) : option bool :=
  match ev with
  | ws_message f | room_data f =>
      match decode f with
      | listening_started => Some true
      | listening_stopped | processing_started => Some false
      | _ => None
      end
  | _ => None
  end.


(** From [w] to [w'] isListening kept its value. *)
Definition same_listening (w w' : World) : Prop :=
  isListening (hook w') = isListening (hook w).

(** The calls [stopListening] and [startListening] may make once the hook
    is connected: a control message on the socket, and the recorder. *)
Definition stop_call (c : Call) : Prop :=
  c = recorder_stop \/ exists h, c = ws_send h (control stop).
Definition start_call (c : Call) : Prop :=
  c = recorder_start \/ exists h, c = ws_send h (control start).



End Protocol.

(* ===================================================================== *)
(** ** What the opening of the socket calls *)
(* ===================================================================== *)

Module Opening.

Import JS Hook.

(** The calls of [initializeAudio]: the request for the microphone and,
    when it is denied, the [microphoneError] event. *)
Definition microphone_calls (mic : MicOutcome) : list Call :=
  getUserMedia ::
  match mic with
  | mic_denied e => [dispatch_microphoneError (microphone_message e)]
  | _ => []
  end.

(** The stream [initializeAudio] leaves in [audioStreamRef]. *)
Definition stream_after (mic : MicOutcome) (before : option (list TrackState))
    : option (list TrackState) :=
  match mic with
  | mic_granted n | mic_granted_audio_fails n _ _ => Some (repeat live n)
  | mic_denied _ => before
  end.

(** The calls of the publishing step of [connectToLiveKitRoom] when there
    is a stream. *)
Definition publish_calls (lk : RoomOutcome) : list Call :=
  match lk with
  | room_track_fails _ => []
  | _ => [publishTrack]
  end.

End Opening.

(* ===================================================================== *)
(** ** The WebSocket URL *)
(* ===================================================================== *)

Module Url.

Open Scope string_scope.

(** [s.slice(n)] *)
Fixpoint drop (n : nat) (s : string) : string :=
  match n, s with
  | O, _ => s
  | S _, EmptyString => EmptyString
  | S n', String _ rest => drop n' rest
  end.

(** [s.replace(pattern, replacement)] for a pattern and a replacement that
    are plain strings (no [$] in the replacement): the first occurrence of
    the pattern is replaced, and a string without one is returned as it
    is. *)
Fixpoint replace (pattern replacement s : string) : string :=
  if String.prefix pattern s then replacement ++ drop (String.length pattern) s
  else match s with
       | EmptyString => EmptyString
       | String c rest => String c (replace pattern replacement rest)
       end.

(** [`${API_URL.replace('http', 'ws')}/ws/${session_id}`], for a session id
    that is a string. *)
Definition wsUrl (API_URL session_id : string) : string :=
  replace "http" "ws" API_URL ++ "/ws/" ++ session_id.

End Url.

(* ===================================================================== *)
(** ** ChatInterface: the visualizer and the microphone banner *)
(* ===================================================================== *)

Module Chat.

Import JS.
Open Scope string_scope.

(** [getVisualizerState] *)
Definition getVisualizerState (isListening isSpeaking isConnected : bool) : string :=
  if isListening then "listening"
  else if isSpeaking then "speaking"
  else if isConnected then "connected"
  else "disconnected".

(** [state === 'listening' || state === 'speaking'] *)
Definition isActive (state : string) : bool :=
  (state =? "listening") || (state =? "speaking").

(** [disabled={!isConnected}] of the microphone button. *)
Definition button_disabled (isConnected : bool) : bool := negb isConnected.

(** The [voiceActivity] prop: nothing, the number the hook dispatches on
    stop, or the detail object of a sample. *)
Inductive VoiceActivity : Type :=
| va_undefined
| va_number (n : Meter.jsnum)
| va_detail (d : Meter.Detail).

(** [typeof voiceActivity === 'object' ? voiceActivity : null] *)
Definition voiceData_of (voiceActivity : VoiceActivity) : option Meter.Detail :=
  match voiceActivity with
  | va_detail d => Some d
  | _ => None
  end.

(** [a + (x * b)] for two positive constants. *)
Definition affine (a b : Q) (x : Meter.jsnum) : Meter.jsnum :=
  match x with
  | Meter.NaN => Meter.NaN
  | Meter.PosInf => Meter.PosInf
  | Meter.Fin q => Meter.Fin (a + q * b)
  end.

(** [voiceData?.frequencies || { low: 0, mid: 0, high: 0 }] *)
Definition frequencies_of (voiceData : option Meter.Detail)
    : Meter.jsnum * Meter.jsnum * Meter.jsnum :=
  match voiceData with
  | Some d => Meter.frequencies d
  | None => (Meter.Fin 0, Meter.Fin 0, Meter.Fin 0)
  end.

(** The [switch (index % 3)] of the frequency bars. *)
Definition freqValue (frequencies : Meter.jsnum * Meter.jsnum * Meter.jsnum)
    (index : nat) : Meter.jsnum :=
  let '(low, mid, high) := frequencies in
  match Nat.modulo index 3 with
  | 0%nat => low
  | 1%nat => mid
  | _ => high
  end.

(** The height, in percent, of the frequency bar [index]. *)
Definition frequency_bar (state : string) (voiceData : option Meter.Detail)
    (index : nat) : Meter.jsnum :=
  if isActive state then affine 20 60 (freqValue (frequencies_of voiceData) index)
  else Meter.Fin 20.

(** [Array.from({ length: barCount }).map((_, index) => ...)] *)
Definition frequency_bars (state : string) (barCount : nat)
    (voiceData : option Meter.Detail) : list Meter.jsnum :=
  map (frequency_bar state voiceData) (seq 0 barCount).

(** [history.slice(-barCount)]: the last [barCount] entries; [slice(-0)]
    is [slice(0)], the whole array. *)
Definition slice_last {A} (barCount : nat) (history : list A) : list A :=
  match barCount with
  | O => history
  | _ => skipn (List.length history - barCount) history
  end.

(** The heights, in percent, of the history bars; they are drawn only when
    there is voice data. *)
Definition history_bars (barCount : nat) (voiceData : option Meter.Detail)
    : option (list Meter.jsnum) :=
  match voiceData with
  | Some d =>
      Some (map (fun entry => affine 10 90 (Meter.overall entry))
              (slice_last barCount (Meter.history d)))
  | None => None
  end.

(** A height between two percentages. *)
Definition between (lo hi : Q) (x : Meter.jsnum) : Prop :=
  match x with
  | Meter.Fin q => lo <= q /\ q <= hi
  | _ => False
  end.

(** A sample whose four values are in [0,1]. *)
Definition unit_sample (s : Meter.Sample) : Prop :=
  Meter.in_unit (Meter.overall s) /\ Meter.in_unit (Meter.low s) /\
  Meter.in_unit (Meter.mid s) /\ Meter.in_unit (Meter.high s).

(** Three band energies in [0,1]. *)
Definition unit_frequencies (f : Meter.jsnum * Meter.jsnum * Meter.jsnum) : Prop :=
  Meter.in_unit (fst (fst f)) /\ Meter.in_unit (snd (fst f)) /\ Meter.in_unit (snd f).

(** The detail of a [voiceActivity] event whose every value is in [0,1]. *)
Definition unit_detail (d : Meter.Detail) : Prop :=
  Meter.in_unit (Meter.current d) /\ unit_frequencies (Meter.frequencies d) /\
  Forall unit_sample (Meter.history d).

(** A call that is not a [voiceActivity] event with values out of [0,1]. *)
Definition drawable (c : Hook.Call) : Prop :=
  match c with
  | Hook.dispatch_voiceActivity (Some d) => unit_detail d
  | _ => True
  end.

(** The text under the microphone button. *)
Definition control_text (isConnected isListening : bool) : string :=
  if negb isConnected then "Connecting to voice service..."
  else if isListening then "Listening... Click to stop"
  else "Click to start speaking".

(** *** The microphone banner

    [handleMicrophoneError] shows the detail of a [microphoneError] event
    and sets a timer that hides the banner five seconds later; the id of
    the timer is dropped. *)
Record Banner : Type :=
  { microphoneError : option string;
    banner_timers : list N;
    banner_now : N }.

Definition handleMicrophoneError (detail : string) (b : Banner) : Banner :=
  {| microphoneError := Some detail;
     banner_timers := (banner_timers b ++ [(banner_now b + 5000)%N])%list;
     banner_now := banner_now b |}.

(** [dt] milliseconds pass: the timers that fall due hide the banner. *)
Definition banner_elapse (dt : N) (b : Banner) : Banner :=
  let t := (banner_now b + dt)%N in
  {| microphoneError :=
       if existsb (fun due => (due <=? t)%N) (banner_timers b) then None
       else microphoneError b;
     banner_timers := filter (fun due => negb (due <=? t)%N) (banner_timers b);
     banner_now := t |}.

Inductive BannerEvent : Type :=
| microphone_error (detail : string)
| banner_wait (dt : N).

Definition banner_step (ev : BannerEvent) (b : Banner) : Banner :=
  match ev with
  | microphone_error detail => handleMicrophoneError detail b
  | banner_wait dt => banner_elapse dt b
  end.

Definition banner_run (evs : list BannerEvent) (b : Banner) : Banner :=
  fold_left (fun b ev => banner_step ev b) evs b.

(** [useState(null)], no timer set. *)
Definition banner_initial : Banner :=
  {| microphoneError := None; banner_timers := []; banner_now := 0%N |}.

End Chat.

(* ===================================================================== *)
(** ** The voice activity loop, frame after frame *)
(* ===================================================================== *)

Module Loop.

Import Hook.

(** What the running loop keeps true from frame to frame: the analyser of
    [initializeAudio], a frame requested, and a history of at most fifty
    samples with every value in [0,1]. *)
Definition loop_running (w : World) : Prop :=
  analyserRef (refs w) = Some {| fftSize := 256 |} /\
  animationFrameRef (refs w) <> None /\
  (List.length (activityHistory w) <= Meter.maxHistoryLength)%nat /\
  Forall Chat.unit_sample (activityHistory w).

(** The animation frames that deliver these spectra, one after the other. *)
Definition frames (spectra : list (list byte)) : list Event :=
  map animation_frame spectra.

End Loop.

(* ===================================================================== *)
(** ** frontend_test.js: the socket opened by the connection test *)
(* ===================================================================== *)

Module SocketTest.

Import Hook.

(** The socket [testWebSocketConnection] opens: its [readyState], how
    often the script called [close()] on it, and whether the five-second
    timer is still pending. *)
Record TestSocket : Type :=
  { state : ReadyState;
    close_calls : nat;
    timer_pending : bool }.

(** [ws.close()] *)
Definition ws_close (s : TestSocket) : TestSocket :=
  {| state := match state s with
              | CONNECTING | OPEN => CLOSING
              | CLOSING | CLOSED => state s
              end;
     close_calls := S (close_calls s);
     timer_pending := timer_pending s |}.

(** What can happen to the socket after [new WebSocket(wsUrl)]: the
    platform opens it (only a connecting socket opens) and runs [onopen],
    which closes it at once; the platform reports an error, which only
    logs; the platform finishes closing it; the timer set for 5000 ms
    fires and closes the socket if it is open. *)
Inductive TestEvent : Type :=
| opens
| errors
| closes
| timer_fires.

Definition test_step (ev : TestEvent) (s : TestSocket) : TestSocket :=
  match ev with
  | opens =>
      match state s with
      | CONNECTING =>
          ws_close {| state := OPEN; close_calls := close_calls s;
                      timer_pending := timer_pending s |}
      | _ => s
      end
  | errors => s
  | closes =>
      {| state := CLOSED; close_calls := close_calls s;
         timer_pending := timer_pending s |}
  | timer_fires =>
      if timer_pending s then
        let s' := {| state := state s; close_calls := close_calls s;
                     timer_pending := false |} in
        match state s with
        | OPEN => ws_close s'
        | _ => s'
        end
      else s
  end.

Definition test_run (evs : list TestEvent) (s : TestSocket) : TestSocket :=
  fold_left (fun s ev => test_step ev s) evs s.

(** The socket as [new WebSocket] makes it, the timer set. *)
Definition created : TestSocket :=
  {| state := CONNECTING; close_calls := 0; timer_pending := true |}.

Definition is_opens (ev : TestEvent) : bool :=
  match ev with opens => true | _ => false end.

End SocketTest.

(* ===================================================================== *)
(** ** The meter: band sums and normalisation *)
(* ===================================================================== *)

Section MeterFacts.

Import Meter.

Lemma sum_loop_total (l : list byte) (acc : N) :
  sum_loop l acc = (acc + total l)%N.
Proof.
  revert acc; induction l as [|x l IH]; intros acc; simpl.
  - now rewrite N.add_0_r.
  - rewrite IH. lia.
Qed.

(** The single loop with its if-else chain adds up three contiguous
    slices: from index [i] on, the bins below [m], those below [h], and
    the rest. *)
Lemma band_loop_slices (m h : nat) (l : list byte) :
  (m <= h)%nat ->
  forall (i : nat) (a b c : N),
    band_loop (N.of_nat m) (N.of_nat h) (N.of_nat i) l a b c
    = ((a + total (firstn (m - i) l))%N,
       (b + total (firstn (h - Nat.max i m) (skipn (m - i) l)))%N,
       (c + total (skipn (h - i) l))%N).
Proof.
  intros Hmh. induction l as [|x l IH]; intros i a b c.
  - cbn [band_loop]. rewrite !firstn_nil, !skipn_nil, firstn_nil.
    cbn [total fold_right]. now rewrite !N.add_0_r.
  - cbn [band_loop].
    replace (N.of_nat i + 1)%N with (N.of_nat (S i)) by lia.
    destruct (N.ltb_spec (N.of_nat i) (N.of_nat m)) as [Him|Him].
    + rewrite IH.
      replace (m - i)%nat with (S (m - S i)) by lia.
      replace (h - i)%nat with (S (h - S i)) by lia.
      replace (Nat.max i m) with m by lia.
      replace (Nat.max (S i) m) with m by lia.
      cbn [firstn skipn total fold_right].
      now rewrite ?N.add_assoc.
    + destruct (N.ltb_spec (N.of_nat i) (N.of_nat h)) as [Hih|Hih].
      * rewrite IH.
        replace (m - i)%nat with 0%nat by lia.
        replace (m - S i)%nat with 0%nat by lia.
        replace (Nat.max i m) with i by lia.
        replace (Nat.max (S i) m) with (S i) by lia.
        replace (h - i)%nat with (S (h - S i)) by lia.
        cbn [firstn skipn total fold_right].
        now rewrite ?N.add_assoc.
      * rewrite IH.
        replace (m - i)%nat with 0%nat by lia.
        replace (m - S i)%nat with 0%nat by lia.
        replace (h - i)%nat with 0%nat by lia.
        replace (h - S i)%nat with 0%nat by lia.
        replace (h - Nat.max i m)%nat with 0%nat by lia.
        replace (h - Nat.max (S i) m)%nat with 0%nat by lia.
        cbn [firstn skipn total fold_right].
        now rewrite ?N.add_assoc.
Qed.

Lemma total_nonneg (l : list byte) : 0 <= inject_Z (Z.of_N (total l)).
Proof.
  change 0 with (inject_Z 0). rewrite <- Zle_Qle. lia.
Qed.

Lemma average_nonneg (l : list byte) : 0 <= average l.
Proof.
  unfold average.
  destruct (List.length l) as [|n] eqn:E.
  - simpl. unfold Qdiv. rewrite Qmult_comm. simpl. apply Qle_refl.
  - apply Qle_shift_div_l.
    + change 0 with (inject_Z 0). rewrite <- Zlt_Qlt. lia.
    + rewrite Qmult_0_l. apply total_nonneg.
Qed.

Lemma normalized_unit (l : list byte) : 0 <= normalized l /\ normalized l <= 1.
Proof.
  unfold normalized. split.
  - apply Q.min_glb; [discriminate|].
    apply Qle_shift_div_l; [reflexivity|].
    rewrite Qmult_0_l. apply average_nonneg.
  - apply Q.le_min_l.
Qed.

(** A sum divided by a non-zero length, then by the sensitivity, then
    capped at 1, is the normalised average of the range that was summed. *)
Lemma normalize_range (band : list byte) (sum len : N) :
  sum = total band ->
  len = N.of_nat (List.length band) ->
  len <> 0%N ->
  min1 (div_const (div_int sum len) sensitivity) = Fin (normalized band).
Proof.
  intros -> -> Hlen. unfold div_int.
  destruct (N.eqb_spec (N.of_nat (List.length band)) 0) as [E|_]; [contradiction|].
  cbn [div_const min1]. unfold normalized, average.
  now rewrite nat_N_Z.
Qed.


Lemma band_lengths (bins : list byte) :
  let n := List.length bins in
  List.length (low_band bins) = (n / 3)%nat /\
  List.length (mid_band bins) = (2 * n / 3 - n / 3)%nat /\
  List.length (high_band bins) = (n - 2 * n / 3)%nat.
Proof.
  intros n. unfold low_band, mid_band, high_band. fold n.
  assert (H1 : (n / 3 <= 2 * n / 3)%nat) by (apply Nat.Div0.div_le_mono; lia).
  assert (H2 : (2 * n / 3 <= n)%nat).
  { apply Nat.Div0.div_le_upper_bound. lia. }
  rewrite !length_firstn, !length_skipn. fold n. lia.
Qed.

End MeterFacts.

Section MeterSample.

Import Meter.

Lemma sample_of_bands (t : N) (bins : list byte) :
  (3 <= List.length bins)%nat ->
  sample_of t bins
  = {| timestamp := t;
       overall := Fin (normalized bins);
       low := Fin (normalized (low_band bins));
       mid := Fin (normalized (mid_band bins));
       high := Fin (normalized (high_band bins)) |}.
Proof.
  intros Hn. unfold sample_of, midFreq_of, highFreq_of.
  set (n := List.length bins) in *.
  assert (Hm : (N.of_nat n / 3)%N = N.of_nat (n / 3)).
  { now rewrite Nat2N.inj_div. }
  assert (Hh : (2 * N.of_nat n / 3)%N = N.of_nat (2 * n / 3)).
  { rewrite Nat2N.inj_div, Nat2N.inj_mul. reflexivity. }
  assert (Hmh : (n / 3 <= 2 * n / 3)%nat) by (apply Nat.Div0.div_le_mono; lia).
  assert (Hm1 : (1 <= n / 3)%nat).
  { change 1%nat with (3 / 3)%nat. apply Nat.Div0.div_le_mono. exact Hn. }
  assert (Hhn : (2 * n / 3 < n)%nat).
  { apply Nat.Div0.div_lt_upper_bound. lia. }
  assert (Hmh' : (n / 3 < 2 * n / 3)%nat).
  { assert (E := Nat.div_mod_eq n 3). assert (E2 := Nat.div_mod_eq (2 * n) 3).
    assert (B := Nat.mod_upper_bound n 3). assert (B2 := Nat.mod_upper_bound (2 * n) 3).
    lia. }
  rewrite Hm, Hh.
  pose proof (band_loop_slices bins Hmh 0 0 0 0) as E.
  change (N.of_nat 0) with 0%N in E. rewrite E. clear E.
  rewrite !N.add_0_l, Nat.sub_0_r, Nat.sub_0_r, Nat.max_0_l.
  destruct (band_lengths bins) as (L1 & L2 & L3). fold n in L1, L2, L3.
  f_equal.
  - apply normalize_range; [apply sum_loop_total | reflexivity | lia].
  - apply normalize_range; unfold low_band; fold n; [reflexivity | | lia].
    unfold low_band in L1. fold n in L1. now rewrite L1.
  - apply normalize_range; unfold mid_band; fold n; [reflexivity | | lia].
    unfold mid_band in L2. fold n in L2. rewrite L2. lia.
  - apply normalize_range; unfold high_band; fold n; [reflexivity | | lia].
    unfold high_band in L3. fold n in L3. rewrite L3. lia.
Qed.

End MeterSample.



(* ===================================================================== *)
(** ** The inbound handlers, case by case *)
(* ===================================================================== *)

Section Decoding.

Import JS Hook Protocol.

Ltac split_ifs :=
  repeat match goal with
         | |- context [if is_str ?v ?lit then _ else _] => destruct (is_str v lit)
         end.

(** [onmessage] is the case its frame decodes to. *)
Lemma onmessage_decode (f : Frame) (w : World) :
  onmessage f w = on_socket (decode f) w.
Proof.
  destruct f as [e|data]; [reflexivity|].
  unfold onmessage, handleMessageFromBackend, try_catch, bind, JSON_parse, prop, decode, field.
  destruct data; cbn [get_prop ret throw]; try reflexivity.
  split_ifs; reflexivity.
Qed.

(** [handleDataReceived] is the case its payload decodes to. *)
Lemma handleDataReceived_decode (f : Frame) (w : World) :
  handleDataReceived f w = on_room (decode f) w.
Proof.
  destruct f as [e|data]; [reflexivity|].
  unfold handleDataReceived, try_catch, bind, JSON_parse, prop, decode, field.
  destruct data; cbn [get_prop ret throw]; try reflexivity.
  split_ifs; reflexivity.
Qed.

Lemma step_inbound (i : Inbound) (w : World) :
  step (inbound_event i) w
  = match i with
    | via_socket f => exec (on_socket (decode f)) w
    | via_room f => exec (on_room (decode f)) w
    | wait dt => elapse_by dt w
    end.
Proof.
  destruct i; cbn [inbound_event step]; unfold exec.
  - now rewrite onmessage_decode.
  - now rewrite handleDataReceived_decode.
  - reflexivity.
Qed.

Lemma run_app (l1 l2 : list Event) (w : World) :
  run (l1 ++ l2) w = run l2 (run l1 w).
Proof. unfold run. apply fold_left_app. Qed.

Lemma run_cons (ev : Event) (evs : list Event) (w : World) :
  run (ev :: evs) w = run evs (step ev w).
Proof. reflexivity. Qed.

Lemma receive_app (l1 l2 : list Inbound) (w : World) :
  receive (l1 ++ l2) w = receive l2 (receive l1 w).
Proof. unfold receive. now rewrite map_app, run_app. Qed.

Lemma receive_snoc (l : list Inbound) (i : Inbound) (w : World) :
  receive (l ++ [i]) w = step (inbound_event i) (receive l w).
Proof. now rewrite receive_app. Qed.

End Decoding.

(* ===================================================================== *)
(** ** The clock and the auto-clear timers *)
(* ===================================================================== *)

Section Timers.

Import JS Hook Protocol.

(** A pass over the pending timers keeps those not yet due, and clears
    [isSpeaking] if one was due. *)
Lemma fire_due_spec (t : N) (pending : list N) (s : HookState) :
  fire_due t pending s
  = (filter (fun due => negb (due <=? t)%N) pending,
     if existsb (fun due => (due <=? t)%N) pending then set_speaking false s else s).
Proof.
  revert s. induction pending as [|due rest IH]; intros s; cbn [fire_due filter existsb].
  - reflexivity.
  - destruct (due <=? t)%N; cbn [negb orb].
    + rewrite IH. destruct (existsb _ rest); reflexivity.
    + now rewrite IH.
Qed.

Lemma elapse_now (dt : N) (w : World) : now (elapse_by dt w) = (now w + dt)%N.
Proof. unfold elapse_by. now destruct (fire_due _ _ _). Qed.

Lemma elapse_timers (dt : N) (w : World) :
  timers (elapse_by dt w) = filter (fun due => negb (due <=? now w + dt)%N) (timers w).
Proof. unfold elapse_by. now rewrite fire_due_spec. Qed.

Lemma elapse_hook (dt : N) (w : World) :
  hook (elapse_by dt w)
  = if existsb (fun due => (due <=? now w + dt)%N) (timers w)
    then set_speaking false (hook w) else hook w.
Proof. unfold elapse_by. now rewrite fire_due_spec. Qed.

(** When no timer is due nothing but the clock moves. *)
Lemma elapse_none_due (dt : N) (w : World) :
  existsb (fun due => (due <=? now w + dt)%N) (timers w) = false ->
  timers (elapse_by dt w) = timers w /\ hook (elapse_by dt w) = hook w.
Proof.
  intros H. rewrite elapse_timers, elapse_hook, H. split; [|reflexivity].
  induction (timers w) as [|d l IH]; [reflexivity|].
  cbn [existsb] in H. apply orb_false_elim in H as [Hd Hl].
  cbn [filter]. rewrite Hd. cbn [negb]. now rewrite IH.
Qed.

(** A timer that falls due takes [isSpeaking] down, whatever set it. *)
Lemma elapse_due_clears (dt due : N) (w : World) :
  In due (timers w) -> (due <= now w + dt)%N ->
  isSpeaking (hook (elapse_by dt w)) = false.
Proof.
  intros Hin Hle. rewrite elapse_hook.
  replace (existsb _ (timers w)) with true; [reflexivity|].
  symmetry. apply existsb_exists. exists due. split; [exact Hin|].
  now apply N.leb_le.
Qed.

Lemma on_socket_now (m : Msg) (w : World) : now (exec (on_socket m) w) = now w.
Proof. now destruct m. Qed.

Lemma on_room_now (m : Msg) (w : World) : now (exec (on_room m) w) = now w.
Proof. now destruct m. Qed.

Lemma on_socket_timers (m : Msg) (w : World) :
  timers (exec (on_socket m) w)
  = (timers w ++ match m with
                 | ai_response _ => [(now w + 2000)%N]
                 | _ => []
                 end)%list.
Proof. destruct m; cbn; now rewrite ?app_nil_r. Qed.

Lemma on_room_timers (m : Msg) (w : World) : timers (exec (on_room m) w) = timers w.
Proof. now destruct m. Qed.

(** Off the [ai_response] case of the socket, a handled message leaves both
    flags up only if they were up before. *)
Lemma on_socket_both (m : Msg) (w : World) :
  both_flags (exec (on_socket m) w) = true ->
  match m with
  | ai_response _ => True
  | _ => both_flags w = true
  end.
Proof.
  unfold both_flags. destruct m; cbn; trivial;
    destruct (isListening (hook w)), (isSpeaking (hook w)); cbn; congruence.
Qed.

Lemma on_room_both (m : Msg) (w : World) :
  both_flags (exec (on_room m) w) = true -> both_flags w = true.
Proof.
  unfold both_flags. destruct m; cbn; trivial;
    destruct (isListening (hook w)), (isSpeaking (hook w)); cbn; congruence.
Qed.

Lemma step_inbound_now (i : Inbound) (w : World) :
  (now w <= now (step (inbound_event i) w))%N.
Proof.
  rewrite step_inbound. destruct i.
  - rewrite on_socket_now. lia.
  - rewrite on_room_now. lia.
  - rewrite elapse_now. lia.
Qed.

Lemma receive_now (tr : list Inbound) (w : World) : (now w <= now (receive tr w))%N.
Proof.
  induction tr as [|i tr IH] using rev_ind.
  - cbn. lia.
  - rewrite receive_snoc. pose proof (step_inbound_now i (receive tr w)). lia.
Qed.

End Timers.

(* ===================================================================== *)
(** ** Listening and speaking at once *)
(* ===================================================================== *)

Section MutualExclusion.

Import JS Hook Protocol.

Lemma set_by_snoc (tr : list Inbound) (i : Inbound) (due : N) :
  set_by tr due -> set_by (tr ++ [i]) due.
Proof.
  intros (pre & j & post & -> & Hj & Hd).
  exists pre, j, (post ++ [i])%list. repeat split; trivial.
  now rewrite <- app_assoc.
Qed.

Lemma set_by_last (tr : list Inbound) (i : Inbound) :
  sets_timer i = true -> set_by (tr ++ [i]) (now (receive tr initial) + 2000)%N.
Proof. intros Hi. exists tr, i, []. repeat split; trivial. Qed.

Lemma set_by_bound (tr : list Inbound) (due : N) :
  set_by tr due -> (due <= now (receive tr initial) + 2000)%N.
Proof.
  intros (pre & j & post & -> & _ & ->).
  rewrite receive_app. pose proof (receive_now (j :: post) (receive pre initial)). lia.
Qed.

Lemma window_invariant_holds (tr : list Inbound) :
  window_invariant tr (receive tr initial).
Proof.
  induction tr as [|i tr [IHt IHb]] using rev_ind.
  - split; cbn; [intros due []|discriminate].
  - rewrite receive_snoc, step_inbound. set (w := receive tr initial) in *.
    destruct i as [f|f|dt].
    + (* onmessage *)
      split.
      * intros due. rewrite on_socket_timers, on_socket_now. intros Hin.
        apply in_app_or in Hin as [Hin|Hin].
        -- destruct (IHt due Hin). split; [assumption|now apply set_by_snoc].
        -- destruct (decode f) eqn:E; cbn in Hin; try contradiction.
           destruct Hin as [<-|[]]. split; [lia|].
           apply set_by_last. cbn. now rewrite E.
      * intros Hb. rewrite on_socket_timers.
        apply on_socket_both in Hb.
        destruct (decode f); try (intros Hnil; apply app_eq_nil in Hnil as [Hnil _];
                                  now apply IHb).
        intros Hnil. apply app_eq_nil in Hnil as [_ Hnil]. discriminate.
    + (* handleDataReceived *)
      split.
      * intros due. rewrite on_room_timers, on_room_now. intros Hin.
        destruct (IHt due Hin). split; [assumption|now apply set_by_snoc].
      * intros Hb. rewrite on_room_timers. apply on_room_both in Hb. now apply IHb.
    + (* time passes *)
      split.
      * intros due. rewrite elapse_timers, elapse_now. intros Hin.
        apply filter_In in Hin as [Hin Hdue].
        apply negb_true_iff, N.leb_gt in Hdue.
        split; [exact Hdue|]. apply set_by_snoc. now apply IHt.
      * intros Hb.
        destruct (existsb (fun due => (due <=? now w + dt)%N) (timers w)) eqn:Ex.
        -- unfold both_flags in Hb. rewrite elapse_hook, Ex in Hb. cbn in Hb.
           now rewrite andb_false_r in Hb.
        -- destruct (elapse_none_due dt w Ex) as [Ht Hh].
           rewrite Ht. apply IHb. unfold both_flags in *. now rewrite <- Hh.
Qed.

End MutualExclusion.

(* ===================================================================== *)
(** ** Frame reasoning: what a computation keeps *)
(* ===================================================================== *)

Section Frames.

Import JS Hook Protocol.

Variable R : World -> World -> Prop.
Context {R_pre : PreOrder R}.

Lemma keeps_ret {A} (a : A) : keeps R (ret a).
Proof. intros w. reflexivity. Qed.

Lemma keeps_throw {A} (e : Exn) : keeps R (@throw A e).
Proof. intros w. reflexivity. Qed.

Lemma keeps_gets {A} (f : World -> A) : keeps R (gets f).
Proof. intros w. reflexivity. Qed.

Lemma keeps_modify (f : World -> World) : (forall w, R w (f w)) -> keeps R (modify f).
Proof. intros H w. apply H. Qed.

Lemma keeps_bind {A B} (m : M A) (k : A -> M B) :
  keeps R m -> (forall a, keeps R (k a)) -> keeps R (bind m k).
Proof.
  intros Hm Hk w. unfold bind. specialize (Hm w).
  destruct (m w) as [[a|e] w']; cbn in *; [|exact Hm].
  transitivity w'; [exact Hm|apply Hk].
Qed.

Lemma keeps_try_catch {A} (m : M A) (handler : Exn -> M A) :
  keeps R m -> (forall e, keeps R (handler e)) -> keeps R (try_catch m handler).
Proof.
  intros Hm Hh w. unfold try_catch. specialize (Hm w).
  destruct (m w) as [[a|e] w']; cbn in *; [exact Hm|].
  transitivity w'; [exact Hm|apply Hh].
Qed.

Lemma keeps_exec {A} (m : M A) (w : World) : keeps R m -> R w (exec m w).
Proof. intros H. apply H. Qed.

End Frames.

Create HintDb handlers.

#[local] Hint Unfold
  Hook.setIsConnected Hook.setIsListening Hook.setIsSpeaking Hook.appendMessage
  Hook.setConnectionStatus Hook.setError Hook.setSessionId Hook.setSessionData
  Hook.call Hook.prop Hook.set_readyState Hook.WebSocket_new Hook.WebSocket_send
  Hook.WebSocket_close Hook.MediaRecorder_start Hook.MediaRecorder_stop
  Hook.stop_tracks Hook.AudioContext_close Hook.Room_disconnect
  Hook.createSession Hook.requestMicrophoneAccess Hook.construct Hook.initializeAudio
  Hook.detectVoiceActivity Hook.detectVoiceActivity_of Hook.startVoiceActivityDetection
  Hook.stopVoiceActivityDetection Hook.connectToLiveKitRoom
  Hook.handleTrackSubscribed Hook.handleTrackUnsubscribed Hook.JSON_parse
  Hook.handleDataReceived Hook.release_audio Hook.handleRoomDisconnected
  Hook.connectToVoiceService Hook.onopen Hook.setTimeout_clear_speaking
  Hook.handleMessageFromBackend Hook.onmessage Hook.onerror
  Hook.stop_recorder_unless_inactive Hook.disconnect_room Hook.onclose
  Hook.startListening_body Hook.startListening Hook.stopListening
  Hook.toggleListening Hook.cleanup Hook.startListening_until_wait
  Hook.ondataavailable Hook.room_state_disconnected
  Protocol.on_socket Protocol.on_room : handlers.

(** Takes a goal [keeps R m] apart along the structure of [m]; [leaf]
    closes the goals [R w (f w)] of the state updates. *)
Ltac frame_step leaf :=
  match goal with
  | |- Hook.keeps _ (Hook.bind _ _) => apply keeps_bind; [typeclasses eauto | | intros ?]
  | |- Hook.keeps _ (Hook.try_catch _ _) =>
      apply keeps_try_catch; [typeclasses eauto | | intros ?]
  | |- Hook.keeps _ (Hook.ret _) => apply keeps_ret; typeclasses eauto
  | |- Hook.keeps _ (Hook.throw _) => apply keeps_throw; typeclasses eauto
  | |- Hook.keeps _ (Hook.gets _) => apply keeps_gets; typeclasses eauto
  | |- Hook.keeps _ (Hook.modify _) => apply keeps_modify; intros ?; leaf
  | |- Hook.keeps _ (Hook.when ?b _) => destruct b; cbn [Hook.when]
  | |- Hook.keeps _ (match ?x with _ => _ end) => destruct x
  | |- Hook.keeps _ _ => progress autounfold with handlers
  end.

Ltac frame leaf := repeat frame_step leaf.

(* ===================================================================== *)
(** ** The transcript only grows *)
(* ===================================================================== *)

Section Transcript.

Import JS Hook Protocol.

#[local] Instance extends_preorder : PreOrder extends.
Proof.
  split.
  - intros w. exists []. now rewrite app_nil_r.
  - intros a b c [s1 H1] [s2 H2]. exists (s1 ++ s2)%list.
    now rewrite H2, H1, app_assoc.
Qed.

Ltac extends_leaf :=
  unfold extends; cbn;
  first [ now (exists []; rewrite app_nil_r) | now (eexists; reflexivity) ].

Lemma elapse_extends (dt : N) (w : World) : extends w (elapse_by dt w).
Proof.
  unfold extends. rewrite elapse_hook. exists [].
  rewrite app_nil_r. now destruct (existsb _ _).
Qed.

(** No handler and no operation edits or removes a Turn. *)
Lemma step_extends (ev : Event) (w : World) : extends w (step ev w).
Proof.
  destruct ev; cbn [step];
    try (apply elapse_extends);
    try (apply (keeps_exec (R := extends)); frame extends_leaf).
  - destruct (animationFrameRef (refs w)); [|reflexivity].
    apply (keeps_exec (R := extends)). frame extends_leaf.
  - destruct (isListening (hook w));
      apply (keeps_exec (R := extends)); frame extends_leaf.
Qed.

Lemma run_extends (evs : list Event) (w : World) : extends w (run evs w).
Proof.
  revert w. induction evs as [|ev evs IH]; intros w; cbn.
  - reflexivity.
  - transitivity (step ev w); [apply step_extends|apply IH].
Qed.

Lemma appends_step (ev : Event) (t : Turn) (w : World) :
  appends ev = Some t ->
  messages (hook (step ev w)) = (messages (hook w) ++ [t])%list.
Proof.
  destruct ev; cbn [appends]; try discriminate; intros H; cbn [step]; unfold exec.
  - rewrite onmessage_decode. destruct (decode f); inversion H; reflexivity.
  - rewrite handleDataReceived_decode. destruct (decode f); inversion H; reflexivity.
Qed.

End Transcript.

(** C3.  The transcript is append-only and in arrival order.  When two
    user_transcript / ai_response messages [e1] and [e2] are handled in
    that order, with any events before, between and after them, the Turn
    of [e1] stands before the Turn of [e2] in the resulting messages, and
    the messages the run started with are still its prefix; and no event at
    all (no handler, no operation, no timer) edits or removes a Turn: what
    was there before a step is a prefix of what is there after it. *)
Theorem C3_turns_append_only_in_arrival_order
    (pre mid post : list Hook.Event) (e1 e2 : Hook.Event) (t1 t2 : Hook.Turn)
    (w : Hook.World) :
  Protocol.appends e1 = Some t1 ->
  Protocol.appends e2 = Some t2 ->
  (exists a b c,
     Hook.messages (Hook.hook (Hook.run (pre ++ e1 :: mid ++ e2 :: post) w))
     = (Hook.messages (Hook.hook w) ++ a ++ t1 :: b ++ t2 :: c)%list) /\
  (forall ev w', Protocol.extends w' (Hook.step ev w')).
Proof.
  intros H1 H2. split; [|intros ev w'; apply step_extends].
  rewrite run_app, run_cons, run_app, run_cons.
  destruct (run_extends pre w) as [a Ha].
  pose proof (@appends_step e1 t1 (Hook.run pre w) H1) as E1.
  destruct (run_extends mid (Hook.step e1 (Hook.run pre w))) as [b Hb].
  pose proof (@appends_step e2 t2 (Hook.run mid (Hook.step e1 (Hook.run pre w))) H2) as E2.
  destruct (run_extends post
              (Hook.step e2 (Hook.run mid (Hook.step e1 (Hook.run pre w))))) as [c Hc].
  exists a, b, c.
  rewrite Hc, E2, Hb, E1, Ha.
  now rewrite <- !app_assoc.
Qed.

Lemma C3_turns_witness :
  (exists a b c,
     Hook.messages (Hook.hook (Hook.run
       ([Hook.ws_message (Hook.msg "listening_started" [])]
        ++ Hook.ws_message (Hook.msg "user_transcript" [("transcript"%string, JS.JStr "Book a flight")])
        :: [Hook.elapse 500]
        ++ Hook.ws_message (Hook.msg "ai_response" [("text"%string, JS.JStr "Your flight is booked")])
        :: [Hook.ws_close 0 1000 ""]) Hook.initial))
     = (Hook.messages (Hook.hook Hook.initial) ++ a
        ++ {| Hook.type := Hook.user; Hook.content := JS.JStr "Book a flight" |} :: b
        ++ {| Hook.type := Hook.assistant; Hook.content := JS.JStr "Your flight is booked" |} :: c)%list) /\
  (forall ev w', Protocol.extends w' (Hook.step ev w')).
Proof.
  apply (@C3_turns_append_only_in_arrival_order
           [Hook.ws_message (Hook.msg "listening_started" [])]
           [Hook.elapse 500] [Hook.ws_close 0 1000 ""]
           (Hook.ws_message (Hook.msg "user_transcript" [("transcript"%string, JS.JStr "Book a flight")]))
           (Hook.ws_message (Hook.msg "ai_response" [("text"%string, JS.JStr "Your flight is booked")]))
           _ _ Hook.initial); reflexivity.
Defined.

(* ===================================================================== *)
(** ** Nothing cancels a timer *)
(* ===================================================================== *)

Section NoCancel.

Import JS Hook Protocol.

#[local] Instance pending_kept_preorder : PreOrder pending_kept.
Proof.
  split.
  - intros w. split; [reflexivity|]. exists []. now rewrite app_nil_r.
  - intros a b c [N1 [x1 T1]] [N2 [x2 T2]]. split; [congruence|].
    exists (x1 ++ x2)%list. now rewrite T2, T1, app_assoc.
Qed.

Ltac pending_leaf :=
  unfold pending_kept; cbn; split; [reflexivity|];
  first [ now (exists []; rewrite app_nil_r) | now (eexists; reflexivity) ].

(** Every event but the passing of time keeps the clock and the pending
    timers: no handler and no operation clears one. *)
Lemma step_pending_kept (ev : Event) (w : World) :
  match ev with
  | elapse _ => True
  | _ => pending_kept w (step ev w)
  end.
Proof.
  destruct ev; cbn [step]; trivial;
    try (apply (keeps_exec (R := pending_kept)); frame pending_leaf).
  - destruct (animationFrameRef (refs w)); [|reflexivity].
    apply (keeps_exec (R := pending_kept)). frame pending_leaf.
  - destruct (isListening (hook w));
      apply (keeps_exec (R := pending_kept)); frame pending_leaf.
Qed.

Lemma step_now_mono (ev : Event) (w : World) : (now w <= now (step ev w))%N.
Proof.
  pose proof (step_pending_kept ev w) as H.
  destruct ev;
    try (cbn [step]; rewrite elapse_now; lia);
    destruct H as [E _]; rewrite E; lia.
Qed.

Lemma run_now_mono (evs : list Event) (w : World) : (now w <= now (run evs w))%N.
Proof.
  revert w. induction evs as [|ev evs IH]; intros w; cbn.
  - lia.
  - pose proof (step_now_mono ev w). specialize (IH (step ev w)).
    unfold run in IH. lia.
Qed.

(** A timer stays pending through any events until the clock reaches it. *)
Lemma run_keeps_pending (evs : list Event) (w : World) (due : N) :
  In due (timers w) -> (now (run evs w) < due)%N -> In due (timers (run evs w)).
Proof.
  revert w. induction evs as [|ev evs IH]; intros w Hin Hlt; [exact Hin|].
  rewrite run_cons in *. apply IH; [|exact Hlt].
  pose proof (run_now_mono evs (step ev w)) as Hmono.
  pose proof (step_pending_kept ev w) as H.
  destruct ev;
    try (cbn [step] in *; rewrite elapse_timers; rewrite elapse_now in Hmono;
         apply filter_In; split; [exact Hin|];
         apply negb_true_iff, N.leb_gt; lia);
    destruct H as [_ [extra E]]; rewrite E; apply in_or_app; now left.
Qed.

End NoCancel.

(** C1.  After any sequence of inbound control messages (on the socket or
    on the room's data channel, with time passing in between) handled from
    the initial state, isListening and isSpeaking are both true only inside
    the auto-clear window of an ai_response: a timer set by an ai_response
    of the sequence less than 2000 ms ago is still pending.  The window
    closes within 2 seconds: once 2000 ms pass without further messages at
    most one of the two flags is true, and whatever messages do arrive in
    the meantime, at most one flag is true at the moment the clock reaches
    the due time of a pending timer. *)
Theorem C1_flags_exclusive_outside_autoclear_window (tr : list Protocol.Inbound) :
  let w := Protocol.receive tr Hook.initial in
  (Protocol.both_flags w = true ->
   exists due,
     In due (Hook.timers w) /\ Protocol.set_by tr due /\
     (Hook.now w < due <= Hook.now w + 2000)%N) /\
  (forall dt, (2000 <= dt)%N -> Protocol.both_flags (Hook.elapse_by dt w) = false) /\
  (forall due tr' dt,
     In due (Hook.timers w) ->
     let w' := Protocol.receive tr' w in
     (Hook.now w' < due <= Hook.now w' + dt)%N ->
     Protocol.both_flags (Hook.elapse_by dt w') = false).
Proof.
  intros w. destruct (window_invariant_holds tr) as [Ht Hb]. fold w in Ht, Hb.
  split; [|split].
  - intros Hboth. specialize (Hb Hboth).
    destruct (Hook.timers w) as [|due rest] eqn:E; [contradiction|].
    exists due. destruct (Ht due (or_introl eq_refl)) as [Hlt Hset].
    repeat split; trivial; [now left|].
    now apply set_by_bound.
  - intros dt Hdt.
    destruct (Hook.timers w) as [|due rest] eqn:E.
    + destruct (Protocol.both_flags w) eqn:B.
      * exfalso. now apply Hb.
      * unfold Protocol.both_flags in *.
        rewrite elapse_hook, E. exact B.
    + destruct (Ht due (or_introl eq_refl)) as [_ Hset].
      apply set_by_bound in Hset. fold w in Hset.
      unfold Protocol.both_flags.
      rewrite (@elapse_due_clears dt due w); [apply andb_false_r| |lia].
      rewrite E. now left.
  - intros due tr' dt Hin w' Hdue. subst w'. unfold Protocol.receive in *.
    unfold Protocol.both_flags.
    rewrite (@elapse_due_clears dt due (Hook.run (map Protocol.inbound_event tr') w));
      [apply andb_false_r| |lia].
    apply run_keeps_pending; [exact Hin|lia].
Qed.

(** C4 (as amended).  Handling an ai_response on the socket appends
    Turn(assistant, text), sets isSpeaking to true and sets a timer due
    2000 ms later.  Nothing cancels or supersedes that timer: through any
    events that follow it stays pending until its due time, and when the
    clock reaches that time isSpeaking is false, whatever a later event had
    set it to. *)
Theorem C4_autoclear_is_never_cancelled (f : Hook.Frame) (text : JS.jsval) (w : Hook.World) :
  Protocol.decode f = Protocol.ai_response text ->
  let w1 := Hook.step (Hook.ws_message f) w in
  Hook.messages (Hook.hook w1)
  = (Hook.messages (Hook.hook w)
     ++ [{| Hook.type := Hook.assistant; Hook.content := text |}])%list /\
  Hook.isSpeaking (Hook.hook w1) = true /\
  Hook.timers w1 = (Hook.timers w ++ [(Hook.now w + 2000)%N])%list /\
  (forall evs dt,
     let w2 := Hook.run evs w1 in
     (Hook.now w2 < Hook.now w + 2000 <= Hook.now w2 + dt)%N ->
     In (Hook.now w + 2000)%N (Hook.timers w2) /\
     Hook.isSpeaking (Hook.hook (Hook.elapse_by dt w2)) = false).
Proof.
  intros Hf w1.
  assert (E : w1 = Hook.exec (Protocol.on_socket (Protocol.ai_response text)) w).
  { subst w1. cbn [Hook.step]. unfold Hook.exec. now rewrite onmessage_decode, Hf. }
  repeat split; try (rewrite E; reflexivity).
  - apply run_keeps_pending; [|lia]. rewrite E. cbn. apply in_or_app. right. now left.
  - apply (@elapse_due_clears dt (Hook.now w + 2000)%N); [|lia].
    apply run_keeps_pending; [|lia]. rewrite E. cbn. apply in_or_app. right. now left.
Qed.

Lemma C4_autoclear_witness :
  let f := Hook.msg "ai_response" [("text"%string, JS.JStr "Your flight is booked")] in
  let text := JS.JStr "Your flight is booked" in
  let w1 := Hook.step (Hook.ws_message f) Hook.initial in
  Hook.messages (Hook.hook w1)
  = (Hook.messages (Hook.hook Hook.initial)
     ++ [{| Hook.type := Hook.assistant; Hook.content := text |}])%list /\
  Hook.isSpeaking (Hook.hook w1) = true /\
  Hook.timers w1 = (Hook.timers Hook.initial ++ [(Hook.now Hook.initial + 2000)%N])%list /\
  (forall evs dt,
     let w2 := Hook.run evs w1 in
     (Hook.now w2 < Hook.now Hook.initial + 2000 <= Hook.now w2 + dt)%N ->
     In (Hook.now Hook.initial + 2000)%N (Hook.timers w2) /\
     Hook.isSpeaking (Hook.hook (Hook.elapse_by dt w2)) = false).
Proof.
  apply (@C4_autoclear_is_never_cancelled
           (Hook.msg "ai_response" [("text"%string, JS.JStr "Your flight is booked")])
           (JS.JStr "Your flight is booked") Hook.initial).
  reflexivity.
Defined.

(** C4, the claim as stated fails: a processing_started that arrives one
    second after an ai_response sets isSpeaking to true, the timer of the
    ai_response is still pending, and one second later it clears the flag
    although no processing_stopped came; likewise the timer of a first
    ai_response cuts short the window of a second one. *)
Lemma C4_stale_timer_overrides_later_event :
  let ai := Protocol.via_socket
              (Hook.msg "ai_response" [("text"%string, JS.JStr "Your flight is booked")]) in
  let started := Protocol.via_socket (Hook.msg "processing_started" []) in
  let w := Protocol.receive [ai; Protocol.wait 1000; started] Hook.initial in
  let w' := Protocol.receive [ai; Protocol.wait 1000; ai] Hook.initial in
  (Hook.isSpeaking (Hook.hook w) = true /\ Hook.timers w = [2000%N] /\
   Hook.isSpeaking (Hook.hook (Protocol.receive [Protocol.wait 1000] w)) = false) /\
  (Hook.isSpeaking (Hook.hook w') = true /\ Hook.timers w' = [2000%N; 3000%N] /\
   Hook.isSpeaking (Hook.hook (Protocol.receive [Protocol.wait 1000] w')) = false).
Proof. repeat split. Qed.

(* ===================================================================== *)
(** ** Frames that are dropped, and the error message *)
(* ===================================================================== *)

(** C5 (as amended).  A frame whose type matches no case is dropped by
    both handlers: the whole world, and with it connectionStatus,
    isListening, isSpeaking, error and the transcript, is unchanged.  A
    frame that cannot be decoded is dropped by [handleDataReceived], while
    [onmessage] sets error to 'Error processing response from voice
    service' and changes nothing else.  Neither handler throws. *)
Theorem C5_unknown_dropped_undecodable_sets_error (f : Hook.Frame) (w : Hook.World) :
  Protocol.decode f = Protocol.unknown_type \/ Protocol.decode f = Protocol.undecodable ->
  Hook.step (Hook.room_data f) w = w /\
  (Protocol.decode f = Protocol.unknown_type -> Hook.step (Hook.ws_message f) w = w) /\
  (Protocol.decode f = Protocol.undecodable ->
   Hook.step (Hook.ws_message f) w
   = Hook.with_hook
       (Hook.set_error (JS.JStr "Error processing response from voice service")) w) /\
  Hook.returns (Hook.onmessage f) w = true /\
  Hook.returns (Hook.handleDataReceived f) w = true.
Proof.
  intros H. cbn [Hook.step]. unfold Hook.exec, Hook.returns.
  rewrite onmessage_decode, handleDataReceived_decode.
  destruct H as [-> | ->]; repeat split; intros; try discriminate; reflexivity.
Qed.

Lemma C5_dropped_witness :
  let f := Hook.msg "heartbeat" [] in
  Hook.step (Hook.room_data f) Hook.initial = Hook.initial /\
  (Protocol.decode f = Protocol.unknown_type ->
   Hook.step (Hook.ws_message f) Hook.initial = Hook.initial) /\
  (Protocol.decode f = Protocol.undecodable ->
   Hook.step (Hook.ws_message f) Hook.initial
   = Hook.with_hook
       (Hook.set_error (JS.JStr "Error processing response from voice service"))
       Hook.initial) /\
  Hook.returns (Hook.onmessage f) Hook.initial = true /\
  Hook.returns (Hook.handleDataReceived f) Hook.initial = true.
Proof.
  apply (@C5_unknown_dropped_undecodable_sets_error (Hook.msg "heartbeat" []) Hook.initial).
  left. reflexivity.
Defined.

(** C5, the claim as stated fails: a frame that is not JSON, and the JSON
    frame [null], each make [onmessage] change the error field. *)
Lemma C5_malformed_frame_changes_error :
  let bad := Hook.malformed {| JS.name := "SyntaxError"; JS.message := "Unexpected token" |} in
  Hook.error (Hook.hook Hook.initial) = JS.JNull /\
  Hook.error (Hook.hook (Hook.step (Hook.ws_message bad) Hook.initial))
  = JS.JStr "Error processing response from voice service" /\
  Hook.error (Hook.hook (Hook.step (Hook.ws_message (Hook.parsed JS.JNull)) Hook.initial))
  = JS.JStr "Error processing response from voice service".
Proof. repeat split. Qed.

(** C9.  Handling an [error] message sets the error field to the carried
    message, or to 'Unknown error from backend' when the message is
    missing (or otherwise falsy), and changes nothing else: the rest of the
    hook state (connectionStatus, isConnected, isListening, isSpeaking, the
    transcript), the refs, the sockets, the timers and the call log are as
    before, so no disconnect is forced; the handler returns normally. *)
Theorem C9_error_message_sets_only_error (f : Hook.Frame) (m : JS.jsval) (w : Hook.World) :
  Protocol.decode f = Protocol.error_msg m ->
  let w' := Hook.step (Hook.ws_message f) w in
  w' = Hook.with_hook
         (Hook.set_error (JS.js_or m (JS.JStr "Unknown error from backend"))) w /\
  (JS.truthy m = true -> Hook.error (Hook.hook w') = m) /\
  (JS.truthy m = false ->
   Hook.error (Hook.hook w') = JS.JStr "Unknown error from backend") /\
  Hook.connectionStatus (Hook.hook w') = Hook.connectionStatus (Hook.hook w) /\
  Hook.isConnected (Hook.hook w') = Hook.isConnected (Hook.hook w) /\
  Hook.isListening (Hook.hook w') = Hook.isListening (Hook.hook w) /\
  Hook.isSpeaking (Hook.hook w') = Hook.isSpeaking (Hook.hook w) /\
  Hook.messages (Hook.hook w') = Hook.messages (Hook.hook w) /\
  Hook.refs w' = Hook.refs w /\ Hook.sockets w' = Hook.sockets w /\
  Hook.timers w' = Hook.timers w /\ Hook.log w' = Hook.log w /\
  Hook.returns (Hook.onmessage f) w = true.
Proof.
  intros Hf w'. subst w'. cbn [Hook.step]. unfold Hook.exec, Hook.returns.
  rewrite onmessage_decode, Hf. cbn. unfold JS.js_or.
  repeat split; intros Ht; now rewrite Ht.
Qed.

Lemma C9_error_message_witness :
  let f := Hook.msg "error" [("message"%string, JS.JStr "Agent crashed")] in
  let m := JS.JStr "Agent crashed" in
  let w := Protocol.receive [Protocol.via_socket (Hook.msg "listening_started" [])] Hook.initial in
  let w' := Hook.step (Hook.ws_message f) w in
  w' = Hook.with_hook
         (Hook.set_error (JS.js_or m (JS.JStr "Unknown error from backend"))) w /\
  (JS.truthy m = true -> Hook.error (Hook.hook w') = m) /\
  (JS.truthy m = false ->
   Hook.error (Hook.hook w') = JS.JStr "Unknown error from backend") /\
  Hook.connectionStatus (Hook.hook w') = Hook.connectionStatus (Hook.hook w) /\
  Hook.isConnected (Hook.hook w') = Hook.isConnected (Hook.hook w) /\
  Hook.isListening (Hook.hook w') = Hook.isListening (Hook.hook w) /\
  Hook.isSpeaking (Hook.hook w') = Hook.isSpeaking (Hook.hook w) /\
  Hook.messages (Hook.hook w') = Hook.messages (Hook.hook w) /\
  Hook.refs w' = Hook.refs w /\ Hook.sockets w' = Hook.sockets w /\
  Hook.timers w' = Hook.timers w /\ Hook.log w' = Hook.log w /\
  Hook.returns (Hook.onmessage f) w = true.
Proof.
  apply (@C9_error_message_sets_only_error
           (Hook.msg "error" [("message"%string, JS.JStr "Agent crashed")])
           (JS.JStr "Agent crashed")
           (Protocol.receive [Protocol.via_socket (Hook.msg "listening_started" [])]
              Hook.initial)).
  reflexivity.
Defined.

(* ===================================================================== *)
(** ** Teardown *)
(* ===================================================================== *)

Section Teardown.

Import JS Hook Protocol.

Ltac open_world w :=
  destruct w as [hk [ws rec ctx stream room an fr] sk ah tm nw lg].

Ltac tidy_log := rewrite <- ?app_assoc, ?app_nil_r; cbn [app]; rewrite ?app_nil_r.

(** [onclose], in full: it returns, and leaves this world. *)
Lemma onclose_world (code : N) (reason : string) (w : World) :
  onclose code reason w
  = (Ret tt,
     {| hook := closed_hook code reason (hook w);
        refs := tear (refs w);
        sockets := sockets w;
        activityHistory := activityHistory w;
        timers := timers w;
        now := now w;
        log := (log w ++ recorder_calls (refs w) ++ audio_calls (refs w)
                ++ room_calls (refs w))%list |}).
Proof.
  open_world w. unfold onclose, closed_hook, recorder_calls, audio_calls, room_calls.
  destruct rec as [[| |]|], stream as [tracks|], ctx as [c|], room as [r|],
    (code =? 1000)%N eqn:Hc;
    cbv [stop_recorder_unless_inactive release_audio disconnect_room
         MediaRecorder_stop stop_tracks AudioContext_close Room_disconnect
         setIsConnected setConnectionStatus setError call
         bind ret gets modify with_hook with_refs with_call set_error
         set_mediaRecorderRef set_audioStreamRef set_audioContextRef set_roomRef
         hook refs sockets activityHistory timers now log tear negb
         wsRef mediaRecorderRef audioContextRef audioStreamRef roomRef
         analyserRef animationFrameRef
         isConnected isListening isSpeaking messages connectionStatus error
         sessionId sessionData];
    rewrite ?Hc; cbv [negb]; tidy_log; reflexivity.
Qed.


Lemma stop_calls_map (f : TrackState -> TrackState) (tracks : list TrackState) (i : nat) :
  stop_calls i (map f tracks) = stop_calls i tracks.
Proof.
  revert i. induction tracks as [|t l IH]; intros i; cbn; [reflexivity|].
  now rewrite IH.
Qed.



Lemma set_nth_out (A : Type) (i : nat) (x : A) (l : list A) :
  (List.length l <= i)%nat -> set_nth i x l = l.
Proof.
  revert i. induction l as [|y l IH]; intros i H; [now destruct i|].
  destruct i; cbn in *; [lia|]. rewrite IH; [reflexivity|lia].
Qed.

Lemma nth_set_nth (A : Type) (i : nat) (x d : A) (l : list A) :
  (i < List.length l)%nat -> nth i (set_nth i x l) d = x.
Proof.
  revert i. induction l as [|y l IH]; intros i H; cbn in *; [lia|].
  destruct i; cbn; [reflexivity|]. apply IH. lia.
Qed.







End Teardown.

(** C6 (as amended).  When the socket closes, isConnected becomes false.
    On a normal close (code 1000) connectionStatus becomes 'disconnected'
    and error is left as it was; on any other code connectionStatus becomes
    'error' and error becomes 'Connection closed: <reason, or Unknown
    reason when empty> (Code: <code>)'.  In both cases isListening,
    isSpeaking and the transcript are left exactly as they were: the
    handler clears no flag. *)
Theorem C6_close_sets_status_and_keeps_flags
    (h : nat) (code : N) (reason : string) (w : Hook.World) :
  let w' := Hook.step (Hook.ws_close h code reason) w in
  Hook.isConnected (Hook.hook w') = false /\
  Hook.isListening (Hook.hook w') = Hook.isListening (Hook.hook w) /\
  Hook.isSpeaking (Hook.hook w') = Hook.isSpeaking (Hook.hook w) /\
  Hook.messages (Hook.hook w') = Hook.messages (Hook.hook w) /\
  (code = 1000%N ->
   Hook.connectionStatus (Hook.hook w') = "disconnected"%string /\
   Hook.error (Hook.hook w') = Hook.error (Hook.hook w)) /\
  (code <> 1000%N ->
   Hook.connectionStatus (Hook.hook w') = "error"%string /\
   Hook.error (Hook.hook w')
   = JS.JStr ("Connection closed: "
              ++ (if (reason =? "")%string then "Unknown reason" else reason)
              ++ " (Code: " ++ JS.decimal code ++ ")")%string).
Proof.
  intros w'. subst w'. cbn [Hook.step]. unfold Hook.exec, Hook.bind.
  cbn [Hook.set_readyState Hook.modify]. rewrite onclose_world. cbn.
  do 4 (split; [reflexivity|]). split; intros Hc.
  - subst code. split; reflexivity.
  - apply N.eqb_neq in Hc. rewrite Hc. split; reflexivity.
Qed.

(** C6, the claim as stated fails: after listening_started (or
    processing_started) a normal close leaves connectionStatus
    'disconnected' with isListening (or isSpeaking) still true. *)
Lemma C6_normal_close_keeps_flags_up :
  let listening := Protocol.receive [Protocol.via_socket (Hook.msg "listening_started" [])]
                     Hook.initial in
  let speaking := Protocol.receive [Protocol.via_socket (Hook.msg "processing_started" [])]
                    Hook.initial in
  let w1 := Hook.step (Hook.ws_close 0 1000 "") listening in
  let w2 := Hook.step (Hook.ws_close 0 1000 "") speaking in
  (Hook.connectionStatus (Hook.hook w1) = "disconnected"%string /\
   Hook.isListening (Hook.hook w1) = true) /\
  (Hook.connectionStatus (Hook.hook w2) = "disconnected"%string /\
   Hook.isSpeaking (Hook.hook w2) = true).
Proof. repeat split. Qed.

Section TeardownTwice.

Import JS Hook Protocol.

Lemma step_ws_close (h : nat) (code : N) (reason : string) (w : World) :
  step (ws_close h code reason) w
  = {| hook := closed_hook code reason (hook w);
       refs := tear (refs w);
       sockets := set_nth h {| readyState := CLOSED; session := session (socket h w) |}
                    (sockets w);
       activityHistory := activityHistory w;
       timers := timers w;
       now := now w;
       log := (log w ++ recorder_calls (refs w) ++ audio_calls (refs w)
               ++ room_calls (refs w))%list |}.
Proof.
  cbn [step]. unfold exec, bind. cbn [set_readyState modify].
  now rewrite onclose_world.
Qed.





End TeardownTwice.



(** The case the amended C7 sets apart: a second connect has replaced the
    socket, the first socket closes, and the cleanup then closes the
    second one, which nothing had closed before. *)
Lemma cleanup_closes_the_socket_that_replaced_the_closed_one :
  let w := Hook.step (Hook.call_connectToVoiceService
                        (Hook.fetch_json Protocol.session_abc123))
             Protocol.connected_world in
  let w1 := Hook.step (Hook.ws_close 0 1006 "") w in
  let w2 := Hook.step Hook.unmount w1 in
  Hook.wsRef (Hook.refs w) = Some 1%nat /\
  map Hook.readyState (Hook.sockets w) = [Hook.OPEN; Hook.CONNECTING] /\
  map Hook.readyState (Hook.sockets w1) = [Hook.CLOSED; Hook.CONNECTING] /\
  map Hook.readyState (Hook.sockets w2) = [Hook.CLOSED; Hook.CLOSING].
Proof. repeat split. Qed.


(* ===================================================================== *)
(** ** Connecting twice *)
(* ===================================================================== *)

Section Connect.

Import JS Hook Protocol.





End Connect.




(* ===================================================================== *)
(** ** Who writes isListening *)
(* ===================================================================== *)

Section Listening.

Import JS Hook Protocol.

#[local] Instance same_listening_preorder : PreOrder same_listening.
Proof.
  split.
  - intros w. reflexivity.
  - intros a b c H1 H2. unfold same_listening in *. congruence.
Qed.

Ltac listening_leaf := unfold same_listening; reflexivity.

Lemma startListening_same (snap : HookState) (resp : FetchOutcome)
    (fault : option Exn) (w : World) :
  same_listening w (exec (startListening snap resp fault) w).
Proof. apply (keeps_exec (R := same_listening)). frame listening_leaf. Qed.

Lemma stopListening_same (w : World) : same_listening w (exec stopListening w).
Proof. apply (keeps_exec (R := same_listening)). frame listening_leaf. Qed.

Lemma toggleListening_same (snap : HookState) (resp : FetchOutcome)
    (fault : option Exn) (w : World) :
  same_listening w (exec (toggleListening snap resp fault) w).
Proof. apply (keeps_exec (R := same_listening)). frame listening_leaf. Qed.

(** isListening after a step: the value an inbound listening_started,
    listening_stopped or processing_started gives it, and its old value
    after every other event. *)
Lemma step_listening (ev : Event) (w : World) :
  isListening (hook (step ev w))
  = match sets_listening ev with
    | Some b => b
    | None => isListening (hook w)
    end.
Proof.
  destruct ev; cbn [sets_listening step];
    try match goal with
        | |- isListening (hook ?x) = isListening (hook w) =>
            change (same_listening w x)
        end;
    try (apply (keeps_exec (R := same_listening)); frame listening_leaf).
  - unfold exec. rewrite onmessage_decode. now destruct (decode f).
  - unfold exec. rewrite handleDataReceived_decode. now destruct (decode f).
  - destruct (animationFrameRef (refs w)); [|reflexivity].
    apply (keeps_exec (R := same_listening)). frame listening_leaf.
  - destruct (isListening (hook w));
      apply (keeps_exec (R := same_listening)); frame listening_leaf.
  - unfold same_listening. rewrite elapse_hook. now destruct (existsb _ _).
Qed.

Lemma run_listening_stays (evs : list Event) (w : World) :
  isListening (hook w) = true ->
  Forall (fun ev => sets_listening ev <> Some false) evs ->
  isListening (hook (run evs w)) = true.
Proof.
  revert w. induction evs as [|ev evs IH]; intros w Hw Hevs; [exact Hw|].
  inversion Hevs as [|? ? Hev Hrest]; subst.
  rewrite run_cons. apply IH; [|exact Hrest].
  rewrite step_listening. destruct (sets_listening ev) as [[|]|]; congruence.
Qed.

Ltac listening_compute :=
  cbv [stopListening startListening startListening_body connectToVoiceService
       try_catch bind ret throw gets modify call when is_open negb
       setError set_error
       WebSocket_send MediaRecorder_start MediaRecorder_stop socket
       with_hook with_refs with_call set_mediaRecorderRef exec
       hook refs sockets activityHistory timers now log
       wsRef mediaRecorderRef audioContextRef audioStreamRef roomRef
       analyserRef animationFrameRef fst snd].

(** [stopListening] writes no state of the hook; it makes at most two
    calls, a stop message on the open socket and [stop()] on the recording
    recorder. *)
Lemma stopListening_effect (w : World) :
  hook (exec stopListening w) = hook w /\
  exists calls,
    log (exec stopListening w) = (log w ++ calls)%list /\ Forall stop_call calls.
Proof.
  destruct w as [hk [ws rec ctx stream room an fr] sk ah tm nw lg].
  destruct ws as [h|], rec as [[| |]|];
    try destruct (readyState (nth h sk closed_socket)) eqn:E;
    do 3 (listening_compute; try rewrite E);
    (split; [reflexivity|]); rewrite <- ?app_assoc; cbn [app];
    eexists; (split; [first [reflexivity | symmetry; apply app_nil_r]|]);
    repeat first [apply Forall_nil | apply Forall_cons];
    unfold stop_call; first [left; reflexivity | right; eexists; reflexivity].
Qed.

(** Once connected, [startListening] makes at most two calls, a start
    message on the open socket and [start()] on the inactive recorder, and
    writes no state of the hook unless [start()] fails, when it sets
    error. *)
Lemma startListening_effect (snap : HookState) (resp : FetchOutcome)
    (fault : option Exn) (w : World) :
  isConnected snap = true ->
  (exists calls,
     log (exec (startListening snap resp fault) w) = (log w ++ calls)%list /\
     Forall start_call calls) /\
  (hook (exec (startListening snap resp fault) w) = hook w \/
   exists e,
     fault = Some e /\
     hook (exec (startListening snap resp fault) w)
     = set_error (JStr ("Failed to start listening: " ++ message e)) (hook w)).
Proof.
  intros Hc.
  destruct w as [hk [ws rec ctx stream room an fr] sk ah tm nw lg].
  unfold startListening. rewrite Hc.
  destruct ws as [h|], rec as [[| |]|], fault as [e|];
    try destruct (readyState (nth h sk closed_socket)) eqn:E;
    do 3 (listening_compute; try rewrite E);
    (split;
     [ rewrite <- ?app_assoc; cbn [app];
       eexists; (split; [first [reflexivity | symmetry; apply app_nil_r]|]);
       repeat first [apply Forall_nil | apply Forall_cons];
       unfold start_call; first [left; reflexivity | right; eexists; reflexivity]
     | first [left; reflexivity | right; eexists; split; reflexivity] ]).
Qed.

(** [connectToVoiceService] catches whatever its body throws. *)
Lemma connect_returns (snap : HookState) (resp : FetchOutcome) (w : World) :
  fst (connectToVoiceService snap resp w) = Ret tt.
Proof.
  unfold connectToVoiceService, try_catch.
  match goal with |- fst (match ?m with _ => _ end) = _ => destruct m as [[[]|e] w'] end;
    reflexivity.
Qed.

(** Not yet connected, [startListening] connects first. *)
Lemma startListening_connects (snap : HookState) (resp : FetchOutcome)
    (fault : option Exn) (w : World) :
  isConnected snap = false ->
  exec (startListening snap resp fault) w
  = exec (startListening_body fault) (exec (connectToVoiceService snap resp) w).
Proof.
  intros Hc. unfold startListening, exec, bind. rewrite Hc. cbn [negb when].
  pose proof (connect_returns snap resp w) as H.
  destruct (connectToVoiceService snap resp w) as [o w']. cbn [fst snd] in *.
  now rewrite H.
Qed.

End Listening.

(** C10 (as amended).  isListening is written only by the handling of
    inbound messages: after any event its value is the one a
    listening_started (true), a listening_stopped or a processing_started
    (false) gives it, and its old value otherwise.  startListening,
    stopListening and toggleListening never change it.  stopListening
    writes no hook state at all and only sends a stop message and stops
    the recorder.  startListening, once the hook is connected, only sends
    a start message and starts the recorder, and writes hook state only to
    record the failure of that start in error; while the hook is not
    connected it first runs connectToVoiceService, which writes
    connectionStatus and error, asks for or reuses a session and opens a
    socket.  After a stopListening, isListening stays true through any
    events until a listening_stopped or a processing_started arrives. *)
Theorem C10_public_operations_never_write_isListening :
  (forall ev w,
     Hook.isListening (Hook.hook (Hook.step ev w))
     = match Protocol.sets_listening ev with
       | Some b => b
       | None => Hook.isListening (Hook.hook w)
       end) /\
  (forall snap resp fault w,
     Hook.isListening (Hook.hook (Hook.exec (Hook.startListening snap resp fault) w))
     = Hook.isListening (Hook.hook w)) /\
  (forall w,
     Hook.isListening (Hook.hook (Hook.exec Hook.stopListening w))
     = Hook.isListening (Hook.hook w)) /\
  (forall snap resp fault w,
     Hook.isListening (Hook.hook (Hook.exec (Hook.toggleListening snap resp fault) w))
     = Hook.isListening (Hook.hook w)) /\
  (forall w,
     Hook.hook (Hook.exec Hook.stopListening w) = Hook.hook w /\
     exists calls,
       Hook.log (Hook.exec Hook.stopListening w) = (Hook.log w ++ calls)%list /\
       Forall Protocol.stop_call calls) /\
  (forall snap resp fault w,
     Hook.isConnected snap = true ->
     (exists calls,
        Hook.log (Hook.exec (Hook.startListening snap resp fault) w)
        = (Hook.log w ++ calls)%list /\
        Forall Protocol.start_call calls) /\
     (Hook.hook (Hook.exec (Hook.startListening snap resp fault) w) = Hook.hook w \/
      exists e,
        fault = Some e /\
        Hook.hook (Hook.exec (Hook.startListening snap resp fault) w)
        = Hook.set_error (JS.JStr ("Failed to start listening: " ++ JS.message e))
            (Hook.hook w))) /\
  (forall snap resp fault w,
     Hook.isConnected snap = false ->
     Hook.exec (Hook.startListening snap resp fault) w
     = Hook.exec (Hook.startListening_body fault)
         (Hook.exec (Hook.connectToVoiceService snap resp) w)) /\
  (forall evs w,
     Hook.isListening (Hook.hook w) = true ->
     Forall (fun ev => Protocol.sets_listening ev <> Some false) evs ->
     Hook.isListening (Hook.hook (Hook.run (Hook.call_stopListening :: evs) w)) = true).
Proof.
  split; [exact step_listening|].
  split; [exact startListening_same|].
  split; [exact stopListening_same|].
  split; [exact toggleListening_same|].
  split; [exact stopListening_effect|].
  split; [exact startListening_effect|].
  split; [exact startListening_connects|].
  intros evs w Hw Hevs. apply run_listening_stays; [exact Hw|].
  constructor; [discriminate|exact Hevs].
Qed.

(** C10, the claim as stated fails: called on a hook that is not
    connected, startListening sends no control message and starts no
    recorder; it sets connectionStatus to 'connecting', asks the backend
    for a session, stores it and opens a socket. *)
Lemma C10_startListening_connects_first :
  let w' := Hook.exec (Hook.startListening (Hook.hook Hook.initial)
                         (Hook.fetch_json Protocol.session_abc123) None)
              Hook.initial in
  Hook.isConnected (Hook.hook Hook.initial) = false /\
  Hook.connectionStatus (Hook.hook Hook.initial) = "disconnected"%string /\
  Hook.connectionStatus (Hook.hook w') = "connecting"%string /\
  Hook.sessionData (Hook.hook w') = Protocol.session_abc123 /\
  Hook.log w' = [Hook.fetch_sessions; Hook.new_WebSocket (JS.JStr "abc123")] /\
  Hook.isListening (Hook.hook w') = false.
Proof. repeat split. Qed.

(* ===================================================================== *)
(** ** Scenarios of the specification *)
(* ===================================================================== *)

Section Scenarios.

Import JS Hook Protocol.
Open Scope string_scope.

Ltac open_compute :=
  cbv [onopen initializeAudio requestMicrophoneAccess construct stage_eqb
       connectToLiveKitRoom
       try_catch bind ret throw gets modify call when prop socket
       setIsConnected setConnectionStatus setError set_error appendMessage
       with_hook with_refs with_call with_sockets
       set_audioStreamRef set_audioContextRef set_mediaRecorderRef
       set_analyserRef set_roomRef
       hook refs sockets activityHistory timers now log exec returns fst snd
       wsRef mediaRecorderRef audioContextRef audioStreamRef roomRef
       analyserRef animationFrameRef
       isConnected isListening isSpeaking messages connectionStatus error
       sessionId sessionData].

(** Marking a socket open or closed keeps the session its closure holds. *)
Lemma session_after_mark (h : nat) (r : ReadyState) (w : World) :
  session (socket h (exec (set_readyState h r) w)) = session (socket h w).
Proof.
  unfold socket, exec. cbn [set_readyState modify snd sockets with_sockets].
  destruct (Nat.lt_ge_cases h (List.length (sockets w))) as [H|H].
  - now rewrite nth_set_nth.
  - now rewrite set_nth_out.
Qed.

Lemma hook_after_mark (h : nat) (r : ReadyState) (w : World) :
  hook (exec (set_readyState h r) w) = hook w.
Proof. reflexivity. Qed.

(** A handler that runs once its socket is marked returns when it returns
    from the marked world. *)
Lemma returns_after_mark (A : Type) (h : nat) (r : ReadyState) (m : M A) (w : World) :
  returns (bind (set_readyState h r) (fun _ => m)) w
  = returns m (exec (set_readyState h r) w).
Proof. reflexivity. Qed.

(** [onopen] with room and token in the session, and a room that connects. *)
Lemma onopen_connected (h : nat) (mic : MicOutcome) (token room : jsval) (w : World) :
  get_prop (session (socket h w)) "livekit_user_token" = Some token ->
  truthy token = true ->
  get_prop (session (socket h w)) "livekit_room" = Some room ->
  truthy room = true ->
  let w' := exec (onopen h mic room_connects) w in
  returns (onopen h mic room_connects) w = true /\
  isConnected (hook w') = true /\
  connectionStatus (hook w') = "connected" /\
  error (hook w') = JNull /\
  messages (hook w') = (messages (hook w) ++ [welcome])%list /\
  roomRef (refs w') = Some room_connected /\
  In (room_connect token) (log w') /\
  (forall e, mic = mic_denied e ->
             In (dispatch_microphoneError (microphone_message e)) (log w')).
Proof.
  intros Ht Htt Hr Hrt w'. subst w'.
  destruct w as [hk [ws rec ctx stream rm an fr] sk ah tm nw lg].
  unfold socket in Ht, Hr. cbn [sockets] in Ht, Hr.
  destruct mic as [n|e|n [| | |] e], stream as [tracks|];
    open_compute; rewrite Ht; open_compute; rewrite Htt, Hr; open_compute;
    rewrite Hrt; open_compute;
    repeat split; rewrite <- ?app_assoc;
    try (apply in_or_app; right; cbn; tauto);
    try discriminate;
    intros e' He'; inversion He'; subst; apply in_or_app; right; cbn; tauto.
Qed.

End Scenarios.

(** X1.  Scenario: the session holds a room name and a token, the socket
    opens, the room connects and the local track, if there is a stream, is
    published.  Then the open handler throws nothing, the room is
    connected with that token, isConnected is true, connectionStatus is
    'connected', error is null and the welcome Turn is appended; this holds
    whether the microphone was granted, was denied, or was granted and the
    audio objects could not be built, and a denial is announced by a
    microphoneError event carrying the human-readable message. *)
Theorem X1_socket_open_connects_and_welcomes
    (h : nat) (mic : Hook.MicOutcome) (token room : JS.jsval) (w : Hook.World) :
  JS.get_prop (Hook.session (Hook.socket h w)) "livekit_user_token" = Some token ->
  JS.truthy token = true ->
  JS.get_prop (Hook.session (Hook.socket h w)) "livekit_room" = Some room ->
  JS.truthy room = true ->
  let w' := Hook.step (Hook.ws_open h mic Hook.room_connects) w in
  Hook.returns (Hook.bind (Hook.set_readyState h Hook.OPEN)
                          (fun _ => Hook.onopen h mic Hook.room_connects)) w = true /\
  Hook.isConnected (Hook.hook w') = true /\
  Hook.connectionStatus (Hook.hook w') = "connected"%string /\
  Hook.error (Hook.hook w') = JS.JNull /\
  Hook.messages (Hook.hook w') = (Hook.messages (Hook.hook w) ++ [Hook.welcome])%list /\
  Hook.roomRef (Hook.refs w') = Some Hook.room_connected /\
  In (Hook.room_connect token) (Hook.log w') /\
  (forall e, mic = Hook.mic_denied e ->
             In (Hook.dispatch_microphoneError (Hook.microphone_message e)) (Hook.log w')).
Proof.
  intros Ht Htt Hr Hrt w'.
  assert (E : w' = Hook.exec (Hook.onopen h mic Hook.room_connects)
                     (Hook.exec (Hook.set_readyState h Hook.OPEN) w)) by reflexivity.
  clearbody w'. subst w'.
  rewrite <- (session_after_mark h Hook.OPEN w) in Ht, Hr.
  destruct (@onopen_connected h mic token room _ Ht Htt Hr Hrt) as (H0 & H).
  rewrite hook_after_mark in H. rewrite returns_after_mark.
  split; [exact H0|exact H].
Qed.

Lemma X1_socket_open_witness :
  let w := Hook.step (Hook.call_connectToVoiceService
                        (Hook.fetch_json Protocol.session_abc123)) Hook.initial in
  let w' := Hook.step (Hook.ws_open 0 (Hook.mic_granted 1) Hook.room_connects) w in
  Hook.returns (Hook.bind (Hook.set_readyState 0 Hook.OPEN)
                          (fun _ => Hook.onopen 0 (Hook.mic_granted 1) Hook.room_connects))
    w = true /\
  Hook.isConnected (Hook.hook w') = true /\
  Hook.connectionStatus (Hook.hook w') = "connected"%string /\
  Hook.error (Hook.hook w') = JS.JNull /\
  Hook.messages (Hook.hook w') = (Hook.messages (Hook.hook w) ++ [Hook.welcome])%list /\
  Hook.roomRef (Hook.refs w') = Some Hook.room_connected /\
  In (Hook.room_connect (JS.JStr "t1")) (Hook.log w') /\
  (forall e, Hook.mic_granted 1 = Hook.mic_denied e ->
             In (Hook.dispatch_microphoneError (Hook.microphone_message e)) (Hook.log w')).
Proof.
  apply (@X1_socket_open_connects_and_welcomes 0 (Hook.mic_granted 1)
           (JS.JStr "t1") (JS.JStr "r1")
           (Hook.step (Hook.call_connectToVoiceService
                         (Hook.fetch_json Protocol.session_abc123)) Hook.initial));
    reflexivity.
Defined.





Section MeterLoop.

Import JS Hook Protocol.

Lemma getByteFrequencyData_length (n : nat) (spectrum : list byte) :
  List.length (getByteFrequencyData n spectrum) = n.
Proof.
  unfold getByteFrequencyData. rewrite length_firstn, length_app, repeat_length. lia.
Qed.

Lemma push_history_bounded (s : Meter.Sample) (h : list Meter.Sample) :
  (List.length h <= Meter.maxHistoryLength)%nat ->
  (List.length (Meter.push_history s h) <= Meter.maxHistoryLength)%nat.
Proof.
  intros H. unfold Meter.push_history.
  destruct (Nat.ltb_spec Meter.maxHistoryLength (List.length (h ++ [s]))) as [L|L].
  - rewrite length_app in L. cbn in L.
    destruct h as [|x h]; cbn in *; [lia|]. rewrite length_app. cbn. lia.
  - exact L.
Qed.

(** One frame of the loop, with the analyser [initializeAudio] makes. *)
Lemma detectVoiceActivity_frame (spectrum : list byte) (w : World) :
  analyserRef (refs w) = Some {| fftSize := 256 |} ->
  let s := Meter.sample_of (now w) (getByteFrequencyData 128 spectrum) in
  let h := Meter.push_history s (activityHistory w) in
  exec (detectVoiceActivity spectrum) w
  = {| hook := hook w;
       refs := set_animationFrameRef (Some (next_frame_id w)) (refs w);
       sockets := sockets w;
       activityHistory := h;
       timers := timers w;
       now := now w;
       log := (log w
               ++ [dispatch_voiceActivity
                     (Some {| Meter.current := Meter.overall s;
                              Meter.frequencies := (Meter.low s, Meter.mid s, Meter.high s);
                              Meter.history := h |});
                   requestAnimationFrame (next_frame_id w)])%list |}.
Proof.
  intros Ha s h. destruct w as [hk rf sk ah tm nw lg]. cbn [refs] in Ha.
  unfold detectVoiceActivity, exec, bind at 1. cbn [gets refs]. rewrite Ha.
  change (frequencyBinCount {| fftSize := 256 |}) with 128%nat.
  cbv [bind gets modify call with_history with_call with_refs ret snd
       Meter.detectVoiceActivity now activityHistory hook refs sockets timers log
       next_frame_id].
  subst s h. cbn [now activityHistory]. rewrite <- app_assoc. reflexivity.
Qed.

End MeterLoop.

(** X3.  Every sample the detection loop of the hook emits, with the
    analyser that initializeAudio creates (fftSize 256, hence 128 bins),
    has its overall loudness and its three band energies in [0,1],
    whatever the spectrum; and the history it carries keeps at most 50
    samples. *)
Theorem X3_loop_samples_in_unit_interval (spectrum : list byte) (w : Hook.World) :
  Hook.analyserRef (Hook.refs w) = Some {| Hook.fftSize := 256 |} ->
  (List.length (Hook.activityHistory w) <= Meter.maxHistoryLength)%nat ->
  let w' := Hook.exec (Hook.detectVoiceActivity spectrum) w in
  let s := Meter.sample_of (Hook.now w) (Hook.getByteFrequencyData 128 spectrum) in
  Hook.activityHistory w' = Meter.push_history s (Hook.activityHistory w) /\
  (List.length (Hook.activityHistory w') <= Meter.maxHistoryLength)%nat /\
  In (Hook.dispatch_voiceActivity
        (Some {| Meter.current := Meter.overall s;
                 Meter.frequencies := (Meter.low s, Meter.mid s, Meter.high s);
                 Meter.history := Hook.activityHistory w' |})) (Hook.log w') /\
  Meter.in_unit (Meter.overall s) /\ Meter.in_unit (Meter.low s) /\
  Meter.in_unit (Meter.mid s) /\ Meter.in_unit (Meter.high s).
Proof.
  intros Ha Hh w' s.
  assert (E := @detectVoiceActivity_frame spectrum w Ha). cbv zeta in E. fold s in E.
  fold w' in E. clearbody w'.
  assert (Hlen : (3 <= List.length (Hook.getByteFrequencyData 128 spectrum))%nat).
  { rewrite getByteFrequencyData_length. lia. }
  assert (Hs := @sample_of_bands (Hook.now w) _ Hlen). fold s in Hs.
  split; [now rewrite E|]. split; [rewrite E; now apply push_history_bounded|].
  split.
  - rewrite E. cbn [Hook.log Hook.activityHistory]. apply in_or_app. right. now left.
  - rewrite Hs. cbn. repeat split; apply normalized_unit.
Qed.

Lemma X3_loop_samples_witness :
  let w := Hook.step (Hook.recorder_onstart [xff; x80; x10])
             (Hook.step (Hook.startListening_resumes None) Protocol.connected_world) in
  let spectrum := [x00; x40; xff; x07] in
  let w' := Hook.exec (Hook.detectVoiceActivity spectrum) w in
  let s := Meter.sample_of (Hook.now w) (Hook.getByteFrequencyData 128 spectrum) in
  Hook.activityHistory w' = Meter.push_history s (Hook.activityHistory w) /\
  (List.length (Hook.activityHistory w') <= Meter.maxHistoryLength)%nat /\
  In (Hook.dispatch_voiceActivity
        (Some {| Meter.current := Meter.overall s;
                 Meter.frequencies := (Meter.low s, Meter.mid s, Meter.high s);
                 Meter.history := Hook.activityHistory w' |})) (Hook.log w') /\
  Meter.in_unit (Meter.overall s) /\ Meter.in_unit (Meter.low s) /\
  Meter.in_unit (Meter.mid s) /\ Meter.in_unit (Meter.high s).
Proof.
  apply (@X3_loop_samples_in_unit_interval [x00; x40; xff; x07]
           (Hook.step (Hook.recorder_onstart [xff; x80; x10])
              (Hook.step (Hook.startListening_resumes None) Protocol.connected_world))).
  - reflexivity.
  - vm_compute. lia.
Defined.

(** X4.  Recorded audio is forwarded only while the room reports a
    connected state: a chunk that arrives while the room is not connected,
    or an empty chunk, is dropped and not queued (the world is unchanged);
    a non-empty chunk that arrives while the room is connected and the
    socket is open is sent on the socket as it is. *)
Theorem X4_audio_forwarded_only_while_connected (size : N) (w : Hook.World) :
  (Hook.roomRef (Hook.refs w) <> Some Hook.room_connected ->
   Hook.exec (Hook.ondataavailable size) w = w) /\
  (size = 0%N -> Hook.exec (Hook.ondataavailable size) w = w) /\
  (forall h,
     Hook.roomRef (Hook.refs w) = Some Hook.room_connected ->
     (0 < size)%N ->
     Hook.wsRef (Hook.refs w) = Some h ->
     Hook.readyState (Hook.socket h w) = Hook.OPEN ->
     Hook.exec (Hook.ondataavailable size) w
     = Hook.with_call (Hook.ws_send h (Hook.audio_chunk size)) w).
Proof.
  destruct w as [hk [ws rec ctx stream room an fr] sk ah tm nw lg].
  split; [|split].
  - intros Hr. cbn in Hr. destruct room as [[|]|]; try reflexivity. now contradiction Hr.
  - intros ->. destruct room as [[|]|]; reflexivity.
  - intros h Hr Hs Hw Ho. cbn in Hr, Hw. subst room ws.
    unfold Hook.socket in Ho. cbn [Hook.sockets] in Ho. apply N.ltb_lt in Hs.
    do 4 (cbv [Hook.ondataavailable Hook.exec Hook.bind Hook.gets Hook.refs Hook.roomRef
               Hook.wsRef Hook.socket Hook.sockets Hook.when Hook.is_open
               Hook.WebSocket_send Hook.call Hook.modify Hook.ret snd fst
               Hook.with_call Hook.hook Hook.log Hook.timers Hook.now
               Hook.activityHistory];
          rewrite ?Hs, ?Ho).
    reflexivity.
Qed.

(* ===================================================================== *)
(** ** Failures, closes and disconnects *)
(* ===================================================================== *)

Ltac hook_cbv :=
  cbv [Hook.connectToVoiceService Hook.createSession Hook.WebSocket_new
       Hook.onopen Hook.initializeAudio Hook.requestMicrophoneAccess
       Hook.construct Hook.stage_eqb Hook.connectToLiveKitRoom Hook.onerror Hook.onclose Hook.handleRoomDisconnected
       Hook.release_audio Hook.stop_recorder_unless_inactive Hook.disconnect_room
       Hook.room_state_disconnected Hook.ondataavailable
       Hook.handleTrackSubscribed Hook.handleTrackUnsubscribed
       Hook.startListening Hook.startListening_body Hook.startListening_until_wait
       Hook.stopListening Hook.toggleListening
       Hook.WebSocket_send Hook.WebSocket_close Hook.MediaRecorder_start
       Hook.MediaRecorder_stop Hook.stop_tracks Hook.AudioContext_close
       Hook.Room_disconnect Hook.set_readyState Hook.is_open Hook.socket
       Hook.stopVoiceActivityDetection
       Hook.try_catch Hook.bind Hook.ret Hook.throw Hook.gets Hook.modify
       Hook.call Hook.when Hook.prop Hook.exec Hook.returns
       Hook.setIsConnected Hook.setIsListening Hook.setIsSpeaking Hook.set_speaking
       Hook.appendMessage Hook.setConnectionStatus Hook.setError Hook.set_error
       Hook.setSessionId Hook.setSessionData
       Hook.with_hook Hook.with_refs Hook.with_sockets Hook.with_history
       Hook.with_timers Hook.with_call
       Hook.set_wsRef Hook.set_mediaRecorderRef Hook.set_audioContextRef
       Hook.set_audioStreamRef Hook.set_roomRef Hook.set_analyserRef
       Hook.set_animationFrameRef
       Hook.hook Hook.refs Hook.sockets Hook.activityHistory Hook.timers Hook.now
       Hook.log
       Hook.isConnected Hook.isListening Hook.isSpeaking Hook.messages
       Hook.connectionStatus Hook.error Hook.sessionId Hook.sessionData
       Hook.wsRef Hook.mediaRecorderRef Hook.audioContextRef Hook.audioStreamRef
       Hook.roomRef Hook.analyserRef Hook.animationFrameRef
       fst snd negb].

Ltac open_hook_world w :=
  destruct w as [hk [ws rec ctx stream room an fr] sk ah tm nw lg].

(** X5.  A connect that finds no stored session and whose session request
    fails (the request is rejected, the answer is not 2xx, or its body
    cannot be read) throws nothing: it leaves connectionStatus 'error' and
    error the failure's message (or 'Failed to connect to voice service'
    when the message is empty), stores no session, opens no socket and
    leaves isConnected, the transcript and every ref as they were. *)
Theorem X5_failed_session_request_sets_error
    (snap : Hook.HookState) (resp : Hook.FetchOutcome) (e : JS.Exn) (w : Hook.World) :
  JS.truthy (Hook.sessionData snap) = false ->
  fst (Hook.createSession resp w) = Hook.Throw e ->
  let w' := Hook.exec (Hook.connectToVoiceService snap resp) w in
  Hook.returns (Hook.connectToVoiceService snap resp) w = true /\
  Hook.connectionStatus (Hook.hook w') = "error"%string /\
  Hook.error (Hook.hook w')
  = JS.JStr (JS.str_or (JS.message e) "Failed to connect to voice service") /\
  Hook.sessionData (Hook.hook w') = Hook.sessionData (Hook.hook w) /\
  Hook.sessionId (Hook.hook w') = Hook.sessionId (Hook.hook w) /\
  Hook.isConnected (Hook.hook w') = Hook.isConnected (Hook.hook w) /\
  Hook.messages (Hook.hook w') = Hook.messages (Hook.hook w) /\
  Hook.sockets w' = Hook.sockets w /\ Hook.refs w' = Hook.refs w /\
  Hook.log w' = (Hook.log w ++ [Hook.fetch_sessions])%list.
Proof.
  intros Hs He w'. subst w'.
  destruct w as [hk rf sk ah tm nw lg].
  unfold Hook.connectToVoiceService. rewrite Hs.
  destruct resp as [e0|st stt txt|e0|v]; [| | |destruct v];
    revert He; do 2 (hook_cbv; cbn [JS.get_prop]); intros He; try discriminate; injection He as <-;
    repeat split.
Qed.

Lemma X5_failed_session_request_witness :
  let snap := Hook.hook Hook.initial in
  let resp := Hook.fetch_not_ok 503 "Service Unavailable" "down" in
  let w' := Hook.exec (Hook.connectToVoiceService snap resp) Hook.initial in
  Hook.returns (Hook.connectToVoiceService snap resp) Hook.initial = true /\
  Hook.connectionStatus (Hook.hook w') = "error"%string /\
  Hook.error (Hook.hook w')
  = JS.JStr "Failed to create session: 503 Service Unavailable - down" /\
  Hook.sessionData (Hook.hook w') = JS.JNull /\
  Hook.sessionId (Hook.hook w') = JS.JNull /\
  Hook.isConnected (Hook.hook w') = false /\
  Hook.messages (Hook.hook w') = [] /\
  Hook.sockets w' = [] /\ Hook.refs w' = Hook.refs Hook.initial /\
  Hook.log w' = [Hook.fetch_sessions].
Proof.
  apply (@X5_failed_session_request_sets_error (Hook.hook Hook.initial)
           (Hook.fetch_not_ok 503 "Service Unavailable" "down")
           {| JS.name := "Error";
              JS.message := "Failed to create session: 503 Service Unavailable - down" |}
           Hook.initial); reflexivity.
Defined.



(** X7.  A socket error only reports: it sets error to 'Connection error:
    <message>' and connectionStatus to 'error', and leaves isConnected,
    every ref and the platform untouched (nothing is released).  The close
    that follows decides what stays: after a normal close (code 1000) the
    status is 'disconnected' while error still holds the connection error;
    after any other close error is replaced by the close message. *)
Theorem X7_socket_error_then_close
    (m : option string) (s : string) (h : nat) (code : N) (reason : string)
    (w : Hook.World) :
  let w1 := Hook.step (Hook.ws_error m s) w in
  let w2 := Hook.step (Hook.ws_close h code reason) w1 in
  let text := match m with Some t => JS.str_or t s | None => s end in
  (Hook.error (Hook.hook w1) = JS.JStr ("Connection error: " ++ text) /\
   Hook.connectionStatus (Hook.hook w1) = "error"%string /\
   Hook.isConnected (Hook.hook w1) = Hook.isConnected (Hook.hook w) /\
   Hook.refs w1 = Hook.refs w /\ Hook.sockets w1 = Hook.sockets w /\
   Hook.log w1 = Hook.log w) /\
  Hook.isConnected (Hook.hook w2) = false /\
  (code = 1000%N ->
   Hook.connectionStatus (Hook.hook w2) = "disconnected"%string /\
   Hook.error (Hook.hook w2) = JS.JStr ("Connection error: " ++ text)) /\
  (code <> 1000%N ->
   Hook.connectionStatus (Hook.hook w2) = "error"%string /\
   Hook.error (Hook.hook w2) = JS.JStr (Hook.close_message code reason)).
Proof.
  intros w1 w2 text.
  assert (E2 := step_ws_close h code reason w1). fold w2 in E2.
  assert (E1 : w1 = Hook.exec (Hook.onerror m s) w) by reflexivity.
  clearbody w2 w1.
  assert (H1 : Hook.error (Hook.hook w1) = JS.JStr ("Connection error: " ++ text) /\
               Hook.connectionStatus (Hook.hook w1) = "error"%string /\
               Hook.isConnected (Hook.hook w1) = Hook.isConnected (Hook.hook w) /\
               Hook.refs w1 = Hook.refs w /\ Hook.sockets w1 = Hook.sockets w /\
               Hook.log w1 = Hook.log w).
  { rewrite E1. destruct w as [hk rf sk ah tm nw lg]. repeat split. }
  split; [exact H1|]. destruct H1 as (He & _).
  rewrite E2. cbn [Hook.hook Protocol.closed_hook Hook.isConnected
                   Hook.connectionStatus Hook.error].
  split; [reflexivity|]. split.
  - intros ->. cbn. now rewrite He.
  - intros Hc. apply N.eqb_neq in Hc. now rewrite Hc.
Qed.


(* ===================================================================== *)
(** ** The microphone button, click by click *)
(* ===================================================================== *)

Section Clicks.

Import JS Hook Protocol.

Variables (h : nat) (w : World).
Hypothesis socket_set : wsRef (refs w) = Some h.
Hypothesis socket_open : readyState (socket h w) = OPEN.

Ltac click_compute Ho :=
  do 4 (hook_cbv; rewrite ?Ho); rewrite <- ?app_assoc; reflexivity.

(** A click while connected and not listening, the recorder inactive: a
    start message, and the recorder starts. *)
Lemma click_starts (resp : FetchOutcome) :
  isConnected (hook w) = true -> isListening (hook w) = false ->
  mediaRecorderRef (refs w) = Some inactive ->
  step (call_toggleListening resp None) w
  = {| hook := hook w;
       refs := set_mediaRecorderRef (Some recording) (refs w);
       sockets := sockets w; activityHistory := activityHistory w;
       timers := timers w; now := now w;
       log := (log w ++ [ws_send h (control start); recorder_start])%list |}.
Proof.
  revert socket_set socket_open.
  destruct w as [hk [ws rec ctx stream room an fr] sk ah tm nw lg].
  unfold socket. cbn [refs wsRef sockets hook mediaRecorderRef].
  intros -> Ho Hc Hl ->. destruct hk as [c l sp ms st er sid sd].
  cbn [isConnected isListening] in Hc, Hl. subst c l. cbn [step hook isListening].
  click_compute Ho.
Qed.

(** A click while connected and not listening, the recorder already
    recording: a start message, and nothing else. *)
Lemma click_starts_again (resp : FetchOutcome) (fault : option Exn) :
  isConnected (hook w) = true -> isListening (hook w) = false ->
  mediaRecorderRef (refs w) = Some recording ->
  step (call_toggleListening resp fault) w
  = with_call (ws_send h (control start)) w.
Proof.
  revert socket_set socket_open.
  destruct w as [hk [ws rec ctx stream room an fr] sk ah tm nw lg].
  unfold socket. cbn [refs wsRef sockets hook mediaRecorderRef].
  intros -> Ho Hc Hl ->. destruct hk as [c l sp ms st er sid sd].
  cbn [isConnected isListening] in Hc, Hl. subst c l. cbn [step hook isListening].
  click_compute Ho.
Qed.

(** A click while listening, the recorder recording: a stop message, and
    the recorder stops. *)
Lemma click_stops (resp : FetchOutcome) (fault : option Exn) :
  isListening (hook w) = true ->
  mediaRecorderRef (refs w) = Some recording ->
  step (call_toggleListening resp fault) w
  = {| hook := hook w;
       refs := set_mediaRecorderRef (Some inactive) (refs w);
       sockets := sockets w; activityHistory := activityHistory w;
       timers := timers w; now := now w;
       log := (log w ++ [ws_send h (control stop); recorder_stop])%list |}.
Proof.
  revert socket_set socket_open.
  destruct w as [hk [ws rec ctx stream room an fr] sk ah tm nw lg].
  unfold socket. cbn [refs wsRef sockets hook mediaRecorderRef].
  intros -> Ho Hl ->. destruct hk as [c l sp ms st er sid sd].
  cbn [isListening] in Hl. subst l. cbn [step hook isListening].
  click_compute Ho.
Qed.

End Clicks.

Section Confirmations.

Import JS Hook Protocol.

Lemma step_ws_message (f : Frame) (w : World) :
  step (ws_message f) w = exec (on_socket (decode f)) w.
Proof. exact (step_inbound (via_socket f) w). Qed.

Lemma decode_listening_started (fields : list (string * jsval)) :
  decode (msg "listening_started" fields) = listening_started.
Proof. reflexivity. Qed.

Lemma decode_listening_stopped (fields : list (string * jsval)) :
  decode (msg "listening_stopped" fields) = listening_stopped.
Proof. reflexivity. Qed.

End Confirmations.

(** X9.  isListening follows the backend, not the button: a second click
    before the backend has confirmed the first finds isListening still
    false, so it starts again instead of stopping.  It sends a second start
    message, leaves the recorder recording, and sends no stop. *)
Theorem X9_second_click_before_confirmation_starts_again
    (h : nat) (resp1 resp2 : Hook.FetchOutcome) (fault2 : option JS.Exn) (w : Hook.World) :
  Hook.wsRef (Hook.refs w) = Some h ->
  Hook.readyState (Hook.socket h w) = Hook.OPEN ->
  Hook.isConnected (Hook.hook w) = true ->
  Hook.isListening (Hook.hook w) = false ->
  Hook.mediaRecorderRef (Hook.refs w) = Some Hook.inactive ->
  let w1 := Hook.step (Hook.call_toggleListening resp1 None) w in
  let w2 := Hook.step (Hook.call_toggleListening resp2 fault2) w1 in
  Hook.hook w2 = Hook.hook w /\
  Hook.mediaRecorderRef (Hook.refs w2) = Some Hook.recording /\
  Hook.log w2
  = (Hook.log w ++ [Hook.ws_send h (Hook.control Hook.start); Hook.recorder_start;
                    Hook.ws_send h (Hook.control Hook.start)])%list.
Proof.
  intros Hw Ho Hc Hl Hr w1 w2.
  assert (E1 := @click_starts h w Hw Ho resp1 Hc Hl Hr). fold w1 in E1.
  assert (E2 : w2 = Hook.with_call (Hook.ws_send h (Hook.control Hook.start)) w1).
  { apply click_starts_again; rewrite E1; try assumption; reflexivity. }
  clearbody w2 w1. rewrite E2, E1.
  cbn [Hook.with_call Hook.hook Hook.refs Hook.log Hook.mediaRecorderRef
       Hook.set_mediaRecorderRef].
  rewrite <- app_assoc. repeat split.
Qed.

Lemma X9_second_click_witness :
  let w := Protocol.connected_world in
  let resp := Hook.fetch_json Protocol.session_abc123 in
  let w1 := Hook.step (Hook.call_toggleListening resp None) w in
  let w2 := Hook.step (Hook.call_toggleListening resp None) w1 in
  Hook.hook w2 = Hook.hook w /\
  Hook.mediaRecorderRef (Hook.refs w2) = Some Hook.recording /\
  Hook.log w2
  = (Hook.log w ++ [Hook.ws_send 0 (Hook.control Hook.start); Hook.recorder_start;
                    Hook.ws_send 0 (Hook.control Hook.start)])%list.
Proof.
  apply (@X9_second_click_before_confirmation_starts_again 0
           (Hook.fetch_json Protocol.session_abc123)
           (Hook.fetch_json Protocol.session_abc123) None Protocol.connected_world);
    reflexivity.
Defined.

(** X10.  A whole listening turn: click, listening_started from the
    backend, click, listening_stopped.  The four calls are a start message,
    the recorder's start, a stop message and the recorder's stop, in that
    order; isListening is true from the first confirmation until the
    second (the second click alone does not lower it); and at the end every
    ref is as it was before the first click and the hook state differs
    only in isSpeaking, which the first confirmation cleared. *)
Theorem X10_listening_turn_round_trip
    (h : nat) (resp1 resp2 : Hook.FetchOutcome) (fault2 : option JS.Exn)
    (fields1 fields2 : list (string * JS.jsval)) (w : Hook.World) :
  Hook.wsRef (Hook.refs w) = Some h ->
  Hook.readyState (Hook.socket h w) = Hook.OPEN ->
  Hook.isConnected (Hook.hook w) = true ->
  Hook.isListening (Hook.hook w) = false ->
  Hook.mediaRecorderRef (Hook.refs w) = Some Hook.inactive ->
  let w1 := Hook.step (Hook.call_toggleListening resp1 None) w in
  let w2 := Hook.step (Hook.ws_message (Hook.msg "listening_started" fields1)) w1 in
  let w3 := Hook.step (Hook.call_toggleListening resp2 fault2) w2 in
  let w4 := Hook.step (Hook.ws_message (Hook.msg "listening_stopped" fields2)) w3 in
  Hook.isListening (Hook.hook w1) = false /\
  Hook.isListening (Hook.hook w2) = true /\
  Hook.isListening (Hook.hook w3) = true /\
  Hook.isListening (Hook.hook w4) = false /\
  Hook.hook w4 = Hook.set_speaking false (Hook.hook w) /\
  Hook.refs w4 = Hook.refs w /\
  Hook.log w4
  = (Hook.log w ++ [Hook.ws_send h (Hook.control Hook.start); Hook.recorder_start;
                    Hook.ws_send h (Hook.control Hook.stop); Hook.recorder_stop])%list.
Proof.
  intros Hw Ho Hc Hl Hr w1 w2 w3 w4.
  assert (E1 := @click_starts h w Hw Ho resp1 Hc Hl Hr). fold w1 in E1.
  assert (E2 : w2 = Hook.exec (Protocol.on_socket Protocol.listening_started) w1).
  { subst w2. now rewrite step_ws_message, decode_listening_started. }
  assert (E4 : w4 = Hook.exec (Protocol.on_socket Protocol.listening_stopped) w3).
  { subst w4. now rewrite step_ws_message, decode_listening_stopped. }
  assert (E3 : w3 = Hook.step (Hook.call_toggleListening resp2 fault2) w2) by reflexivity.
  clearbody w4 w3 w2 w1.
  rewrite E1 in E2. cbn in E2.
  rewrite (@click_stops h w2) in E3; try (rewrite E2; try assumption; reflexivity).
  rewrite E2 in E3. cbn in E3. rewrite E3 in E4. cbn in E4.
  rewrite E1, E2, E3, E4.
  cbn [Hook.hook Hook.refs Hook.log Hook.isListening].
  destruct w as [hk [ws rec ctx stream room an fr] sk ah tm nw lg].
  cbn in Hr, Hl. subst rec. destruct hk. cbn in Hl. subst.
  rewrite <- app_assoc. repeat split.
Qed.

Lemma X10_listening_turn_witness :
  let w := Protocol.connected_world in
  let resp := Hook.fetch_json Protocol.session_abc123 in
  let w1 := Hook.step (Hook.call_toggleListening resp None) w in
  let w2 := Hook.step (Hook.ws_message (Hook.msg "listening_started" [])) w1 in
  let w3 := Hook.step (Hook.call_toggleListening resp None) w2 in
  let w4 := Hook.step (Hook.ws_message (Hook.msg "listening_stopped" [])) w3 in
  Hook.isListening (Hook.hook w1) = false /\
  Hook.isListening (Hook.hook w2) = true /\
  Hook.isListening (Hook.hook w3) = true /\
  Hook.isListening (Hook.hook w4) = false /\
  Hook.hook w4 = Hook.set_speaking false (Hook.hook w) /\
  Hook.refs w4 = Hook.refs w /\
  Hook.log w4
  = (Hook.log w ++ [Hook.ws_send 0 (Hook.control Hook.start); Hook.recorder_start;
                    Hook.ws_send 0 (Hook.control Hook.stop); Hook.recorder_stop])%list.
Proof.
  apply (@X10_listening_turn_round_trip 0
           (Hook.fetch_json Protocol.session_abc123)
           (Hook.fetch_json Protocol.session_abc123) None [] []
           Protocol.connected_world); reflexivity.
Defined.

(* ===================================================================== *)
(** ** Opening: the microphone and the room *)
(* ===================================================================== *)

(** X11.  initializeAudio never throws.  When the microphone is granted
    and every audio object is built it answers true, clears error and
    holds a live stream, a running audio context, an inactive recorder and
    an analyser of fftSize 256.  When the microphone is denied it answers
    false and creates none of them; the human-readable message goes out in
    the microphoneError event, but the error state ends as 'Failed to
    initialize audio: ' followed by the raw message of the rejection,
    which overwrites it.  When the microphone is granted and a constructor
    throws, it answers false with 'Failed to initialize audio: ' and the
    constructor's message in error; the stream stays captured and live,
    the objects built before the failure stay in their refs, and those
    that were not built leave their refs as they were. *)
Theorem X11_initializeAudio_grant_and_denial (w : Hook.World) :
  (forall n,
     let w' := Hook.exec (Hook.initializeAudio (Hook.mic_granted n)) w in
     fst (Hook.initializeAudio (Hook.mic_granted n) w) = Hook.Ret true /\
     Hook.error (Hook.hook w') = JS.JNull /\
     Hook.audioStreamRef (Hook.refs w') = Some (repeat Hook.live n) /\
     Hook.audioContextRef (Hook.refs w') = Some Hook.running /\
     Hook.mediaRecorderRef (Hook.refs w') = Some Hook.inactive /\
     Hook.analyserRef (Hook.refs w') = Some {| Hook.fftSize := 256 |} /\
     Hook.log w' = (Hook.log w ++ [Hook.getUserMedia])%list) /\
  (forall e,
     let w' := Hook.exec (Hook.initializeAudio (Hook.mic_denied e)) w in
     fst (Hook.initializeAudio (Hook.mic_denied e) w) = Hook.Ret false /\
     Hook.error (Hook.hook w')
     = JS.JStr ("Failed to initialize audio: " ++ JS.message e) /\
     Hook.refs w' = Hook.refs w /\
     Hook.log w'
     = (Hook.log w ++ [Hook.getUserMedia;
                       Hook.dispatch_microphoneError (Hook.microphone_message e)])%list) /\
  (forall n stage e,
     let w' := Hook.exec (Hook.initializeAudio (Hook.mic_granted_audio_fails n stage e)) w in
     fst (Hook.initializeAudio (Hook.mic_granted_audio_fails n stage e) w)
     = Hook.Ret false /\
     Hook.error (Hook.hook w')
     = JS.JStr ("Failed to initialize audio: " ++ JS.message e) /\
     Hook.audioStreamRef (Hook.refs w') = Some (repeat Hook.live n) /\
     Hook.audioContextRef (Hook.refs w')
     = match stage with
       | Hook.at_AudioContext => Hook.audioContextRef (Hook.refs w)
       | _ => Some Hook.running
       end /\
     Hook.mediaRecorderRef (Hook.refs w')
     = match stage with
       | Hook.at_AudioContext | Hook.at_MediaRecorder => Hook.mediaRecorderRef (Hook.refs w)
       | _ => Some Hook.inactive
       end /\
     Hook.analyserRef (Hook.refs w')
     = match stage with
       | Hook.at_createMediaStreamSource => Some {| Hook.fftSize := 256 |}
       | _ => Hook.analyserRef (Hook.refs w)
       end /\
     Hook.log w' = (Hook.log w ++ [Hook.getUserMedia])%list /\
     Hook.hook w' = Hook.set_error (JS.JStr ("Failed to initialize audio: " ++ JS.message e))
                      (Hook.hook w)).
Proof.
  open_hook_world w. split; [|split].
  - intros x; hook_cbv; rewrite <- ?app_assoc; repeat split.
  - intros x; hook_cbv; rewrite <- ?app_assoc; repeat split.
  - intros n [| | |] e; hook_cbv; rewrite <- ?app_assoc; repeat split.
Qed.

Section OpeningFacts.

Import JS Hook Protocol.
Open Scope string_scope.

(** [onopen] when the session lacks the room name or the token. *)
Lemma onopen_fallback (h : nat) (mic : MicOutcome) (lk : RoomOutcome)
    (token room : jsval) (w : World) :
  get_prop (session (socket h w)) "livekit_user_token" = Some token ->
  get_prop (session (socket h w)) "livekit_room" = Some room ->
  truthy token && truthy room = false ->
  let w' := exec (onopen h mic lk) w in
  returns (onopen h mic lk) w = true /\
  isConnected (hook w') = true /\
  connectionStatus (hook w') = "connected" /\
  error (hook w') = JNull /\
  messages (hook w') = (messages (hook w) ++ [welcome])%list /\
  roomRef (refs w') = roomRef (refs w) /\
  sockets w' = sockets w /\
  log w' = (log w ++ Opening.microphone_calls mic)%list.
Proof.
  intros Ht Hr Hb w'. subst w'.
  destruct w as [hk [ws rec ctx stream rm an fr] sk ah tm nw lg].
  unfold socket in Ht, Hr. cbn [sockets] in Ht, Hr.
  destruct (truthy token) eqn:Htt, (truthy room) eqn:Hrt; try discriminate;
    destruct mic as [n|e|n [| | |] e];
    hook_cbv; rewrite Ht; hook_cbv; rewrite ?Htt; hook_cbv; rewrite ?Hr; hook_cbv;
    rewrite ?Hrt, ?Htt; hook_cbv;
    rewrite <- ?app_assoc; repeat split.
Qed.

(** [onopen] when the session names a room and the room does not connect. *)
Lemma onopen_room_fails (h : nat) (mic : MicOutcome) (e : Exn)
    (token room : jsval) (w : World) :
  get_prop (session (socket h w)) "livekit_user_token" = Some token ->
  truthy token = true ->
  get_prop (session (socket h w)) "livekit_room" = Some room ->
  truthy room = true ->
  let w' := exec (onopen h mic (room_fails e)) w in
  returns (onopen h mic (room_fails e)) w = true /\
  isConnected (hook w') = isConnected (hook w) /\
  connectionStatus (hook w') = "error" /\
  error (hook w') = JStr ("Failed to connect to voice service: " ++ message e) /\
  messages (hook w') = messages (hook w) /\
  roomRef (refs w') = Some room_disconnected /\
  audioStreamRef (refs w') = Opening.stream_after mic (audioStreamRef (refs w)) /\
  sockets w' = sockets w /\
  log w' = (log w ++ Opening.microphone_calls mic ++ [room_connect token])%list.
Proof.
  intros Ht Htt Hr Hrt w'. subst w'.
  destruct w as [hk [ws rec ctx stream rm an fr] sk ah tm nw lg].
  unfold socket in Ht, Hr. cbn [sockets] in Ht, Hr.
  destruct mic as [n|e'|n [| | |] e'];
    hook_cbv; rewrite Ht; hook_cbv; rewrite Htt, Hr; hook_cbv;
    rewrite Hrt; hook_cbv;
    rewrite <- ?app_assoc; repeat split.
Qed.

(** [onopen] when the room connects and the publishing of the local track
    fails. *)
Lemma onopen_publish_fails (h : nat) (mic : MicOutcome) (lk : RoomOutcome) (e : Exn)
    (token room : jsval) (tracks : list TrackState) (w : World) :
  get_prop (session (socket h w)) "livekit_user_token" = Some token ->
  truthy token = true ->
  get_prop (session (socket h w)) "livekit_room" = Some room ->
  truthy room = true ->
  lk = room_track_fails e \/ lk = room_publish_fails e ->
  Opening.stream_after mic (audioStreamRef (refs w)) = Some tracks ->
  let w' := exec (onopen h mic lk) w in
  returns (onopen h mic lk) w = true /\
  isConnected (hook w') = isConnected (hook w) /\
  connectionStatus (hook w') = "error" /\
  error (hook w') = JStr ("Failed to connect to voice service: " ++ message e) /\
  messages (hook w') = messages (hook w) /\
  roomRef (refs w') = Some room_connected /\
  audioStreamRef (refs w') = Some tracks /\
  sockets w' = sockets w /\
  log w' = (log w ++ Opening.microphone_calls mic ++ [room_connect token]
            ++ Opening.publish_calls lk)%list.
Proof.
  intros Ht Htt Hr Hrt Hlk Hs w'. subst w'.
  destruct w as [hk [ws rec ctx stream rm an fr] sk ah tm nw lg].
  unfold socket in Ht, Hr. cbn [sockets] in Ht, Hr.
  cbn [refs audioStreamRef] in Hs.
  destruct Hlk as [-> | ->];
    destruct mic as [n|e'|n [| | |] e']; cbn [Opening.stream_after] in Hs;
    try (injection Hs as <-); try subst stream;
    hook_cbv; rewrite Ht; hook_cbv; rewrite Htt, Hr; hook_cbv;
    rewrite Hrt; hook_cbv;
    rewrite <- ?app_assoc; repeat split.
Qed.

(** [onopen] when the room connects and there is no stream to publish:
    what the environment would answer to a publish is never asked. *)
Lemma onopen_nothing_to_publish (h : nat) (e : Exn) (lk : RoomOutcome)
    (token room : jsval) (w : World) :
  get_prop (session (socket h w)) "livekit_user_token" = Some token ->
  truthy token = true ->
  get_prop (session (socket h w)) "livekit_room" = Some room ->
  truthy room = true ->
  (forall e', lk <> room_fails e') ->
  audioStreamRef (refs w) = None ->
  let w' := exec (onopen h (mic_denied e) lk) w in
  returns (onopen h (mic_denied e) lk) w = true /\
  isConnected (hook w') = true /\
  connectionStatus (hook w') = "connected" /\
  error (hook w') = JNull /\
  messages (hook w') = (messages (hook w) ++ [welcome])%list /\
  roomRef (refs w') = Some room_connected.
Proof.
  intros Ht Htt Hr Hrt Hlk Hs w'. subst w'.
  destruct w as [hk [ws rec ctx stream rm an fr] sk ah tm nw lg].
  unfold socket in Ht, Hr. cbn [sockets] in Ht, Hr.
  cbn [refs audioStreamRef] in Hs. subst stream.
  destruct lk as [|e'|e'|e']; try (now contradiction (Hlk e'));
    hook_cbv; rewrite Ht; hook_cbv; rewrite Htt, Hr; hook_cbv;
    rewrite Hrt; hook_cbv; repeat split.
Qed.

Lemma sockets_marked (h : nat) (r : ReadyState) (w : World) :
  sockets (exec (set_readyState h r) w)
  = set_nth h {| readyState := r; session := session (socket h w) |} (sockets w).
Proof. reflexivity. Qed.

Lemma refs_after_mark (h : nat) (r : ReadyState) (w : World) :
  refs (exec (set_readyState h r) w) = refs w.
Proof. reflexivity. Qed.

Lemma log_after_mark (h : nat) (r : ReadyState) (w : World) :
  log (exec (set_readyState h r) w) = log w.
Proof. reflexivity. Qed.

Lemma sockets_after_mark (h : nat) (r : ReadyState) (w : World) :
  List.length (sockets (exec (set_readyState h r) w)) = List.length (sockets w).
Proof.
  cbn. generalize {| readyState := r; session := session (socket h w) |}.
  generalize (sockets w). clear. intros l; revert h.
  induction l as [|x l IH]; intros h s; [now destruct h|].
  destruct h; cbn; [reflexivity|]. now rewrite IH.
Qed.

End OpeningFacts.

(** X12.  The fallback of the open handler: when the session lacks the
    room name or the token, the hook still reports the connection as made
    (isConnected true, connectionStatus 'connected', error null, the
    welcome Turn appended) but connects no room; its only calls are those
    of the microphone.  If no room was connected before, every chunk the
    recorder then delivers is dropped, so a hook connected this way sends
    no audio. *)
Theorem X12_open_without_room_info_connects_but_sends_no_audio
    (h : nat) (mic : Hook.MicOutcome) (lk : Hook.RoomOutcome)
    (token room : JS.jsval) (w : Hook.World) :
  JS.get_prop (Hook.session (Hook.socket h w)) "livekit_user_token" = Some token ->
  JS.get_prop (Hook.session (Hook.socket h w)) "livekit_room" = Some room ->
  JS.truthy token && JS.truthy room = false ->
  let w' := Hook.step (Hook.ws_open h mic lk) w in
  Hook.isConnected (Hook.hook w') = true /\
  Hook.connectionStatus (Hook.hook w') = "connected"%string /\
  Hook.error (Hook.hook w') = JS.JNull /\
  Hook.messages (Hook.hook w') = (Hook.messages (Hook.hook w) ++ [Hook.welcome])%list /\
  Hook.roomRef (Hook.refs w') = Hook.roomRef (Hook.refs w) /\
  Hook.log w' = (Hook.log w ++ Opening.microphone_calls mic)%list /\
  (Hook.roomRef (Hook.refs w) <> Some Hook.room_connected ->
   forall size, Hook.step (Hook.recorder_ondataavailable size) w' = w').
Proof.
  intros Ht Hr Hb w'.
  assert (E : w' = Hook.exec (Hook.onopen h mic lk)
                     (Hook.exec (Hook.set_readyState h Hook.OPEN) w)) by reflexivity.
  clearbody w'. subst w'.
  rewrite <- (session_after_mark h Hook.OPEN w) in Ht, Hr.
  destruct (@onopen_fallback h mic lk token room _ Ht Hr Hb)
    as (_ & H1 & H2 & H3 & H4 & H5 & _ & H6).
  rewrite hook_after_mark in H4.
  repeat (split; [assumption|]).
  intros Hroom size. cbn [Hook.step].
  set (w' := Hook.exec (Hook.onopen h mic lk) _) in *. clearbody w'.
  change (Hook.roomRef (Hook.refs w') = Hook.roomRef (Hook.refs w)) in H5.
  rewrite <- H5 in Hroom.
  destruct w' as [hk [ws rec ctx stream rm an fr] sk ah tm nw lg].
  cbn in Hroom. destruct rm as [[|]|]; try reflexivity. now contradiction Hroom.
Qed.

Lemma X12_open_without_room_info_witness :
  let sd := JS.JObj [("session_id"%string, JS.JStr "abc123")] in
  let w := Hook.step (Hook.call_connectToVoiceService (Hook.fetch_json sd)) Hook.initial in
  let w' := Hook.step (Hook.ws_open 0 (Hook.mic_granted 1) Hook.room_connects) w in
  Hook.isConnected (Hook.hook w') = true /\
  Hook.connectionStatus (Hook.hook w') = "connected"%string /\
  Hook.error (Hook.hook w') = JS.JNull /\
  Hook.messages (Hook.hook w') = (Hook.messages (Hook.hook w) ++ [Hook.welcome])%list /\
  Hook.roomRef (Hook.refs w') = Hook.roomRef (Hook.refs w) /\
  Hook.log w' = (Hook.log w ++ Opening.microphone_calls (Hook.mic_granted 1))%list /\
  (Hook.roomRef (Hook.refs w) <> Some Hook.room_connected ->
   forall size, Hook.step (Hook.recorder_ondataavailable size) w' = w').
Proof.
  apply (@X12_open_without_room_info_connects_but_sends_no_audio 0
           (Hook.mic_granted 1) Hook.room_connects JS.JUndefined JS.JUndefined
           (Hook.step (Hook.call_connectToVoiceService
                         (Hook.fetch_json (JS.JObj [("session_id"%string, JS.JStr "abc123")])))
              Hook.initial)); reflexivity.
Defined.

(** X13.  When the session names a room and the room does not connect, the
    open handler throws nothing: it sets error to 'Failed to connect to
    voice service: <message>' and connectionStatus to 'error', leaves
    isConnected as it was and appends no welcome Turn.  Nothing is
    released: a granted microphone stream stays live in audioStreamRef, the
    sockets stay as the open left them, and the only calls are those of
    the microphone and the room's connect. *)
Theorem X13_room_failure_on_open_reports_and_releases_nothing
    (h : nat) (mic : Hook.MicOutcome) (e : JS.Exn)
    (token room : JS.jsval) (w : Hook.World) :
  JS.get_prop (Hook.session (Hook.socket h w)) "livekit_user_token" = Some token ->
  JS.truthy token = true ->
  JS.get_prop (Hook.session (Hook.socket h w)) "livekit_room" = Some room ->
  JS.truthy room = true ->
  let w' := Hook.step (Hook.ws_open h mic (Hook.room_fails e)) w in
  Hook.returns (Hook.bind (Hook.set_readyState h Hook.OPEN)
                          (fun _ => Hook.onopen h mic (Hook.room_fails e))) w = true /\
  Hook.isConnected (Hook.hook w') = Hook.isConnected (Hook.hook w) /\
  Hook.connectionStatus (Hook.hook w') = "error"%string /\
  Hook.error (Hook.hook w')
  = JS.JStr ("Failed to connect to voice service: " ++ JS.message e) /\
  Hook.messages (Hook.hook w') = Hook.messages (Hook.hook w) /\
  Hook.roomRef (Hook.refs w') = Some Hook.room_disconnected /\
  Hook.audioStreamRef (Hook.refs w')
  = Opening.stream_after mic (Hook.audioStreamRef (Hook.refs w)) /\
  Hook.sockets w' = Hook.sockets (Hook.exec (Hook.set_readyState h Hook.OPEN) w) /\
  List.length (Hook.sockets w') = List.length (Hook.sockets w) /\
  Hook.log w'
  = (Hook.log w ++ Opening.microphone_calls mic ++ [Hook.room_connect token])%list.
Proof.
  intros Ht Htt Hr Hrt w'.
  assert (E : w' = Hook.exec (Hook.onopen h mic (Hook.room_fails e))
                     (Hook.exec (Hook.set_readyState h Hook.OPEN) w)) by reflexivity.
  clearbody w'. subst w'.
  rewrite <- (session_after_mark h Hook.OPEN w) in Ht, Hr.
  destruct (@onopen_room_fails h mic e token room _ Ht Htt Hr Hrt)
    as (H0 & H1 & H2 & H3 & H4 & H5 & H6 & H7 & H8).
  rewrite hook_after_mark in H1, H4. rewrite returns_after_mark.
  repeat (split; [assumption|]).
  split; [|exact H8]. rewrite H7. apply sockets_after_mark.
Qed.

Lemma X13_room_failure_witness :
  let w := Hook.step (Hook.call_connectToVoiceService
                        (Hook.fetch_json Protocol.session_abc123)) Hook.initial in
  let e := {| JS.name := "ConnectionError"; JS.message := "could not establish pc connection" |} in
  let w' := Hook.step (Hook.ws_open 0 (Hook.mic_granted 1) (Hook.room_fails e)) w in
  Hook.returns (Hook.bind (Hook.set_readyState 0 Hook.OPEN)
                          (fun _ => Hook.onopen 0 (Hook.mic_granted 1) (Hook.room_fails e)))
    w = true /\
  Hook.isConnected (Hook.hook w') = Hook.isConnected (Hook.hook w) /\
  Hook.connectionStatus (Hook.hook w') = "error"%string /\
  Hook.error (Hook.hook w')
  = JS.JStr ("Failed to connect to voice service: " ++ JS.message e) /\
  Hook.messages (Hook.hook w') = Hook.messages (Hook.hook w) /\
  Hook.roomRef (Hook.refs w') = Some Hook.room_disconnected /\
  Hook.audioStreamRef (Hook.refs w')
  = Opening.stream_after (Hook.mic_granted 1) (Hook.audioStreamRef (Hook.refs w)) /\
  Hook.sockets w' = Hook.sockets (Hook.exec (Hook.set_readyState 0 Hook.OPEN) w) /\
  List.length (Hook.sockets w') = List.length (Hook.sockets w) /\
  Hook.log w'
  = (Hook.log w ++ Opening.microphone_calls (Hook.mic_granted 1)
     ++ [Hook.room_connect (JS.JStr "t1")])%list.
Proof.
  apply (@X13_room_failure_on_open_reports_and_releases_nothing 0
           (Hook.mic_granted 1)
           {| JS.name := "ConnectionError"; JS.message := "could not establish pc connection" |}
           (JS.JStr "t1") (JS.JStr "r1")
           (Hook.step (Hook.call_connectToVoiceService
                         (Hook.fetch_json Protocol.session_abc123)) Hook.initial));
    reflexivity.
Defined.

(** X14.  A remote audio track sets isSpeaking with no timer behind it and
    without touching isListening: subscribed while the hook is listening
    and no auto-clear is pending, it leaves both flags true for as long as
    nothing else happens, however much time passes, until the track is
    unsubscribed.  A track that is not audio changes nothing. *)
Theorem X14_remote_audio_track_raises_isSpeaking_without_timer
    (dt : N) (w : Hook.World) :
  Hook.isListening (Hook.hook w) = true ->
  Hook.timers w = [] ->
  let w1 := Hook.step (Hook.room_track_subscribed true) w in
  let w2 := Hook.step (Hook.elapse dt) w1 in
  let w3 := Hook.step (Hook.room_track_unsubscribed true) w2 in
  Protocol.both_flags w1 = true /\
  Protocol.both_flags w2 = true /\
  Hook.timers w2 = [] /\
  Hook.isSpeaking (Hook.hook w3) = false /\
  Hook.isListening (Hook.hook w3) = true /\
  Hook.step (Hook.room_track_subscribed false) w = w /\
  Hook.step (Hook.room_track_unsubscribed false) w = w.
Proof.
  intros Hl Ht w1 w2 w3. subst w3 w2 w1.
  destruct w as [[c l sp ms st er sid sd] rf sk ah tm nw lg].
  cbn in Hl, Ht. subst l tm. repeat split.
Qed.

Lemma X14_remote_audio_track_witness :
  let w := Hook.step (Hook.ws_message (Hook.msg "listening_started" []))
             Protocol.connected_world in
  let w1 := Hook.step (Hook.room_track_subscribed true) w in
  let w2 := Hook.step (Hook.elapse 60000) w1 in
  let w3 := Hook.step (Hook.room_track_unsubscribed true) w2 in
  Protocol.both_flags w1 = true /\
  Protocol.both_flags w2 = true /\
  Hook.timers w2 = [] /\
  Hook.isSpeaking (Hook.hook w3) = false /\
  Hook.isListening (Hook.hook w3) = true /\
  Hook.step (Hook.room_track_subscribed false) w = w /\
  Hook.step (Hook.room_track_unsubscribed false) w = w.
Proof.
  apply (@X14_remote_audio_track_raises_isSpeaking_without_timer 60000
           (Hook.step (Hook.ws_message (Hook.msg "listening_started" []))
              Protocol.connected_world)); reflexivity.
Defined.

(** One frame of a loop of an earlier start, with the analyser
    [initializeAudio] makes. *)
Lemma earlier_frame_runs (history : list Meter.Sample) (spectrum : list byte)
    (w : Hook.World) :
  Hook.analyserRef (Hook.refs w) = Some {| Hook.fftSize := 256 |} ->
  let s := Meter.sample_of (Hook.now w) (Hook.getByteFrequencyData 128 spectrum) in
  Hook.step (Hook.earlier_frame history spectrum) w
  = {| Hook.hook := Hook.hook w;
       Hook.refs := Hook.set_animationFrameRef (Some (Hook.next_frame_id w)) (Hook.refs w);
       Hook.sockets := Hook.sockets w;
       Hook.activityHistory := Hook.activityHistory w;
       Hook.timers := Hook.timers w;
       Hook.now := Hook.now w;
       Hook.log := (Hook.log w
                    ++ [Hook.dispatch_voiceActivity
                          (Some {| Meter.current := Meter.overall s;
                                   Meter.frequencies
                                     := (Meter.low s, Meter.mid s, Meter.high s);
                                   Meter.history := Meter.push_history s history |});
                        Hook.requestAnimationFrame (Hook.next_frame_id w)])%list |}.
Proof.
  intros Ha s. destruct w as [hk rf sk ah tm nw lg]. cbn [Hook.refs] in Ha.
  cbn [Hook.step]. unfold Hook.detectVoiceActivity_of, Hook.exec, Hook.bind at 1.
  cbn [Hook.gets Hook.refs]. rewrite Ha.
  change (Hook.frequencyBinCount {| Hook.fftSize := 256 |}) with 128%nat.
  cbv [Hook.bind Hook.gets Hook.modify Hook.call Hook.with_call Hook.with_refs Hook.ret snd
       Meter.detectVoiceActivity Hook.now Hook.activityHistory Hook.hook Hook.refs
       Hook.sockets Hook.timers Hook.log Hook.next_frame_id].
  subst s. cbn [Hook.now]. rewrite <- app_assoc. reflexivity.
Qed.

(** X15.  The voice activity loop between a start and a stop of the
    recorder.  The start makes an empty history before the first sample,
    so the first event of a start carries a history of that one sample,
    whatever was recorded before; it requests the next frame and keeps its
    id in animationFrameRef.  The stop cancels the frame of that id,
    clears the ref and dispatches a voiceActivity of 0, and changes no
    state of the hook; a second stop cancels nothing and only dispatches 0
    again.  The stop cancels nothing else: the frame of a loop that an
    earlier start left pending still runs after it, dispatches from its
    own history and puts its next frame into animationFrameRef. *)
Theorem X15_activity_loop_start_resets_stop_cancels
    (spectrum : list byte) (w : Hook.World) :
  Hook.analyserRef (Hook.refs w) = Some {| Hook.fftSize := 256 |} ->
  let w1 := Hook.step (Hook.recorder_onstart spectrum) w in
  let w2 := Hook.step Hook.recorder_onstop w1 in
  let s := Meter.sample_of (Hook.now w) (Hook.getByteFrequencyData 128 spectrum) in
  Hook.activityHistory w1 = [s] /\
  Hook.log w1
  = (Hook.log w
     ++ [Hook.dispatch_voiceActivity
           (Some {| Meter.current := Meter.overall s;
                    Meter.frequencies := (Meter.low s, Meter.mid s, Meter.high s);
                    Meter.history := [s] |});
         Hook.requestAnimationFrame (Hook.next_frame_id w)])%list /\
  Hook.animationFrameRef (Hook.refs w1) = Some (Hook.next_frame_id w) /\
  Hook.animationFrameRef (Hook.refs w2) = None /\
  Hook.hook w2 = Hook.hook w /\
  Hook.log w2
  = (Hook.log w1 ++ [Hook.cancelAnimationFrame (Hook.next_frame_id w);
                     Hook.dispatch_voiceActivity None])%list /\
  Hook.step Hook.recorder_onstop w2
  = Hook.with_call (Hook.dispatch_voiceActivity None) w2 /\
  (forall history sp,
     let w3 := Hook.step (Hook.earlier_frame history sp) w2 in
     let s3 := Meter.sample_of (Hook.now w) (Hook.getByteFrequencyData 128 sp) in
     Hook.animationFrameRef (Hook.refs w3) = Some 1%N /\
     Hook.log w3
     = (Hook.log w2
        ++ [Hook.dispatch_voiceActivity
              (Some {| Meter.current := Meter.overall s3;
                       Meter.frequencies := (Meter.low s3, Meter.mid s3, Meter.high s3);
                       Meter.history := Meter.push_history s3 history |});
            Hook.requestAnimationFrame 1%N])%list).
Proof.
  intros Ha w1 w2 s.
  assert (E1 : w1 = Hook.exec (Hook.detectVoiceActivity spectrum)
                      (Hook.with_history (fun _ => []) w)).
  { subst w1. cbn [Hook.step]. unfold Hook.startVoiceActivityDetection, Hook.exec.
    unfold Hook.bind at 1. cbn [Hook.gets]. rewrite Ha.
    unfold Hook.bind at 1. reflexivity. }
  rewrite (@detectVoiceActivity_frame spectrum (Hook.with_history (fun _ => []) w) Ha)
    in E1.
  assert (E2 : w2 = Hook.exec Hook.stopVoiceActivityDetection w1) by reflexivity.
  clearbody w2 w1. rewrite E1 in E2.
  assert (A2 : Hook.analyserRef (Hook.refs w2) = Some {| Hook.fftSize := 256 |}).
  { rewrite E2. destruct w as [hk [ws rec ctx stream room an fr] sk ah tm nw lg].
    exact Ha. }
  assert (N2 : Hook.now w2 = Hook.now w /\ Hook.next_frame_id w2 = 1%N).
  { rewrite E2. destruct w as [hk [ws rec ctx stream room an fr] sk ah tm nw lg].
    split; reflexivity. }
  destruct N2 as [N2 F2].
  split; [|split; [|split; [|split; [|split; [|split; [|split]]]]]].
  8: { intros history sp w3 s3. subst w3.
       rewrite (@earlier_frame_runs history sp w2 A2).
       cbn [Hook.refs Hook.log Hook.animationFrameRef Hook.set_animationFrameRef].
       rewrite F2, N2. split; reflexivity. }
  all: rewrite ?E2, ?E1; subst s;
    destruct w as [hk [ws rec ctx stream room an fr] sk ah tm nw lg];
    cbn [Hook.step]; hook_cbv;
    cbv [Hook.next_frame_id Hook.refs Hook.animationFrameRef];
    rewrite <- ?app_assoc; reflexivity.
Qed.

Lemma X15_activity_loop_witness :
  let w := Protocol.connected_world in
  let spectrum := [x10; x20; x30] in
  let w1 := Hook.step (Hook.recorder_onstart spectrum) w in
  let w2 := Hook.step Hook.recorder_onstop w1 in
  let s := Meter.sample_of (Hook.now w) (Hook.getByteFrequencyData 128 spectrum) in
  Hook.activityHistory w1 = [s] /\
  Hook.log w1
  = (Hook.log w
     ++ [Hook.dispatch_voiceActivity
           (Some {| Meter.current := Meter.overall s;
                    Meter.frequencies := (Meter.low s, Meter.mid s, Meter.high s);
                    Meter.history := [s] |});
         Hook.requestAnimationFrame (Hook.next_frame_id w)])%list /\
  Hook.animationFrameRef (Hook.refs w1) = Some (Hook.next_frame_id w) /\
  Hook.animationFrameRef (Hook.refs w2) = None /\
  Hook.hook w2 = Hook.hook w /\
  Hook.log w2
  = (Hook.log w1 ++ [Hook.cancelAnimationFrame (Hook.next_frame_id w);
                     Hook.dispatch_voiceActivity None])%list /\
  Hook.step Hook.recorder_onstop w2
  = Hook.with_call (Hook.dispatch_voiceActivity None) w2 /\
  (forall history sp,
     let w3 := Hook.step (Hook.earlier_frame history sp) w2 in
     let s3 := Meter.sample_of (Hook.now w) (Hook.getByteFrequencyData 128 sp) in
     Hook.animationFrameRef (Hook.refs w3) = Some 1%N /\
     Hook.log w3
     = (Hook.log w2
        ++ [Hook.dispatch_voiceActivity
              (Some {| Meter.current := Meter.overall s3;
                       Meter.frequencies := (Meter.low s3, Meter.mid s3, Meter.high s3);
                       Meter.history := Meter.push_history s3 history |});
            Hook.requestAnimationFrame 1%N])%list).
Proof.
  apply (@X15_activity_loop_start_resets_stop_cancels [x10; x20; x30]
           Protocol.connected_world); reflexivity.
Defined.

(* ===================================================================== *)
(** ** The meter at its edges *)
(* ===================================================================== *)

Section MeterEdges.

Import Meter.

Lemma overall_nonempty (t : N) (bins : list byte) :
  bins <> [] -> overall (sample_of t bins) = Fin (normalized bins).
Proof.
  intros Hne. unfold sample_of.
  destruct (band_loop _ _ _ _ _ _ _) as [[l m] hi]. cbn [overall].
  apply normalize_range; [apply sum_loop_total | reflexivity |].
  destruct bins; [contradiction|cbn; lia].
Qed.

(** The normalised average as one quotient. *)
Lemma normalized_quotient (bins : list byte) :
  bins <> [] ->
  average bins / inject_Z (Z.of_N sensitivity)
  == inject_Z (Z.of_N (total bins))
     / inject_Z (Z.of_N sensitivity * Z.of_nat (List.length bins)).
Proof.
  intros Hne. unfold average. rewrite inject_Z_mult.
  assert (Hn : ~ inject_Z (Z.of_nat (List.length bins)) == 0).
  { change 0 with (inject_Z 0). rewrite inject_Z_injective.
    destruct bins; [contradiction|cbn [List.length]; lia]. }
  field. split; [exact Hn|discriminate].
Qed.

Lemma quotient_ge_1 (a b : Z) :
  (0 < b)%Z -> (1 <= inject_Z a / inject_Z b <-> (b <= a)%Z).
Proof.
  intros Hb.
  assert (Hb' : 0 < inject_Z b) by (change 0 with (inject_Z 0); now rewrite <- Zlt_Qlt).
  rewrite Zle_Qle. split; intros H.
  - apply (Qmult_le_r _ _ (inject_Z b)) in H; [|exact Hb'].
    rewrite Qmult_1_l in H. setoid_replace (inject_Z a / inject_Z b * inject_Z b)
      with (inject_Z a) in H; [exact H|].
    field. intros E. rewrite E in Hb'. now apply Qlt_irrefl in Hb'.
  - apply Qle_shift_div_l; [exact Hb'|]. now rewrite Qmult_1_l.
Qed.

Lemma quotient_eq_0 (a b : Z) :
  (0 < b)%Z -> (inject_Z a / inject_Z b == 0 <-> a = 0%Z).
Proof.
  intros Hb. unfold Qdiv, Qeq, Qmult, Qinv, inject_Z. cbn [Qnum Qden].
  destruct b as [|p|p]; try lia. cbn. split; intros H; [lia|subst; reflexivity].
Qed.

Lemma push_history_last (s : Sample) (h : list Sample) :
  (List.length h <= maxHistoryLength)%nat ->
  push_history s h
  = skipn (List.length (h ++ [s]) - maxHistoryLength) (h ++ [s]).
Proof.
  intros H. unfold push_history.
  destruct (Nat.ltb_spec maxHistoryLength (List.length (h ++ [s]))) as [L|L].
  - rewrite length_app in *. cbn [List.length] in *.
    replace (List.length h + 1 - maxHistoryLength)%nat with 1%nat by lia.
    now destruct h.
  - now replace (List.length (h ++ [s]) - maxHistoryLength)%nat with 0%nat by lia.
Qed.

Lemma push_history_length (s : Sample) (h : list Sample) :
  (List.length h <= maxHistoryLength)%nat ->
  (List.length (push_history s h) <= maxHistoryLength)%nat.
Proof.
  intros H. rewrite push_history_last by exact H. rewrite length_skipn. lia.
Qed.

End MeterEdges.

(** X16.  With fewer than three bins a band is empty and its average is
    0/0: the low band energy of the sample is NaN, and with fewer than two
    bins so is the mid band energy; of an empty array all four values are
    NaN.  None of them is then in [0,1].  The overall loudness of an array
    that is not empty is the normalised average all the same. *)
Theorem X16_fewer_than_three_bins_give_NaN (t : N) (bins : list byte) :
  (List.length bins < 3)%nat ->
  let s := Meter.sample_of t bins in
  Meter.low s = Meter.NaN /\ ~ Meter.in_unit (Meter.low s) /\
  ((List.length bins < 2)%nat -> Meter.mid s = Meter.NaN) /\
  (bins = [] -> Meter.overall s = Meter.NaN /\ Meter.high s = Meter.NaN) /\
  (bins <> [] -> Meter.overall s = Meter.Fin (Meter.normalized bins)).
Proof.
  intros Hn s.
  assert (Ho := @overall_nonempty t bins). fold s in Ho.
  split; [|split; [|split; [|split; [|exact Ho]]]]; subst s; clear Ho;
    destruct bins as [|a [|b [|c l]]]; cbn [List.length] in Hn; try lia;
    try (intros H; try discriminate H; cbn [List.length] in H; try lia);
    try (cbn; tauto); try reflexivity.
Qed.

Lemma X16_fewer_than_three_bins_witness :
  let s := Meter.sample_of 0 [xff; x10] in
  Meter.low s = Meter.NaN /\ ~ Meter.in_unit (Meter.low s) /\
  ((List.length [xff; x10] < 2)%nat -> Meter.mid s = Meter.NaN) /\
  ([xff; x10] = [] -> Meter.overall s = Meter.NaN /\ Meter.high s = Meter.NaN) /\
  ([xff; x10] <> [] -> Meter.overall s = Meter.Fin (Meter.normalized [xff; x10])).
Proof.
  apply (@X16_fewer_than_three_bins_give_NaN 0%N [xff; x10]). vm_compute. lia.
Defined.

(** X17.  Where the meter saturates and where it reads zero: the overall
    loudness of a sample is 1 exactly when the bins average 30 (the
    sensitivity) or more, that is when their sum is at least 30 times
    their number, and it is 0 exactly when every bin is 0. *)
Theorem X17_meter_saturates_at_the_sensitivity (t : N) (bins : list byte) :
  bins <> [] ->
  exists q,
    Meter.overall (Meter.sample_of t bins) = Meter.Fin q /\
    (q == 1 <-> (Meter.sensitivity * N.of_nat (List.length bins) <= Meter.total bins)%N) /\
    (q == 0 <-> Meter.total bins = 0%N).
Proof.
  intros Hne. exists (Meter.normalized bins).
  split; [now apply overall_nonempty|].
  unfold Meter.normalized. rewrite (@normalized_quotient bins Hne).
  set (a := Z.of_N (Meter.total bins)).
  set (b := (Z.of_N Meter.sensitivity * Z.of_nat (List.length bins))%Z).
  assert (Hb : (0 < b)%Z).
  { subst b. destruct bins; [contradiction|]. cbn [List.length]. unfold Meter.sensitivity. lia. }
  assert (Ha : (0 <= a)%Z) by (subst a; lia).
  assert (Hq : 0 <= inject_Z a / inject_Z b).
  { apply Qle_shift_div_l.
    - change 0 with (inject_Z 0). now rewrite <- Zlt_Qlt.
    - rewrite Qmult_0_l. change 0 with (inject_Z 0). now rewrite <- Zle_Qle. }
  split.
  - rewrite N2Z.inj_le, N2Z.inj_mul, nat_N_Z. fold a b.
    rewrite <- (@quotient_ge_1 a b Hb). split; intros H.
    + destruct (Q.min_spec 1 (inject_Z a / inject_Z b)) as [[L E]|[L E]];
        rewrite E in H; [now apply Qlt_le_weak|]. rewrite H. apply Qle_refl.
    + now apply Q.min_l.
  - assert (Hz : Meter.total bins = 0%N <-> a = 0%Z) by (subst a; lia).
    rewrite Hz, <- (@quotient_eq_0 a b Hb). split; intros H.
    + destruct (Q.min_spec 1 (inject_Z a / inject_Z b)) as [[L E]|[L E]];
        rewrite E in H; [discriminate H|exact H].
    + rewrite Q.min_r; [exact H|]. rewrite H. discriminate.
Qed.

Lemma X17_meter_saturates_witness :
  exists q,
    Meter.overall (Meter.sample_of 0 [x1e; x1e; x1e]) = Meter.Fin q /\
    (q == 1 <-> (Meter.sensitivity * N.of_nat (List.length [x1e; x1e; x1e])
                 <= Meter.total [x1e; x1e; x1e])%N) /\
    (q == 0 <-> Meter.total [x1e; x1e; x1e] = 0%N).
Proof.
  apply (@X17_meter_saturates_at_the_sensitivity 0%N [x1e; x1e; x1e]). discriminate.
Defined.

(** X18.  The history is a window on the most recent samples: pushing any
    number of samples, one after the other, onto a history of at most 50
    leaves the last 50 of all of them, oldest first; the older ones are
    dropped from the front. *)
Theorem X18_history_is_the_last_fifty
    (samples : list Meter.Sample) (h : list Meter.Sample) :
  (List.length h <= Meter.maxHistoryLength)%nat ->
  fold_left (fun history s => Meter.push_history s history) samples h
  = skipn (List.length (h ++ samples) - Meter.maxHistoryLength) (h ++ samples).
Proof.
  revert h. induction samples as [|s rest IH]; intros h Hh.
  - cbn [fold_left]. rewrite app_nil_r.
    now replace (List.length h - Meter.maxHistoryLength)%nat with 0%nat by lia.
  - cbn [fold_left]. rewrite IH by now apply push_history_length.
    rewrite push_history_last by exact Hh.
    set (X := (h ++ [s])%list).
    set (k := (List.length X - Meter.maxHistoryLength)%nat).
    replace (h ++ s :: rest)%list with (X ++ rest)%list
      by (subst X; now rewrite <- app_assoc).
    assert (E : (skipn k X ++ rest)%list = skipn k (X ++ rest)).
    { rewrite skipn_app. replace (k - List.length X)%nat with 0%nat by lia. reflexivity. }
    rewrite E, skipn_skipn. f_equal. rewrite length_skipn, !length_app.
    subst k. lia.
Qed.

Lemma X18_history_witness :
  let s := Meter.sample_of 0 [x01; x02; x03] in
  fold_left (fun history s => Meter.push_history s history) (repeat s 60) [s]
  = skipn (List.length ([s] ++ repeat s 60) - Meter.maxHistoryLength) ([s] ++ repeat s 60).
Proof.
  apply (@X18_history_is_the_last_fifty
           (repeat (Meter.sample_of 0 [x01; x02; x03]) 60)
           [Meter.sample_of 0 [x01; x02; x03]]).
  vm_compute. lia.
Defined.

(* ===================================================================== *)
(** ** The WebSocket URL *)
(* ===================================================================== *)

Section UrlFacts.

Import Url.
Open Scope string_scope.

Lemma prefix_append (p rest : string) : String.prefix p (p ++ rest) = true.
Proof.
  induction p as [|c p IH]; [now destruct rest|]. cbn.
  destruct (Ascii.ascii_dec c c) as [_|N]; [exact IH|now contradiction N].
Qed.

Lemma drop_append (p rest : string) : drop (String.length p) (p ++ rest) = rest.
Proof. induction p as [|c p IH]; [now destruct rest|exact IH]. Qed.

Lemma prefix_split (p s : string) :
  String.prefix p s = true -> s = p ++ drop (String.length p) s.
Proof.
  revert s. induction p as [|c p IH]; intros s H; [now destruct s|].
  destruct s as [|d s]; [discriminate|]. cbn in H.
  destruct (Ascii.ascii_dec c d) as [->|]; [|discriminate].
  cbn. f_equal. now apply IH.
Qed.

Lemma replace_unfold (p r s : string) :
  replace p r s
  = if String.prefix p s then r ++ drop (String.length p) s
    else match s with
         | EmptyString => EmptyString
         | String c rest => String c (replace p r rest)
         end.
Proof. now destruct s. Qed.

(** At most one occurrence is replaced, and the text around it is kept. *)
Lemma replace_one (p r s : string) :
  replace p r s = s \/
  exists pre post, s = pre ++ p ++ post /\ replace p r s = pre ++ r ++ post.
Proof.
  induction s as [|c s IH]; rewrite replace_unfold.
  - destruct (String.prefix p "") eqn:E; [|now left].
    right. exists "", (drop (String.length p) ""). split; [|reflexivity].
    now apply prefix_split.
  - destruct (String.prefix p (String c s)) eqn:E.
    + right. exists "", (drop (String.length p) (String c s)). split; [|reflexivity].
      now apply prefix_split.
    + destruct IH as [IH|(pre & post & E1 & E2)].
      * left. now rewrite IH.
      * right. exists (String c pre), post. cbn. now rewrite E2, E1 at 1.
Qed.

Lemma replace_absent (p r s : string) :
  (forall pre post, s <> pre ++ p ++ post) -> replace p r s = s.
Proof.
  induction s as [|c s IH]; intros H; rewrite replace_unfold.
  - destruct (String.prefix p "") eqn:E; [|reflexivity].
    apply prefix_split in E. now contradiction (H "" (drop (String.length p) "")).
  - destruct (String.prefix p (String c s)) eqn:E.
    + apply prefix_split in E.
      now contradiction (H "" (drop (String.length p) (String c s))).
    + f_equal. apply IH. intros pre post E'. apply (H (String c pre) post).
      cbn. now rewrite E'.
Qed.

Lemma replace_at_start (p r rest : string) : replace p r (p ++ rest) = r ++ rest.
Proof. now rewrite replace_unfold, prefix_append, drop_append. Qed.

End UrlFacts.

(** X19.  The socket URL is the API URL with its first 'http' replaced by
    'ws', followed by '/ws/' and the session id.  An API URL that starts
    with 'http' has exactly that leading 'http' replaced, so 'https://...'
    becomes 'wss://...' and a later 'http' in the host or path is kept; an
    API URL that does not contain 'http' is used as it is (the result is
    then not a ws URL); and in every case at most one occurrence changes
    and the text around it is kept. *)
Theorem X19_socket_url_replaces_the_first_http (API_URL session_id : string) :
  (forall rest, API_URL = ("http" ++ rest)%string ->
     Url.wsUrl API_URL session_id = ("ws" ++ rest ++ "/ws/" ++ session_id)%string) /\
  ((forall pre post, API_URL <> (pre ++ "http" ++ post)%string) ->
     Url.wsUrl API_URL session_id = (API_URL ++ "/ws/" ++ session_id)%string) /\
  (Url.wsUrl API_URL session_id = (API_URL ++ "/ws/" ++ session_id)%string \/
   exists pre post,
     API_URL = (pre ++ "http" ++ post)%string /\
     Url.wsUrl API_URL session_id = ((pre ++ "ws" ++ post) ++ "/ws/" ++ session_id)%string).
Proof.
  unfold Url.wsUrl. split; [|split].
  - intros rest ->. rewrite (replace_at_start "http" "ws" rest). reflexivity.
  - intros H. now rewrite replace_absent.
  - destruct (replace_one "http" "ws" API_URL) as [E|(pre & post & E1 & E2)].
    + left. now rewrite E.
    + right. exists pre, post. split; [exact E1|now rewrite E2].
Qed.

(* ===================================================================== *)
(** ** The visualizer *)
(* ===================================================================== *)

Section Bars.

Import Meter Chat.

Lemma affine_between (a b : Q) (x : jsnum) :
  0 <= b -> in_unit x -> between a (a + b) (affine a b x).
Proof.
  intros Hb Hx. destruct x as [| |q]; try contradiction. destruct Hx as [H0 H1].
  cbn. split.
  - rewrite <- (Qplus_0_r a) at 1. apply Qplus_le_r.
    now apply Qmult_le_0_compat.
  - apply Qplus_le_r. rewrite <- (Qmult_1_l b) at 2. now apply Qmult_le_compat_r.
Qed.

Lemma between_wider (lo hi lo' hi' : Q) (x : jsnum) :
  lo' == lo -> hi == hi' -> between lo hi x -> between lo' hi' x.
Proof.
  intros El Eh. destruct x as [| |q]; try contradiction. cbn.
  now rewrite El, Eh.
Qed.

Lemma freqValue_unit (f : jsnum * jsnum * jsnum) (index : nat) :
  unit_frequencies f -> in_unit (freqValue f index).
Proof.
  destruct f as [[l m] hi]. intros (Hl & Hm & Hh). unfold freqValue.
  destruct (Nat.modulo index 3) as [|[|k]]; assumption.
Qed.

Lemma zero_unit : unit_frequencies (Fin 0, Fin 0, Fin 0).
Proof. repeat split; discriminate. Qed.

Lemma slice_last_suffix (A : Type) (n : nat) (l : list A) :
  exists older, l = (older ++ slice_last n l)%list.
Proof.
  destruct n as [|n]; [now exists []|].
  exists (firstn (List.length l - S n) l). cbn [slice_last].
  now rewrite firstn_skipn.
Qed.

Lemma slice_last_length (A : Type) (n : nat) (l : list A) :
  List.length (slice_last n l)
  = match n with
    | O => List.length l
    | _ => Nat.min n (List.length l)
    end.
Proof. destruct n as [|n]; [reflexivity|]. cbn [slice_last]. rewrite length_skipn. lia. Qed.

Lemma Forall_suffix (A : Type) (P : A -> Prop) (l1 l2 : list A) :
  Forall P (l1 ++ l2) -> Forall P l2.
Proof. intros H. now apply Forall_app in H. Qed.

End Bars.

(** X20.  The frequency bars.  There are barCount of them; bar i shows the
    low, mid or high band energy according to i mod 3.  While the state is
    neither 'listening' nor 'speaking' every bar stands at 20 percent.
    With no voice data, or with band energies in [0,1] (as the hook emits
    them), every bar stands between 20 and 80 percent; and with no voice
    data every bar stands at 20 percent even while active, which is the
    case of the page as it is wired, since it passes no voiceActivity. *)
Theorem X20_frequency_bars_between_20_and_80
    (state : string) (barCount : nat) (voiceData : option Meter.Detail) :
  (forall d, voiceData = Some d -> Chat.unit_frequencies (Meter.frequencies d)) ->
  let bars := Chat.frequency_bars state barCount voiceData in
  List.length bars = barCount /\
  Forall (Chat.between 20 80) bars /\
  (Chat.isActive state = false -> Forall (fun x => x = Meter.Fin 20) bars) /\
  (voiceData = Chat.voiceData_of Chat.va_undefined ->
   Forall (fun x => x = Meter.Fin 20) bars) /\
  (forall i d, (i < barCount)%nat -> voiceData = Some d -> Chat.isActive state = true ->
     nth i bars Meter.NaN = Chat.affine 20 60 (Chat.freqValue (Meter.frequencies d) i)).
Proof.
  intros Hd bars. subst bars. unfold Chat.frequency_bars.
  assert (Hu : Chat.unit_frequencies (Chat.frequencies_of voiceData)).
  { destruct voiceData as [d|]; [now apply Hd|apply zero_unit]. }
  split; [now rewrite length_map, length_seq|].
  split; [|split; [|split]].
  - apply Forall_map, Forall_forall. intros i _. unfold Chat.frequency_bar.
    destruct (Chat.isActive state).
    + apply (@between_wider 20 (20 + 60)); try reflexivity.
      apply affine_between; [discriminate|]. now apply freqValue_unit.
    + cbn. split; discriminate.
  - intros Ha. apply Forall_map, Forall_forall. intros i _.
    unfold Chat.frequency_bar. now rewrite Ha.
  - intros ->. apply Forall_map, Forall_forall. intros i _.
    unfold Chat.frequency_bar. destruct (Chat.isActive state); [|reflexivity].
    cbn [Chat.voiceData_of Chat.frequencies_of Chat.freqValue].
    destruct (Nat.modulo i 3) as [|[|k]]; reflexivity.
  - intros i d Hi -> Ha.
    rewrite (nth_indep _ Meter.NaN (Chat.frequency_bar state (Some d) 0))
      by now rewrite length_map, length_seq.
    rewrite map_nth, seq_nth by exact Hi. unfold Chat.frequency_bar. now rewrite Ha.
Qed.

Lemma X20_frequency_bars_witness :
  let d := {| Meter.current := Meter.Fin 1;
              Meter.frequencies := (Meter.Fin 0, Meter.Fin (1 # 2), Meter.Fin 1);
              Meter.history := [] |} in
  let bars := Chat.frequency_bars "listening" 7 (Some d) in
  List.length bars = 7%nat /\
  Forall (Chat.between 20 80) bars /\
  (Chat.isActive "listening" = false -> Forall (fun x => x = Meter.Fin 20) bars) /\
  (Some d = Chat.voiceData_of Chat.va_undefined ->
   Forall (fun x => x = Meter.Fin 20) bars) /\
  (forall i d', (i < 7)%nat -> Some d = Some d' -> Chat.isActive "listening" = true ->
     nth i bars Meter.NaN = Chat.affine 20 60 (Chat.freqValue (Meter.frequencies d') i)).
Proof.
  apply (@X20_frequency_bars_between_20_and_80 "listening" 7
           (Some {| Meter.current := Meter.Fin 1;
                    Meter.frequencies := (Meter.Fin 0, Meter.Fin (1 # 2), Meter.Fin 1);
                    Meter.history := [] |})).
  intros d' E. injection E as <-. vm_compute. intuition discriminate.
Defined.

(** X21.  The history bars.  Without voice data none is drawn.  With voice
    data they show the most recent entries of the history, oldest first:
    the last barCount of them, or all of them when there are fewer, and
    also all of them when barCount is 0 (slice(-0) keeps the whole array).
    When the entries' overall loudness is in [0,1] every bar stands
    between 10 and 100 percent. *)
Theorem X21_history_bars_show_the_latest_entries
    (barCount : nat) (d : Meter.Detail) :
  Forall Chat.unit_sample (Meter.history d) ->
  Chat.history_bars barCount None = None /\
  exists bars older,
    Chat.history_bars barCount (Some d) = Some bars /\
    Forall (Chat.between 10 100) bars /\
    Meter.history d = (older ++ Chat.slice_last barCount (Meter.history d))%list /\
    bars = map (fun entry => Chat.affine 10 90 (Meter.overall entry))
             (Chat.slice_last barCount (Meter.history d)) /\
    List.length bars = match barCount with
                       | O => List.length (Meter.history d)
                       | _ => Nat.min barCount (List.length (Meter.history d))
                       end.
Proof.
  intros Hu. split; [reflexivity|].
  destruct (slice_last_suffix barCount (Meter.history d)) as [older E].
  exists (map (fun entry => Chat.affine 10 90 (Meter.overall entry))
            (Chat.slice_last barCount (Meter.history d))), older.
  split; [reflexivity|]. split; [|split; [exact E|split; [reflexivity|]]].
  - apply Forall_map. rewrite E in Hu. apply Forall_suffix in Hu.
    revert Hu. apply Forall_impl. intros s (Ho & _).
    apply (@between_wider 10 (10 + 90)); try reflexivity.
    apply affine_between; [discriminate|exact Ho].
  - now rewrite length_map, slice_last_length.
Qed.

Lemma X21_history_bars_witness :
  let s := Meter.sample_of 0 [x10; x20; x30] in
  let d := {| Meter.current := Meter.overall s;
              Meter.frequencies := (Meter.low s, Meter.mid s, Meter.high s);
              Meter.history := [s; s; s] |} in
  Chat.history_bars 2 None = None /\
  exists bars older,
    Chat.history_bars 2 (Some d) = Some bars /\
    Forall (Chat.between 10 100) bars /\
    Meter.history d = (older ++ Chat.slice_last 2 (Meter.history d))%list /\
    bars = map (fun entry => Chat.affine 10 90 (Meter.overall entry))
             (Chat.slice_last 2 (Meter.history d)) /\
    List.length bars = Nat.min 2 (List.length (Meter.history d)).
Proof.
  apply (@X21_history_bars_show_the_latest_entries 2
           {| Meter.current := Meter.overall (Meter.sample_of 0 [x10; x20; x30]);
              Meter.frequencies := (Meter.low (Meter.sample_of 0 [x10; x20; x30]),
                                    Meter.mid (Meter.sample_of 0 [x10; x20; x30]),
                                    Meter.high (Meter.sample_of 0 [x10; x20; x30]));
              Meter.history := [Meter.sample_of 0 [x10; x20; x30];
                                Meter.sample_of 0 [x10; x20; x30];
                                Meter.sample_of 0 [x10; x20; x30]] |}).
  vm_compute. repeat constructor; discriminate.
Defined.

(** X22.  What the component shows after the socket closed.  The
    visualizer is active exactly when isListening or isSpeaking is set,
    whatever the connection; the close handler lowers neither flag, so a
    hook that was listening when its socket closed keeps the visualizer in
    the state 'listening', while the microphone button is disabled and
    the text under it reads 'Connecting to voice service...'. *)
Theorem X22_visualizer_stays_active_after_close
    (h : nat) (code : N) (reason : string) (w : Hook.World) :
  let w' := Hook.step (Hook.ws_close h code reason) w in
  let state' := Chat.getVisualizerState (Hook.isListening (Hook.hook w'))
                  (Hook.isSpeaking (Hook.hook w')) (Hook.isConnected (Hook.hook w')) in
  Chat.isActive state'
  = Hook.isListening (Hook.hook w) || Hook.isSpeaking (Hook.hook w) /\
  (Hook.isListening (Hook.hook w) = true -> state' = "listening"%string) /\
  (Hook.isListening (Hook.hook w) = false -> Hook.isSpeaking (Hook.hook w) = false ->
   state' = "disconnected"%string) /\
  Chat.button_disabled (Hook.isConnected (Hook.hook w')) = true /\
  Chat.control_text (Hook.isConnected (Hook.hook w')) (Hook.isListening (Hook.hook w'))
  = "Connecting to voice service..."%string.
Proof.
  intros w' state'. subst state'.
  assert (E := step_ws_close h code reason w). fold w' in E. clearbody w'.
  rewrite E. cbn [Hook.hook Protocol.closed_hook Hook.isListening Hook.isSpeaking
                  Hook.isConnected].
  destruct (Hook.isListening (Hook.hook w)), (Hook.isSpeaking (Hook.hook w));
    repeat split; intros; try discriminate; reflexivity.
Qed.

(* ===================================================================== *)
(** ** The microphone banner *)
(* ===================================================================== *)

Section BannerFacts.

Import Chat.

Lemma banner_run_cons (ev : BannerEvent) (evs : list BannerEvent) (b : Banner) :
  banner_run (ev :: evs) b = banner_run evs (banner_step ev b).
Proof. reflexivity. Qed.

Lemma banner_step_now (ev : BannerEvent) (b : Banner) :
  (banner_now b <= banner_now (banner_step ev b))%N.
Proof. destruct ev; cbn; lia. Qed.

Lemma banner_run_now (evs : list BannerEvent) (b : Banner) :
  (banner_now b <= banner_now (banner_run evs b))%N.
Proof.
  revert b. induction evs as [|ev evs IH]; intros b; [cbn; lia|].
  rewrite banner_run_cons. specialize (IH (banner_step ev b)).
  pose proof (banner_step_now ev b). lia.
Qed.

(** A timer stays pending until it falls due: nothing clears it. *)
Lemma banner_step_keeps (ev : BannerEvent) (b : Banner) (due : N) :
  In due (banner_timers b) -> (banner_now (banner_step ev b) < due)%N ->
  In due (banner_timers (banner_step ev b)).
Proof.
  intros Hin Hlt. destruct ev as [detail|dt]; cbn in *.
  - apply in_or_app. now left.
  - apply filter_In. split; [exact Hin|]. apply negb_true_iff, N.leb_gt. exact Hlt.
Qed.

Lemma banner_run_keeps (evs : list BannerEvent) (b : Banner) (due : N) :
  In due (banner_timers b) -> (banner_now (banner_run evs b) < due)%N ->
  In due (banner_timers (banner_run evs b)).
Proof.
  revert b. induction evs as [|ev evs IH]; intros b Hin Hlt; [exact Hin|].
  rewrite banner_run_cons in *. apply IH; [|exact Hlt].
  apply banner_step_keeps; [exact Hin|].
  pose proof (banner_run_now evs (banner_step ev b)). lia.
Qed.

(** While every pending timer lies at [t] or later and the clock is before
    [t], a banner that shows a message keeps showing one. *)
Lemma banner_run_shown (t : N) (evs : list BannerEvent) (b : Banner) :
  microphoneError b <> None ->
  Forall (fun due => (t <= due)%N) (banner_timers b) ->
  (t <= banner_now b + 5000)%N ->
  (banner_now (banner_run evs b) < t)%N ->
  microphoneError (banner_run evs b) <> None.
Proof.
  revert b. induction evs as [|ev evs IH]; intros b Hs Ht Hn Hlt; [exact Hs|].
  rewrite banner_run_cons in *.
  pose proof (banner_run_now evs (banner_step ev b)) as Hm.
  pose proof (banner_step_now ev b) as Hm'.
  apply IH; try exact Hlt; try lia.
  - destruct ev as [detail|dt]; cbn; [discriminate|].
    replace (existsb _ (banner_timers b)) with false; [exact Hs|].
    symmetry. apply not_true_is_false. intros E.
    apply existsb_exists in E as (due & Hin & Hle). apply N.leb_le in Hle.
    rewrite Forall_forall in Ht. specialize (Ht due Hin). cbn in *. lia.
  - destruct ev as [detail|dt]; cbn.
    + apply Forall_app. split; [exact Ht|]. constructor; [lia|constructor].
    + rewrite Forall_forall in *. intros due Hin. apply filter_In in Hin as [Hin _].
      now apply Ht.
Qed.

End BannerFacts.

(** X23.  The microphone banner.  The timer that hides it is never
    cleared: 5000 ms after a microphoneError event the banner is hidden,
    whatever happened in between, so a message that arrived later is
    hidden with it and shows for less than five seconds.  A message that
    arrives while no timer is pending does show for the full five
    seconds: until then the banner is never empty. *)
Theorem X23_banner_timer_is_never_cleared
    (detail : string) (evs : list Chat.BannerEvent) (b : Chat.Banner) :
  let b1 := Chat.handleMicrophoneError detail b in
  let b2 := Chat.banner_run evs b1 in
  (forall dt,
     (Chat.banner_now b2 < Chat.banner_now b + 5000)%N ->
     (Chat.banner_now b + 5000 <= Chat.banner_now b2 + dt)%N ->
     Chat.microphoneError (Chat.banner_elapse dt b2) = None) /\
  (Chat.banner_timers b = [] ->
   (Chat.banner_now b2 < Chat.banner_now b + 5000)%N ->
   Chat.microphoneError b2 <> None) /\
  (evs = [] -> Chat.microphoneError b2 = Some detail).
Proof.
  intros b1 b2. split; [|split].
  - intros dt Hlt Hle.
    assert (Hin : In (Chat.banner_now b + 5000)%N (Chat.banner_timers b2)).
    { apply banner_run_keeps; [|exact Hlt]. cbn. apply in_or_app. right. now left. }
    cbn. replace (existsb _ (Chat.banner_timers b2)) with true; [reflexivity|].
    symmetry. apply existsb_exists. exists (Chat.banner_now b + 5000)%N.
    split; [exact Hin|]. now apply N.leb_le.
  - intros Hnone Hlt.
    apply (@banner_run_shown (Chat.banner_now b + 5000)%N evs b1); try exact Hlt.
    + discriminate.
    + cbn. rewrite Hnone. cbn. constructor; [lia|constructor].
    + cbn. lia.
  - now intros ->.
Qed.

(* ===================================================================== *)
(** ** The socket of the connection test *)
(* ===================================================================== *)

Section SocketTestFacts.

Import Hook SocketTest.

(** What holds of the test's socket at every moment. *)
Lemma test_step_invariant (ev : TestEvent) (s : TestSocket) :
  state s <> OPEN /\ (close_calls s <= 1)%nat /\
  (state s = CONNECTING -> close_calls s = 0%nat) ->
  state (test_step ev s) <> OPEN /\ (close_calls (test_step ev s) <= 1)%nat /\
  (state (test_step ev s) = CONNECTING -> close_calls (test_step ev s) = 0%nat).
Proof.
  destruct s as [st n tp]. cbn. intros (Ho & Hn & Hc).
  destruct ev, st, tp; cbn; repeat split; try discriminate; try lia; try tauto;
    intros; try discriminate; try now contradiction Ho.
  all: try (specialize (Hc eq_refl); lia).
Qed.

Lemma test_run_invariant (evs : list TestEvent) (s : TestSocket) :
  state s <> OPEN /\ (close_calls s <= 1)%nat /\
  (state s = CONNECTING -> close_calls s = 0%nat) ->
  state (test_run evs s) <> OPEN /\ (close_calls (test_run evs s) <= 1)%nat /\
  (state (test_run evs s) = CONNECTING -> close_calls (test_run evs s) = 0%nat).
Proof.
  revert s. induction evs as [|ev evs IH]; intros s H; [exact H|].
  apply (IH (test_step ev s)). now apply test_step_invariant.
Qed.

Lemma test_run_never_opened (evs : list TestEvent) (s : TestSocket) :
  state s <> OPEN -> existsb is_opens evs = false ->
  close_calls (test_run evs s) = close_calls s.
Proof.
  revert s. induction evs as [|ev evs IH]; intros s Ho He; [reflexivity|].
  cbn [existsb] in He. apply orb_false_elim in He as [He1 He2].
  change (test_run (ev :: evs) s) with (test_run evs (test_step ev s)).
  rewrite IH; [| |exact He2];
    destruct s as [st n tp]; destruct ev, st, tp; cbn in *;
      try discriminate; try reflexivity; try now contradiction Ho.
Qed.

End SocketTestFacts.

(** X24.  The socket of the connection test.  Its open handler closes it
    at once, so it is never left open: whatever the order of the open,
    error and close events and of the five-second timer, the script calls
    close() at most once, and the timer's own close() never runs, because
    the timer never finds the socket open.  A socket that never opens is
    never closed by the script. *)
Theorem X24_test_socket_is_closed_once_by_its_open_handler
    (evs : list SocketTest.TestEvent) :
  let s := SocketTest.test_run evs SocketTest.created in
  SocketTest.state s <> Hook.OPEN /\
  (SocketTest.close_calls s <= 1)%nat /\
  SocketTest.close_calls (SocketTest.test_step SocketTest.timer_fires s)
  = SocketTest.close_calls s /\
  (existsb SocketTest.is_opens evs = false -> SocketTest.close_calls s = 0%nat) /\
  (SocketTest.close_calls s = 1%nat ->
   SocketTest.state s = Hook.CLOSING \/ SocketTest.state s = Hook.CLOSED).
Proof.
  intros s.
  assert (I : SocketTest.state s <> Hook.OPEN /\ (SocketTest.close_calls s <= 1)%nat /\
              (SocketTest.state s = Hook.CONNECTING -> SocketTest.close_calls s = 0%nat)).
  { apply test_run_invariant. cbn. repeat split; [discriminate|lia]. }
  destruct I as (Ho & Hn & Hc).
  split; [exact Ho|]. split; [exact Hn|]. split; [|split].
  - clearbody s. destruct s as [st n tp]. cbn in *.
    destruct tp, st; cbn; try reflexivity. now contradiction Ho.
  - intros He. subst s. rewrite test_run_never_opened; [reflexivity|discriminate|exact He].
  - intros H1. destruct (SocketTest.state s); try tauto.
    specialize (Hc eq_refl). lia.
Qed.

(* ===================================================================== *)
(** ** From the loop to the bars *)
(* ===================================================================== *)

Section LoopRuns.

Import JS Hook Protocol.

Lemma sample_unit (t : N) (spectrum : list byte) :
  Chat.unit_sample (Meter.sample_of t (getByteFrequencyData 128 spectrum)).
Proof.
  assert (Hlen : (3 <= List.length (getByteFrequencyData 128 spectrum))%nat).
  { rewrite getByteFrequencyData_length. lia. }
  rewrite (@sample_of_bands t _ Hlen). unfold Chat.unit_sample. cbn.
  repeat split; apply normalized_unit.
Qed.

Lemma push_history_unit (s : Meter.Sample) (h : list Meter.Sample) :
  (List.length h <= Meter.maxHistoryLength)%nat ->
  Chat.unit_sample s -> Forall Chat.unit_sample h ->
  Forall Chat.unit_sample (Meter.push_history s h).
Proof.
  intros Hl Hs Hh. rewrite push_history_last by exact Hl.
  set (k := (List.length (h ++ [s]) - Meter.maxHistoryLength)%nat).
  apply (@Forall_suffix _ Chat.unit_sample (firstn k (h ++ [s]))).
  rewrite firstn_skipn. apply Forall_app. split; [exact Hh|]. now constructor.
Qed.

Lemma push_history_count (s : Meter.Sample) (h : list Meter.Sample) :
  (List.length h <= Meter.maxHistoryLength)%nat ->
  List.length (Meter.push_history s h)
  = Nat.min Meter.maxHistoryLength (S (List.length h)).
Proof.
  intros Hl. rewrite push_history_last by exact Hl.
  rewrite length_skipn, length_app. cbn [List.length]. lia.
Qed.

(** One frame of the running loop. *)
Lemma frame_keeps_running (spectrum : list byte) (w : World) :
  Loop.loop_running w ->
  let w' := step (animation_frame spectrum) w in
  Loop.loop_running w' /\
  (exists d,
     log w' = (log w ++ [dispatch_voiceActivity (Some d);
                         requestAnimationFrame (next_frame_id w)])%list /\
     Chat.unit_detail d /\ Meter.history d = activityHistory w') /\
  List.length (activityHistory w')
  = Nat.min Meter.maxHistoryLength (S (List.length (activityHistory w))).
Proof.
  intros (Ha & Hf & Hl & Hu) w'.
  assert (E : w' = exec (detectVoiceActivity spectrum) w).
  { subst w'. cbn [step]. destruct (animationFrameRef (refs w)); [reflexivity|].
    now contradiction Hf. }
  rewrite (@detectVoiceActivity_frame spectrum w Ha) in E. clearbody w'.
  pose proof (sample_unit (now w) spectrum) as Hs.
  pose proof (@push_history_unit _ _ Hl Hs Hu) as Hp.
  rewrite E. unfold Loop.loop_running.
  cbn [log activityHistory refs analyserRef animationFrameRef set_animationFrameRef].
  split; [|split].
  - split; [exact Ha|]. split; [discriminate|]. split; [|exact Hp].
    rewrite push_history_count by exact Hl. lia.
  - eexists. split; [reflexivity|]. split; [|reflexivity].
    destruct Hs as (H1 & H2 & H3 & H4). repeat split; assumption.
  - now apply push_history_count.
Qed.

Lemma frames_keep_running (spectra : list (list byte)) (w : World) :
  Loop.loop_running w ->
  let w' := run (Loop.frames spectra) w in
  Loop.loop_running w' /\
  (exists calls, log w' = (log w ++ calls)%list /\ Forall Chat.drawable calls) /\
  List.length (activityHistory w')
  = Nat.min Meter.maxHistoryLength (List.length (activityHistory w) + List.length spectra).
Proof.
  revert w. induction spectra as [|sp rest IH]; intros w Hw w'.
  - subst w'. cbn [Loop.frames map run fold_left List.length].
    split; [exact Hw|]. split.
    + exists []. now rewrite app_nil_r.
    + destruct Hw as (_ & _ & Hl & _). lia.
  - destruct (@frame_keeps_running sp w Hw) as (H1 & (d & L1 & U1 & _) & N1).
    specialize (IH _ H1). cbv zeta in IH. destruct IH as (H2 & (calls & L2 & U2) & N2).
    subst w'. change (run (Loop.frames (sp :: rest)) w)
      with (run (Loop.frames rest) (step (animation_frame sp) w)).
    split; [exact H2|]. split.
    + eexists. split; [rewrite L2, L1, <- app_assoc; reflexivity|].
      apply Forall_app. split; [|exact U2].
      constructor; [exact U1|]. constructor; [exact I|constructor].
    + rewrite N2, N1. cbn [List.length]. destruct Hw as (_ & _ & Hl & _). lia.
Qed.

(** The start of the recorder starts the loop. *)
Lemma onstart_runs (spectrum : list byte) (w : World) :
  analyserRef (refs w) = Some {| fftSize := 256 |} ->
  let w' := step (recorder_onstart spectrum) w in
  Loop.loop_running w' /\
  (exists calls, log w' = (log w ++ calls)%list /\ Forall Chat.drawable calls) /\
  List.length (activityHistory w') = 1%nat.
Proof.
  intros Ha w'.
  assert (E : w' = exec (detectVoiceActivity spectrum) (with_history (fun _ => []) w)).
  { subst w'. cbn [step]. unfold startVoiceActivityDetection, exec.
    unfold bind at 1. cbn [gets]. rewrite Ha. unfold bind at 1. reflexivity. }
  rewrite (@detectVoiceActivity_frame spectrum (with_history (fun _ => []) w) Ha) in E.
  clearbody w'. rewrite E.
  pose proof (sample_unit (now w) spectrum) as Hs. unfold Loop.loop_running.
  cbn [with_history log activityHistory refs analyserRef animationFrameRef
       set_animationFrameRef now hook sockets timers].
  change (Meter.push_history ?s []) with [s].
  split; [|split; [|reflexivity]].
  - split; [exact Ha|]. split; [discriminate|]. split.
    + cbn. unfold Meter.maxHistoryLength. lia.
    + now constructor.
  - eexists. split; [reflexivity|].
    constructor; [|constructor; [exact I|constructor]].
    destruct Hs as (H1 & H2 & H3 & H4). cbn.
    repeat split; try assumption. now constructor.
Qed.

End LoopRuns.

(** X25.  From the start of the recorder on, frame after frame, every
    voiceActivity event the loop dispatches carries a loudness, three band
    energies and a history whose values are all in [0,1], so every bar
    the visualizer would draw from it lies within its range; the history
    holds one sample more after each frame until it holds 50, and the
    loop stays running. *)
Theorem X25_every_dispatched_detail_has_unit_values
    (first : list byte) (spectra : list (list byte)) (w : Hook.World) :
  Hook.analyserRef (Hook.refs w) = Some {| Hook.fftSize := 256 |} ->
  let w' := Hook.run (Hook.recorder_onstart first :: Loop.frames spectra) w in
  (exists calls,
     Hook.log w' = (Hook.log w ++ calls)%list /\ Forall Chat.drawable calls) /\
  Forall Chat.unit_sample (Hook.activityHistory w') /\
  List.length (Hook.activityHistory w')
  = Nat.min Meter.maxHistoryLength (S (List.length spectra)) /\
  Hook.animationFrameRef (Hook.refs w') <> None.
Proof.
  intros Ha w'. subst w'. rewrite run_cons.
  destruct (@onstart_runs first w Ha) as (H1 & (c1 & L1 & U1) & N1).
  destruct (@frames_keep_running spectra _ H1) as (H2 & (c2 & L2 & U2) & N2).
  split; [|split; [|split]].
  - exists (c1 ++ c2)%list. split; [now rewrite L2, L1, <- app_assoc|].
    apply Forall_app. now split.
  - apply H2.
  - rewrite N2, N1. reflexivity.
  - apply H2.
Qed.

Lemma X25_every_dispatched_detail_witness :
  let w := Protocol.connected_world in
  let w' := Hook.run (Hook.recorder_onstart [xff; x80]
                        :: Loop.frames [[x00; x40; xff]; []]) w in
  (exists calls,
     Hook.log w' = (Hook.log w ++ calls)%list /\ Forall Chat.drawable calls) /\
  Forall Chat.unit_sample (Hook.activityHistory w') /\
  List.length (Hook.activityHistory w')
  = Nat.min Meter.maxHistoryLength (S (List.length [[x00; x40; xff]; @nil byte])) /\
  Hook.animationFrameRef (Hook.refs w') <> None.
Proof.
  apply (@X25_every_dispatched_detail_has_unit_values [xff; x80]
           [[x00; x40; xff]; []] Protocol.connected_world).
  reflexivity.
Defined.

(* ===================================================================== *)
(** ** The two inbound paths, and what follows a failure *)
(* ===================================================================== *)

Section TwoPaths.

Import JS Hook Protocol.

Lemma step_room_data (f : Frame) (w : World) :
  step (room_data f) w = exec (on_room (decode f)) w.
Proof. exact (step_inbound (via_room f) w). Qed.

(** A click while connected and not listening, when the recorder fails to
    start: the start message has gone out, the recorder stays inactive and
    the failure is reported in error. *)
Lemma click_start_fails (h : nat) (w : World) (resp : FetchOutcome) (e : Exn) :
  wsRef (refs w) = Some h -> readyState (socket h w) = OPEN ->
  isConnected (hook w) = true -> isListening (hook w) = false ->
  mediaRecorderRef (refs w) = Some inactive ->
  step (call_toggleListening resp (Some e)) w
  = {| hook := set_error (JStr ("Failed to start listening: " ++ message e)) (hook w);
       refs := refs w;
       sockets := sockets w; activityHistory := activityHistory w;
       timers := timers w; now := now w;
       log := (log w ++ [ws_send h (control start); recorder_start])%list |}.
Proof.
  destruct w as [hk [ws rec ctx stream room an fr] sk ah tm nw lg].
  unfold socket. cbn [refs wsRef sockets hook mediaRecorderRef].
  intros -> Ho Hc Hl ->. destruct hk as [c l sp ms st er sid sd].
  cbn [isConnected isListening] in Hc, Hl. subst c l. cbn [step hook isListening].
  do 4 (hook_cbv; rewrite ?Ho); rewrite <- ?app_assoc; reflexivity.
Qed.

End TwoPaths.

(** X26.  The same message on the two inbound paths.  The room's data
    path handles a transcript and the four listening and processing
    messages exactly as the socket does; it differs in that an ai_response
    only appends its Turn (isSpeaking is not raised and no timer is set)
    and an error message is ignored.  Nothing removes duplicates: a
    transcript or an ai_response that arrives on both paths is appended
    twice. *)
Theorem X26_room_path_differs_and_nothing_deduplicates (f : Hook.Frame) (w : Hook.World) :
  (forall t, Protocol.turn_of (Protocol.decode f) = Some t ->
     Hook.messages (Hook.hook (Hook.run [Hook.ws_message f; Hook.room_data f] w))
     = (Hook.messages (Hook.hook w) ++ [t; t])%list) /\
  (forall text, Protocol.decode f = Protocol.ai_response text ->
     Hook.isSpeaking (Hook.hook (Hook.step (Hook.room_data f) w))
     = Hook.isSpeaking (Hook.hook w) /\
     Hook.timers (Hook.step (Hook.room_data f) w) = Hook.timers w /\
     Hook.isSpeaking (Hook.hook (Hook.step (Hook.ws_message f) w)) = true /\
     Hook.timers (Hook.step (Hook.ws_message f) w)
     = (Hook.timers w ++ [(Hook.now w + 2000)%N])%list) /\
  (forall m, Protocol.decode f = Protocol.error_msg m ->
     Hook.step (Hook.room_data f) w = w) /\
  ((forall text, Protocol.decode f <> Protocol.ai_response text) ->
   (forall m, Protocol.decode f <> Protocol.error_msg m) ->
   Protocol.decode f <> Protocol.undecodable ->
   Hook.step (Hook.room_data f) w = Hook.step (Hook.ws_message f) w).
Proof.
  split; [|split; [|split]].
  - intros t Ht. cbn [Hook.run fold_left].
    rewrite (@appends_step (Hook.room_data f) t _ Ht).
    rewrite (@appends_step (Hook.ws_message f) t _ Ht).
    now rewrite <- app_assoc.
  - intros text E. rewrite step_room_data, step_ws_message, E.
    destruct w as [hk rf sk ah tm nw lg]. repeat split.
  - intros m E. rewrite step_room_data, E. now destruct w.
  - intros H1 H2 H3. rewrite step_room_data, step_ws_message.
    destruct (Protocol.decode f); try reflexivity.
    + now contradiction (H1 text).
    + now contradiction (H2 message).
    + now contradiction H3.
Qed.

(** X27.  The start message is sent before the recorder is started.  When
    the recorder then fails to start, the message has already gone out:
    the click leaves the recorder inactive and reports 'Failed to start
    listening: <message>' in error, and sends nothing to take the start
    back, so when the backend confirms with listening_started the hook
    shows isListening while nothing is being recorded. *)
Theorem X27_recorder_failure_after_start_message
    (h : nat) (resp : Hook.FetchOutcome) (e : JS.Exn)
    (fields : list (string * JS.jsval)) (w : Hook.World) :
  Hook.wsRef (Hook.refs w) = Some h ->
  Hook.readyState (Hook.socket h w) = Hook.OPEN ->
  Hook.isConnected (Hook.hook w) = true ->
  Hook.isListening (Hook.hook w) = false ->
  Hook.mediaRecorderRef (Hook.refs w) = Some Hook.inactive ->
  let w1 := Hook.step (Hook.call_toggleListening resp (Some e)) w in
  let w2 := Hook.step (Hook.ws_message (Hook.msg "listening_started" fields)) w1 in
  Hook.log w1
  = (Hook.log w ++ [Hook.ws_send h (Hook.control Hook.start); Hook.recorder_start])%list /\
  Hook.error (Hook.hook w1) = JS.JStr ("Failed to start listening: " ++ JS.message e) /\
  Hook.isListening (Hook.hook w1) = false /\
  Hook.refs w1 = Hook.refs w /\
  Hook.isListening (Hook.hook w2) = true /\
  Hook.mediaRecorderRef (Hook.refs w2) = Some Hook.inactive /\
  Hook.log w2 = Hook.log w1.
Proof.
  intros Hw Ho Hc Hl Hr w1 w2.
  assert (E1 := @click_start_fails h w resp e Hw Ho Hc Hl Hr). fold w1 in E1.
  assert (E2 : w2 = Hook.exec (Protocol.on_socket Protocol.listening_started) w1).
  { subst w2. now rewrite step_ws_message, decode_listening_started. }
  clearbody w2 w1. rewrite E2, E1.
  cbn [Hook.hook Hook.refs Hook.log Hook.error Hook.isListening Hook.set_error].
  repeat split; assumption.
Qed.

Lemma X27_recorder_failure_witness :
  let w := Protocol.connected_world in
  let resp := Hook.fetch_json Protocol.session_abc123 in
  let e := {| JS.name := "NotSupportedError"; JS.message := "no supported mime type" |} in
  let w1 := Hook.step (Hook.call_toggleListening resp (Some e)) w in
  let w2 := Hook.step (Hook.ws_message (Hook.msg "listening_started" [])) w1 in
  Hook.log w1
  = (Hook.log w ++ [Hook.ws_send 0 (Hook.control Hook.start); Hook.recorder_start])%list /\
  Hook.error (Hook.hook w1) = JS.JStr ("Failed to start listening: " ++ JS.message e) /\
  Hook.isListening (Hook.hook w1) = false /\
  Hook.refs w1 = Hook.refs w /\
  Hook.isListening (Hook.hook w2) = true /\
  Hook.mediaRecorderRef (Hook.refs w2) = Some Hook.inactive /\
  Hook.log w2 = Hook.log w1.
Proof.
  apply (@X27_recorder_failure_after_start_message 0
           (Hook.fetch_json Protocol.session_abc123)
           {| JS.name := "NotSupportedError"; JS.message := "no supported mime type" |}
           [] Protocol.connected_world); reflexivity.
Defined.

(** X28.  The close handler disconnects the room, and the room's own
    disconnect event then runs the room handler.  After an abnormal close
    that event replaces the status 'error' by 'disconnected', so the
    status no longer tells the failure although error still holds the
    close message; and it stops the tracks and closes the audio context a
    second time, since the close handler cleared no ref. *)
Theorem X28_room_event_after_abnormal_close_hides_the_error_status
    (h : nat) (code : N) (reason : string) (w : Hook.World) :
  code <> 1000%N ->
  let w1 := Hook.step (Hook.ws_close h code reason) w in
  let w2 := Hook.step Hook.room_closed w1 in
  Hook.connectionStatus (Hook.hook w1) = "error"%string /\
  Hook.connectionStatus (Hook.hook w2) = "disconnected"%string /\
  Hook.error (Hook.hook w2) = JS.JStr (Hook.close_message code reason) /\
  Hook.isConnected (Hook.hook w2) = false /\
  Hook.refs w2 = Hook.refs w1 /\
  Hook.log w2 = (Hook.log w1 ++ Protocol.audio_calls (Hook.refs w))%list.
Proof.
  intros Hc w1 w2. apply N.eqb_neq in Hc.
  assert (E1 := step_ws_close h code reason w). fold w1 in E1.
  assert (E2 : w2 = Hook.step Hook.room_closed w1) by reflexivity.
  clearbody w2 w1. rewrite E1 in E2. rewrite E2, E1. clear E1 E2.
  destruct w as [hk [ws rec ctx stream room an fr] sk ah tm nw lg].
  unfold Protocol.audio_calls, Protocol.closed_hook, Protocol.tear.
  cbn [Hook.hook Hook.refs Hook.log Hook.audioStreamRef Hook.audioContextRef
       Hook.roomRef Hook.mediaRecorderRef Hook.wsRef Hook.analyserRef
       Hook.animationFrameRef]. rewrite Hc.
  destruct stream as [tracks|], ctx as [c|], room as [r|], rec as [r'|];
    cbn [Hook.step]; hook_cbv; rewrite ?map_map, ?stop_calls_map;
    rewrite <- ?app_assoc, ?app_nil_r; cbn [app]; rewrite ?app_nil_r;
    repeat split.
Qed.

Lemma X28_room_event_after_abnormal_close_witness :
  let w := Protocol.connected_world in
  let w1 := Hook.step (Hook.ws_close 0 1006 "") w in
  let w2 := Hook.step Hook.room_closed w1 in
  Hook.connectionStatus (Hook.hook w1) = "error"%string /\
  Hook.connectionStatus (Hook.hook w2) = "disconnected"%string /\
  Hook.error (Hook.hook w2) = JS.JStr (Hook.close_message 1006 "") /\
  Hook.isConnected (Hook.hook w2) = false /\
  Hook.refs w2 = Hook.refs w1 /\
  Hook.log w2 = (Hook.log w1 ++ Protocol.audio_calls (Hook.refs w))%list.
Proof.
  apply (@X28_room_event_after_abnormal_close_hides_the_error_status 0 1006 ""
           Protocol.connected_world).
  discriminate.
Defined.

(** X29.  When the session names a room, the room connects and the
    publishing of the local track then fails (the track cannot be made,
    or publishTrack is rejected), the open handler throws nothing: it
    sets error to 'Failed to connect to voice service: <message>' and
    connectionStatus to 'error', leaves isConnected as it was and appends
    no welcome Turn.  The room is left connected and the stream captured:
    nothing disconnects the one or stops the other.  The publishing is
    tried only when there is a stream: with the microphone denied and no
    earlier stream, the open ends connected and welcomed whatever the
    publishing would have answered. *)
Theorem X29_publish_failure_on_open_leaves_the_room_connected
    (h : nat) (mic : Hook.MicOutcome) (lk : Hook.RoomOutcome)
    (token room : JS.jsval) (w : Hook.World) :
  JS.get_prop (Hook.session (Hook.socket h w)) "livekit_user_token" = Some token ->
  JS.truthy token = true ->
  JS.get_prop (Hook.session (Hook.socket h w)) "livekit_room" = Some room ->
  JS.truthy room = true ->
  let w' := Hook.step (Hook.ws_open h mic lk) w in
  (forall e tracks,
     lk = Hook.room_track_fails e \/ lk = Hook.room_publish_fails e ->
     Opening.stream_after mic (Hook.audioStreamRef (Hook.refs w)) = Some tracks ->
     Hook.returns (Hook.bind (Hook.set_readyState h Hook.OPEN)
                             (fun _ => Hook.onopen h mic lk)) w = true /\
     Hook.isConnected (Hook.hook w') = Hook.isConnected (Hook.hook w) /\
     Hook.connectionStatus (Hook.hook w') = "error"%string /\
     Hook.error (Hook.hook w')
     = JS.JStr ("Failed to connect to voice service: " ++ JS.message e) /\
     Hook.messages (Hook.hook w') = Hook.messages (Hook.hook w) /\
     Hook.roomRef (Hook.refs w') = Some Hook.room_connected /\
     Hook.audioStreamRef (Hook.refs w') = Some tracks /\
     Hook.log w'
     = (Hook.log w ++ Opening.microphone_calls mic ++ [Hook.room_connect token]
        ++ Opening.publish_calls lk)%list) /\
  (forall e0,
     mic = Hook.mic_denied e0 ->
     Hook.audioStreamRef (Hook.refs w) = None ->
     (forall e, lk <> Hook.room_fails e) ->
     Hook.returns (Hook.bind (Hook.set_readyState h Hook.OPEN)
                             (fun _ => Hook.onopen h mic lk)) w = true /\
     Hook.isConnected (Hook.hook w') = true /\
     Hook.connectionStatus (Hook.hook w') = "connected"%string /\
     Hook.error (Hook.hook w') = JS.JNull /\
     Hook.messages (Hook.hook w') = (Hook.messages (Hook.hook w) ++ [Hook.welcome])%list /\
     Hook.roomRef (Hook.refs w') = Some Hook.room_connected).
Proof.
  intros Ht Htt Hr Hrt w'.
  assert (E : w' = Hook.exec (Hook.onopen h mic lk)
                     (Hook.exec (Hook.set_readyState h Hook.OPEN) w)) by reflexivity.
  clearbody w'. subst w'.
  rewrite <- (session_after_mark h Hook.OPEN w) in Ht, Hr.
  rewrite returns_after_mark.
  split.
  - intros e tracks Hlk Hs.
    rewrite <- (refs_after_mark h Hook.OPEN w) in Hs.
    destruct (@onopen_publish_fails h mic lk e token room tracks _ Ht Htt Hr Hrt Hlk Hs)
      as (H0 & H1 & H2 & H3 & H4 & H5 & H6 & _ & H8).
    rewrite hook_after_mark in H1, H4. rewrite log_after_mark in H8.
    repeat (split; [assumption|]). exact H8.
  - intros e0 -> Hs Hlk.
    rewrite <- (refs_after_mark h Hook.OPEN w) in Hs.
    destruct (@onopen_nothing_to_publish h e0 lk token room _ Ht Htt Hr Hrt Hlk Hs)
      as (H0 & H1 & H2 & H3 & H4 & H5).
    rewrite hook_after_mark in H4.
    repeat (split; [assumption|]). exact H5.
Qed.

Lemma X29_publish_failure_witness :
  let w := Hook.step (Hook.call_connectToVoiceService
                        (Hook.fetch_json Protocol.session_abc123)) Hook.initial in
  let mic := Hook.mic_granted 1 in
  let lk := Hook.room_publish_fails
              {| JS.name := "PublishTrackError"; JS.message := "publishing rejected" |} in
  let w' := Hook.step (Hook.ws_open 0 mic lk) w in
  (forall e tracks,
     lk = Hook.room_track_fails e \/ lk = Hook.room_publish_fails e ->
     Opening.stream_after mic (Hook.audioStreamRef (Hook.refs w)) = Some tracks ->
     Hook.returns (Hook.bind (Hook.set_readyState 0 Hook.OPEN)
                             (fun _ => Hook.onopen 0 mic lk)) w = true /\
     Hook.isConnected (Hook.hook w') = Hook.isConnected (Hook.hook w) /\
     Hook.connectionStatus (Hook.hook w') = "error"%string /\
     Hook.error (Hook.hook w')
     = JS.JStr ("Failed to connect to voice service: " ++ JS.message e) /\
     Hook.messages (Hook.hook w') = Hook.messages (Hook.hook w) /\
     Hook.roomRef (Hook.refs w') = Some Hook.room_connected /\
     Hook.audioStreamRef (Hook.refs w') = Some tracks /\
     Hook.log w'
     = (Hook.log w ++ Opening.microphone_calls mic ++ [Hook.room_connect (JS.JStr "t1")]
        ++ Opening.publish_calls lk)%list) /\
  (forall e0,
     mic = Hook.mic_denied e0 ->
     Hook.audioStreamRef (Hook.refs w) = None ->
     (forall e, lk <> Hook.room_fails e) ->
     Hook.returns (Hook.bind (Hook.set_readyState 0 Hook.OPEN)
                             (fun _ => Hook.onopen 0 mic lk)) w = true /\
     Hook.isConnected (Hook.hook w') = true /\
     Hook.connectionStatus (Hook.hook w') = "connected"%string /\
     Hook.error (Hook.hook w') = JS.JNull /\
     Hook.messages (Hook.hook w') = (Hook.messages (Hook.hook w) ++ [Hook.welcome])%list /\
     Hook.roomRef (Hook.refs w') = Some Hook.room_connected).
Proof.
  apply (@X29_publish_failure_on_open_leaves_the_room_connected 0
           (Hook.mic_granted 1)
           (Hook.room_publish_fails
              {| JS.name := "PublishTrackError"; JS.message := "publishing rejected" |})
           (JS.JStr "t1") (JS.JStr "r1")
           (Hook.step (Hook.call_connectToVoiceService
                         (Hook.fetch_json Protocol.session_abc123)) Hook.initial));
    reflexivity.
Defined.
